(** * fishroom/models.py: the message interchange format

    A shallow embedding of [fishroom/models.py] together with the parts of
    its collaborators that decide its behaviour: the Python builtins it
    calls, the [json] module, and the marshmallow 2.x schema machinery it is
    written against.

    Conventions
    - A Python call either returns or raises: [outcome A].  A [try] block
      with a bare [except] clause is [try_except].
    - Python data that crosses the schema boundary is a [pyval] (None, bool,
      int, float, str, list, tuple, dict).  A float is a binary64 number:
      [float] gives the rounding of a decimal literal and the shortest
      decimal that [repr] prints.
    - A str is a [string] holding the UTF-8 encoding of the text, so that
      decoding bytes as UTF-8 is a validity check followed by the identity;
      [well_formed] says that a [string] is such an encoding.
      Iterating a str yields its characters ([py_str_chars]).  [int()] on a
      str knows the decimal digits and the blanks of Unicode 14.0.
    - A bool is an instance of [int] and stays a bool where it is stored
      ([pyint]).
    - A dict is an association list with unique keys in insertion order.  A
      schema that is not ordered visits its fields in an order that depends
      on the hash seed; what it dumps is given here in the order of
      declaration, which is one of them.
    - [json.dumps] returns on every [pyval]: what it refuses (a set, a
      bytes object, a key that is no str) is none.  The limits of an
      interpreter (the recursion depth, the cap on the number of digits of
      an int written in decimal) are not modelled.
    - An object attribute that may be unset is an [option]: [None] is the
      attribute that was never assigned. *)

From Stdlib Require Import ZArith List String Ascii Bool Lia.
From Stdlib Require Import Strings.Byte.
From Stdlib Require Import DecimalString DecimalPos.
From Stdlib Require Import Floats.SpecFloat.
Import ListNotations.

Set Warnings "-register-all".

Open Scope string_scope.
Open Scope Z_scope.

(** ** Exceptions and outcomes *)

Inductive exn : Type :=
| ValidationError (msg : string)
| TypeError
| ValueError
| AttributeError
| UnicodeDecodeError
| OverflowError
| RuntimeError
| JSONDecodeError.

Inductive outcome (A : Type) : Type :=
| Returned (a : A)
| Raised (e : exn).

Arguments Returned {A} a.
Arguments Raised {A} e.

Definition bind {A B : Type} (c : outcome A) (k : A -> outcome B) : outcome B :=
  match c with
  | Returned a => k a
  | Raised e => Raised e
  end.

Notation "x <- c ;; k" := (bind c (fun x => k))
  (at level 61, c at next level, right associativity).
Notation "' p <- c ;; k" := (bind c (fun x => let 'p := x in k))
  (at level 61, p pattern, c at next level, right associativity).

(** [try: body except: handler] with a bare [except] clause. *)
Definition try_except {A : Type} (body : outcome A) (handler : outcome A) : outcome A :=
  match body with
  | Returned a => Returned a
  | Raised _ => handler
  end.

(** ** Python values *)

(** A float is an IEEE 754 binary64 number; see [float] below. *)
Definition float : Type := spec_float.

Inductive pyval : Type :=
| VNone
| VBool (b : bool)
| VInt (n : Z)
| VFloat (x : float)
| VStr (s : string)
| VList (l : list pyval)
| VTuple (l : list pyval)
| VDict (d : list (string * pyval)).

Definition dict : Type := list (string * pyval).

(** [d.get(k)] *)
Fixpoint dict_get {A : Type} (d : list (string * A)) (k : string) : option A :=
  match d with
  | [] => None
  | (k', v) :: d' => if String.eqb k' k then Some v else dict_get d' k
  end.

(** [d[k] = v]: an existing key keeps its position. *)
Fixpoint dict_set {A : Type} (d : list (string * A)) (k : string) (v : A) : list (string * A) :=
  match d with
  | [] => [(k, v)]
  | (k', v') :: d' =>
      if String.eqb k' k then (k', v) :: d' else (k', v') :: dict_set d' k v
  end.

(** [dict(pairs)] *)
Definition dict_of_pairs {A : Type} (pairs : list (string * A)) : list (string * A) :=
  fold_left (fun d kv => dict_set d (fst kv) (snd kv)) pairs [].

(** ** Characters and text *)

Definition ord (c : ascii) : Z := Z.of_N (N_of_ascii c).
Definition chr (n : Z) : ascii := ascii_of_N (Z.to_N n).

(** Number of continuation bytes announced by the first byte of a UTF-8
    sequence. *)
Definition utf8_trail (c : ascii) : nat :=
  let n := ord c in
  if n <? 192 then 0%nat
  else if n <? 224 then 1%nat
  else if n <? 240 then 2%nat
  else 3%nat.

Fixpoint split_at (k : nat) (s : string) : string * string :=
  match k, s with
  | S k', String c s' => let (t, r) := split_at k' s' in (String c t, r)
  | _, _ => ("", s)
  end.

Fixpoint py_str_chars_fuel (fuel : nat) (s : string) : list string :=
  match fuel, s with
  | S fuel', String c s' =>
      let (t, r) := split_at (utf8_trail c) s' in
      String c t :: py_str_chars_fuel fuel' r
  | _, _ => []
  end.

(** [list(s)] for a str [s]: its characters, each a str of length one. *)
Definition py_str_chars (s : string) : list string :=
  py_str_chars_fuel (String.length s) s.

(** [ord(ch)] for a str [ch] of one character: the code point its UTF-8
    bytes spell. *)
Definition py_ord (ch : string) : Z :=
  match ch with
  | String c t =>
      let n := ord c in
      let lead :=
        match utf8_trail c with
        | 0%nat => n
        | 1%nat => Z.land n 31
        | 2%nat => Z.land n 15
        | _ => Z.land n 7
        end in
      fold_left (fun cp b => 64 * cp + Z.land (ord b) 63) (list_ascii_of_string t) lead
  | "" => 0
  end.

(** [str(n)] *)
Definition py_str_of_int (n : Z) : string :=
  NilZero.string_of_int (Z.to_int n).

(** [sep.join(l)] *)
Fixpoint py_join (sep : string) (l : list string) : string :=
  match l with
  | [] => ""
  | [x] => x
  | x :: l' => x ++ sep ++ py_join sep l'
  end.

(** ** class float

    A float is an IEEE 754 binary64 number, held as the standard library
    holds it: a zero, an infinity, the NaN, or [m * 2 ^ e] with a sign, [m]
    of 53 bits (fewer for a subnormal number, whose [e] is [-1074]). *)

Module float.

Definition prec : Z := 53.
Definition emax : Z := 1024.

(** [float(text)] for a decimal literal: the float nearest to
    [m * 10 ^ e10], ties to even; [m] is the natural number the digits
    spell and [neg] the sign.  The first tests only spare the powers that
    decide nothing: from [10 ^ 309] on every number is an infinity, and
    below [10 ^ -324] a zero. *)
Definition of_decimal (neg : bool) (m e10 : Z) : float :=
  if m <=? 0 then S754_zero neg
  else if 309 <=? e10 then S754_infinity neg
  else if e10 + Z.log2 m + 1 <? -324 then S754_zero neg
  else if 0 <=? e10 then binary_round prec emax neg (Z.to_pos (m * 10 ^ e10)) 0
  else
    let d := 10 ^ (- e10) in
    let s := Z.max 0 (Z.log2 d - Z.log2 m + 55) in
    let (q, r) := Z.div_eucl (Z.shiftl m s) d in
    binary_round_aux prec emax neg q (- s) (new_location d r).

(** [x == 0.0] *)
Definition is_zero (x : float) : bool :=
  match x with
  | S754_zero _ => true
  | _ => false
  end.

(** [x == n] for an int [n] *)
Definition eqb_int (x : float) (n : Z) : bool :=
  match x with
  | S754_zero _ => n =? 0
  | S754_finite s m e =>
      let v := if s then Z.neg m else Z.pos m in
      if 0 <=? e then v * 2 ^ e =? n else v =? n * 2 ^ (- e)
  | _ => false
  end.

(** [int(x)]: towards zero; [None] for the NaN and the infinities. *)
Definition trunc (x : float) : option Z :=
  match x with
  | S754_zero _ => Some 0
  | S754_finite s m e =>
      let a := if 0 <=? e then Z.pos m * 2 ^ e else Z.pos m / 2 ^ (- e) in
      Some (if s then - a else a)
  | _ => None
  end.

(** *** [repr]: the shortest decimal that reads back as the float *)

(** [d * 10 ^ k] compared with [n / b] *)
Definition compare_scaled (d k n b : Z) : comparison :=
  if 0 <=? k then d * 10 ^ k * b ?= n else d * b ?= n * 10 ^ (- k).

(** [floor ((a / b) / 10 ^ k)] *)
Definition floor_scaled (a b k : Z) : Z :=
  if 0 <=? k then a / (b * 10 ^ k) else (a * 10 ^ (- k)) / b.

(** The largest [p] among [p0], [p0 - 1], ... with [10 ^ p <= a / b]. *)
Fixpoint log10_from (fuel : nat) (a b p : Z) : Z :=
  match fuel with
  | O => p
  | S fuel' =>
      match compare_scaled 1 p a b with
      | Gt => log10_from fuel' a b (p - 1)
      | _ => p
      end
  end.

(** The shortest decimal [d * 10 ^ k] that rounds to the float [a / b],
    whose neighbours lie halfway at [lo / b] and [hi / b]; the bounds
    count when the mantissa is even ([closed]).  With [n] digits the two
    candidates are the decimals around [a / b]; of two that fit the nearer
    is taken, the even one on a tie; if none fits, one more digit is
    tried.  [p] is the decimal exponent of [a / b]. *)
Fixpoint shortest_from (fuel : nat) (closed : bool) (a lo hi b p n : Z) : Z * Z :=
  let k := p - n + 1 in
  let d1 := floor_scaled a b k in
  let d2 := d1 + 1 in
  match fuel with
  | O => (d1, k)
  | S fuel' =>
      let ok1 := match compare_scaled d1 k lo b with
                 | Gt => true | Eq => closed | Lt => false end in
      let ok2 := match compare_scaled d2 k hi b with
                 | Lt => true | Eq => closed | Gt => false end in
      match compare_scaled d1 k a b with
      | Eq => (d1, k)
      | _ =>
          if ok1 && ok2 then
            match compare_scaled (2 * d1 + 1) k (2 * a) b with
            | Lt => (d2, k)
            | Gt => (d1, k)
            | Eq => if Z.even d1 then (d1, k) else (d2, k)
            end
          else if ok1 then (d1, k)
          else if ok2 then (d2, k)
          else shortest_from fuel' closed a lo hi b p (n + 1)
      end
  end.

Fixpoint strip_zeros (fuel : nat) (d k : Z) : Z * Z :=
  match fuel with
  | O => (d, k)
  | S fuel' =>
      if (d mod 10 =? 0) && (0 <? d) then strip_zeros fuel' (d / 10) (k + 1)
      else (d, k)
  end.

(** The digits of the shortest decimal of the float [m * 2 ^ e] and the
    place of its decimal point: the float reads [0.digits * 10 ^ decpt].
    Seventeen digits always suffice. *)
Definition shortest (m : positive) (e : Z) : string * Z :=
  let boundary := (Z.pos m =? 2 ^ 52) && (-1074 <? e) in
  let s := e - 2 in
  let up := 2 ^ Z.max s 0 in
  let b := 2 ^ Z.max (- s) 0 in
  let a := 4 * Z.pos m * up in
  let lo := (4 * Z.pos m - (if boundary then 1 else 2)) * up in
  let hi := (4 * Z.pos m + 2) * up in
  let p0 := ((Z.log2 (Z.pos m) + e) * 30103) / 100000 in
  let p := log10_from 4 a b (p0 + 1) in
  let '(d, k) := shortest_from 17 (Z.even (Z.pos m)) a lo hi b p 1 in
  let '(d, k) := strip_zeros 20 d k in
  let digits := py_str_of_int d in
  (digits, Z.of_nat (String.length digits) + k).

Fixpoint zeros (n : nat) : string :=
  match n with
  | O => ""
  | S n' => String "0" (zeros n')
  end.

(** The text of a positive float from its digits: with an exponent of at
    least two digits when the decimal point lies outside the digits by
    more than four places to the left or sixteen to the right, and else
    with a decimal point and at least one digit on either side. *)
Definition format (digits : string) (decpt : Z) : string :=
  let n := Z.of_nat (String.length digits) in
  if (decpt <=? -4) || (16 <? decpt) then
    let mantissa :=
      match digits with
      | String c "" => String c ""
      | String c rest => String c ("." ++ rest)
      | "" => ""
      end in
    let x := decpt - 1 in
    mantissa ++ "e" ++ (if x <? 0 then "-" else "+")
    ++ (if Z.abs x <? 10 then "0" else "") ++ py_str_of_int (Z.abs x)
  else if decpt <=? 0 then "0." ++ zeros (Z.to_nat (- decpt)) ++ digits
  else if n <=? decpt then digits ++ zeros (Z.to_nat (decpt - n)) ++ ".0"
  else substring 0 (Z.to_nat decpt) digits ++ "."
       ++ substring (Z.to_nat decpt) (Z.to_nat (n - decpt)) digits.

(** [repr(x)] *)
Definition __repr__ (x : float) : string :=
  match x with
  | S754_nan => "nan"
  | S754_infinity s => if s then "-inf" else "inf"
  | S754_zero s => if s then "-0.0" else "0.0"
  | S754_finite s m e =>
      let (digits, decpt) := shortest m e in
      (if s then "-" else "") ++ format digits decpt
  end.

End float.

(** ** Builtins *)

(** [bool(v)] *)
Definition py_truthy (v : pyval) : bool :=
  match v with
  | VNone => false
  | VBool b => b
  | VInt n => negb (n =? 0)
  | VFloat x => negb (float.is_zero x)
  | VStr s => negb (String.eqb s "")
  | VList l | VTuple l => match l with [] => false | _ => true end
  | VDict d => match d with [] => false | _ => true end
  end.

(** An instance of [int]: an int proper or a bool, [bool] being a subclass
    of [int]. *)
Inductive pyint : Type :=
| IInt (n : Z)
| IBool (b : bool).

Coercion IInt : Z >-> pyint.

Definition pyval_of_pyint (i : pyint) : pyval :=
  match i with
  | IInt n => VInt n
  | IBool b => VBool b
  end.

(** [str(i)] *)
Definition py_str_of_pyint (i : pyint) : string :=
  match i with
  | IInt n => py_str_of_int n
  | IBool true => "True"
  | IBool false => "False"
  end.

(** [isinstance(v, int)] *)
Definition py_isinstance_int (v : pyval) : option pyint :=
  match v with
  | VBool b => Some (IBool b)
  | VInt n => Some (IInt n)
  | _ => None
  end.

(** [isinstance(v, str)] *)
Definition py_isinstance_str (v : pyval) : option string :=
  match v with
  | VStr s => Some s
  | _ => None
  end.

(** [list(iter(v))]: None, bool, int and float are not iterable; a dict
    iterates over its keys. *)
Definition py_iter (v : pyval) : outcome (list pyval) :=
  match v with
  | VNone | VBool _ | VInt _ | VFloat _ => Raised TypeError
  | VStr s => Returned (map VStr (py_str_chars s))
  | VList l | VTuple l => Returned l
  | VDict d => Returned (map (fun kv => VStr (fst kv)) d)
  end.

(** *** [int()] on a str

    The text is read as ASCII after every blank outside ASCII is taken
    for a space and every decimal digit, of whatever script, for its ASCII
    digit.  Then come blanks (those of C's [isspace]), a sign, digits that
    single underscores may separate, and blanks. *)

(** The code points of the digit zero of each script (Unicode 14.0); the
    digits one to nine follow each of them. *)
Definition unicode_zeros : list Z :=
  [48; 1632; 1776; 1984; 2406; 2534; 2662; 2790; 2918; 3046; 3174; 3302; 3430;
   3558; 3664; 3792; 3872; 4160; 4240; 6112; 6160; 6470; 6608; 6784; 6800; 6992;
   7088; 7232; 7248; 42528; 43216; 43264; 43472; 43504; 43600; 44016; 65296;
   66720; 68912; 69734; 69872; 69942; 70096; 70384; 70736; 70864; 71248; 71360;
   71472; 71904; 72016; 72784; 73040; 73120; 92768; 92864; 93008; 120782;
   120792; 120802; 120812; 120822; 123200; 123632; 125264; 130032].

(** The value of a decimal digit of any script. *)
Definition unicode_decimal (cp : Z) : option Z :=
  match find (fun z => (z <=? cp) && (cp <? z + 10)) unicode_zeros with
  | Some z => Some (cp - z)
  | None => None
  end.

(** The blanks outside ASCII. *)
Definition unicode_space (cp : Z) : bool :=
  existsb (Z.eqb cp) [133; 160; 5760; 8232; 8233; 8239; 8287; 12288]
  || ((8192 <=? cp) && (cp <=? 8202)).

(** What [int()] reads in place of a character; [None] for a character
    outside ASCII that is neither a blank nor a decimal digit. *)
Definition int_char (ch : string) : option ascii :=
  let cp := py_ord ch in
  if cp <? 128 then Some (chr cp)
  else if unicode_space cp then Some " "%char
  else option_map (fun d => chr (48 + d)) (unicode_decimal cp).

Fixpoint int_text (chars : list string) : option (list ascii) :=
  match chars with
  | [] => Some []
  | ch :: rest =>
      match int_char ch, int_text rest with
      | Some c, Some t => Some (c :: t)
      | _, _ => None
      end
  end.

(** The blanks of C's [isspace]. *)
Definition is_space (c : ascii) : bool :=
  let n := ord c in
  ((9 <=? n) && (n <=? 13)) || (n =? 32).

Definition is_digit (c : ascii) : bool :=
  let n := ord c in (48 <=? n) && (n <=? 57).

Fixpoint lstrip (s : list ascii) : list ascii :=
  match s with
  | c :: s' => if is_space c then lstrip s' else s
  | [] => []
  end.

Definition strip (s : list ascii) : list ascii :=
  rev (lstrip (rev (lstrip s))).

(** Digits of a decimal literal; single underscores may separate digits. *)
Fixpoint digits_value (acc : Z) (after_digit : bool) (s : list ascii) : option Z :=
  match s with
  | [] => if after_digit then Some acc else None
  | c :: s' =>
      if is_digit c then digits_value (10 * acc + (ord c - 48)) true s'
      else if Ascii.eqb c "_" && after_digit then digits_value acc false s'
      else None
  end.

(** [int(s)] for a str [s], base 10. *)
Definition py_int_of_str (s : string) : outcome Z :=
  let body :=
    match option_map strip (int_text (py_str_chars s)) with
    | Some (c :: s') =>
        if Ascii.eqb c "-" then option_map Z.opp (digits_value 0 false s')
        else if Ascii.eqb c "+" then digits_value 0 false s'
        else digits_value 0 false (c :: s')
    | _ => None
    end in
  match body with
  | Some n => Returned n
  | None => Raised ValueError
  end.

(** [int(v)] *)
Definition py_int (v : pyval) : outcome Z :=
  match v with
  | VBool b => Returned (if b then 1 else 0)
  | VInt n => Returned n
  | VFloat x =>
      match float.trunc x with
      | Some n => Returned n
      | None => Raised (match x with S754_nan => ValueError | _ => OverflowError end)
      end
  | VStr s => py_int_of_str s
  | VNone | VList _ | VTuple _ | VDict _ => Raised TypeError
  end.

(** [a, b = map(int, items)]: the items are converted as they are drawn;
    after the second one the iterator must be exhausted. *)
Definition unpack2_map_int (items : list pyval) : outcome (Z * Z) :=
  match items with
  | a :: b :: rest =>
      x <- py_int a ;;
      y <- py_int b ;;
      match rest with
      | [] => Returned (x, y)
      | c :: _ => _ <- py_int c ;; Raised ValueError
      end
  | [a] => _ <- py_int a ;; Raised ValueError
  | [] => Raised ValueError
  end.

(** [hash(v)] succeeds. *)
Fixpoint py_hashable (v : pyval) : bool :=
  match v with
  | VNone | VBool _ | VInt _ | VFloat _ | VStr _ => true
  | VTuple l => forallb py_hashable l
  | VList _ | VDict _ => false
  end.

(** [set(v)].  Membership is all the program asks of the set, so it is
    kept as the list of the elements drawn from [v]. *)
Definition py_set (v : pyval) : outcome (list pyval) :=
  items <- py_iter v ;;
  if forallb py_hashable items then Returned items else Raised TypeError.

(** [name in styles] for a str [name]: only an equal str compares equal. *)
Definition py_str_in (name : string) (elems : list pyval) : bool :=
  existsb (fun v => match v with VStr s => String.eqb s name | _ => false end) elems.

(** ** class Color *)

Record Color : Type := { fg : pyint; bg : option Z }.

Module Color.

Definition __init__ (fg : pyint) (bg : option Z) : Color :=
  {| fg := fg; bg := bg |}.

Definition __repr__ (c : Color) : string :=
  "<color: " ++ py_str_of_pyint (fg c) ++ "/" ++
  match bg c with Some b => py_str_of_int b | None => "None" end ++ ">".

End Color.

(** ** class ColorField *)

Module ColorField.

Definition _serialize (value : option Color) : pyval :=
  match value with
  | None => VStr ""
  | Some c =>
      VTuple [pyval_of_pyint (fg c);
              match bg c with Some b => VInt b | None => VNone end]
  end.

Definition _deserialize (value : pyval) : outcome (option Color) :=
  if negb (py_truthy value) then Returned None
  else match py_isinstance_int value with
       | Some n => Returned (Some (Color.__init__ n None))
       | None =>
           '(fg, bg) <- try_except
                          (items <- py_iter value ;; unpack2_map_int items)
                          (Raised (ValidationError
                                     "Color field should only contain fg and bg")) ;;
           Returned (Some (Color.__init__ fg (Some bg)))
       end.

End ColorField.

(** ** class TextStyle *)

Record TextStyle : Type := { style : Z; color : option Color }.

Module TextStyle.

Definition NORMAL : Z := 0.
Definition COLOR : Z := 1.
Definition ITALIC : Z := 2.
Definition BOLD : Z := 4.
Definition UNDERLINE : Z := 8.

(** [if x] for an int [x] *)
Definition flag (x : Z) : bool := negb (x =? 0).

Definition __init__ (color : option Color) (italic bold underline style : Z)
  : TextStyle :=
  let self_style := style in
  let '(self_style, self_color) :=
    match color with
    | Some c => (Z.lor self_style COLOR, Some c)
    | None => (self_style, None)
    end in
  let self_style := Z.lor self_style (if flag italic then ITALIC else 0) in
  let self_style := Z.lor self_style (if flag bold then BOLD else 0) in
  let self_style := Z.lor self_style (if flag underline then UNDERLINE else 0) in
  {| style := self_style; color := self_color |}.

Definition style_list (style : Z) : list string :=
  ((if flag (Z.land style ITALIC) then ["italic"] else []) ++
   (if flag (Z.land style BOLD) then ["bold"] else []) ++
   (if flag (Z.land style UNDERLINE) then ["underline"] else []))%list.

(** [self.color]: reading an attribute that was never assigned raises. *)
Definition getattr_color (self : TextStyle) : outcome Color :=
  match color self with
  | Some c => Returned c
  | None => Raised AttributeError
  end.

Definition __repr__ (self : TextStyle) : outcome string :=
  let styles := style_list (style self) in
  color <- (if flag (Z.land (style self) COLOR)
            then c <- getattr_color self ;; Returned (Some c)
            else Returned None) ;;
  match color with
  | None =>
      match styles with
      | [] => Returned "<normal>"
      | _ => Returned ("<" ++ py_join "," styles ++ ">")
      end
  | Some _ =>
      match styles with
      | [] => c <- getattr_color self ;; Returned (Color.__repr__ c)
      | _ =>
          c <- getattr_color self ;;
          Returned ("<" ++ Color.__repr__ c ++ ", [" ++ py_join "," styles ++ "]>")
      end
  end.

End TextStyle.

(** ** class TextStyleField *)

Module TextStyleField.

Definition _serialize (value : option Z) : pyval :=
  match value with
  | None => VList []
  | Some style => VList (map VStr (TextStyle.style_list style))
  end.

Definition _deserialize (value : pyval) : outcome Z :=
  let style := TextStyle.NORMAL in
  styles <- try_except (py_set value)
                       (Raised (ValidationError "Invalid style list")) ;;
  let style := if py_str_in "italic" styles
               then Z.lor style TextStyle.ITALIC else style in
  let style := if py_str_in "bold" styles
               then Z.lor style TextStyle.BOLD else style in
  let style := if py_str_in "underline" styles
               then Z.lor style TextStyle.UNDERLINE else style in
  Returned style.

End TextStyleField.

(** ** marshmallow 2.x

    The program reads [.data] off the value returned by [Schema.load],
    [Schema.loads], [Schema.dump] and [Schema.dumps]: these are the
    [(data, errors)] results of marshmallow 2.x.  None of its schemas sets
    [strict], so a [ValidationError] raised for one field is recorded under
    [errors], the field is left out of [data], and nothing is raised to the
    caller.  Exceptions other than [ValidationError] are not intercepted. *)

Module marshmallow.

Definition errors : Type := list (string * string).

Record result (A : Type) : Type := { data : A; errs : errors }.
Arguments data {A} r.
Arguments errs {A} r.

Module fields.

(** [Field.deserialize]: [None] is accepted only when [allow_none] holds
    (the default when the field is declared with [missing=None]); then
    [_deserialize], then the validators. *)
Definition Field_deserialize {A : Type} (allow_none : option A)
  (_deserialize : pyval -> outcome A) (validators : list (A -> outcome unit))
  (value : pyval) : outcome A :=
  match value with
  | VNone =>
      match allow_none with
      | Some none => Returned none
      | None => Raised (ValidationError "Field may not be null.")
      end
  | _ =>
      output <- _deserialize value ;;
      _ <- fold_left (fun acc check => _ <- acc ;; check output)
                     validators (Returned tt) ;;
      Returned output
  end.

(** [String] *)
Module String.

Definition _serialize (value : option string) : pyval :=
  match value with
  | None => VNone
  | Some s => VStr s
  end.

Definition _deserialize (value : pyval) : outcome string :=
  match py_isinstance_str value with
  | Some s => Returned s
  | None => Raised (ValidationError "Not a valid string.")
  end.

End String.

(** [Boolean] *)
Module Boolean.

Definition truthy : list pyval :=
  [VStr "t"; VStr "T"; VStr "true"; VStr "True"; VStr "TRUE"; VStr "1";
   VInt 1; VBool true].
(** The source lists [0], [0.0] and [False], which are one element of the
    set. *)
Definition falsy : list pyval :=
  [VStr "f"; VStr "F"; VStr "false"; VStr "False"; VStr "FALSE"; VStr "0";
   VInt 0; VBool false].

(** The int a bool or an int equals. *)
Definition int_value (v : pyval) : option Z :=
  match v with
  | VBool b => Some (if b then 1 else 0)
  | VInt n => Some n
  | _ => None
  end.

(** [a == b] for a hashable scalar [a] and a str, bool or int [b]; a bool
    equals the int of the same numeric value, and so does a float. *)
Definition scalar_eqb (a b : pyval) : bool :=
  match a, b with
  | VStr s, VStr t => String.eqb s t
  | VNone, VNone => true
  | VFloat x, _ =>
      match int_value b with
      | Some n => float.eqb_int x n
      | None => false
      end
  | _, _ =>
      match int_value a, int_value b with
      | Some m, Some n => m =? n
      | _, _ => false
      end
  end.

(** [value in choices], [choices] a set of scalars. *)
Definition member (value : pyval) (choices : list pyval) : outcome bool :=
  if py_hashable value then Returned (existsb (scalar_eqb value) choices)
  else Raised TypeError.

Definition _serialize (value : bool) : pyval := VBool value.

Definition _deserialize (value : pyval) : outcome bool :=
  found <- try_except
             (t <- member value truthy ;;
              if t then Returned (Some true)
              else f <- member value falsy ;;
                   if f then Returned (Some false) else Returned None)
             (Returned None) ;;
  match found with
  | Some b => Returned b
  | None => Raised (ValidationError "Not a valid boolean.")
  end.

End Boolean.

(** [Dict] *)
Module Dict.

Definition _serialize (value : dict) : pyval := VDict value.

Definition _deserialize (value : pyval) : outcome dict :=
  match value with
  | VDict d => Returned d
  | _ => Raised (ValidationError "Not a valid mapping type.")
  end.

End Dict.

End fields.

Module validate.

(** [OneOf(choices)] *)
Definition OneOf (choices : list string) (value : string) : outcome unit :=
  if existsb (String.eqb value) choices then Returned tt
  else Raised (ValidationError "Not a valid choice.").

End validate.

(** One round of the unmarshalling loop: fetch the raw value (falling back
    on the field's [missing] default), skip a field that is still missing,
    otherwise deserialize it and store a [ValidationError]. *)
Definition unmarshal_field {A : Type} (name : string) (missing : option pyval)
  (deserialize : pyval -> outcome A) (d : dict) : outcome (option A * errors) :=
  let raw_value :=
    match dict_get d name with
    | Some v => Some v
    | None => missing
    end in
  match raw_value with
  | None => Returned (None, [])
  | Some v =>
      match deserialize v with
      | Returned a => Returned (Some a, [])
      | Raised (ValidationError msg) => Returned (None, [(name, msg)])
      | Raised e => Raised e
      end
  end.

End marshmallow.

(** ** class TextStyleSchema *)

Module TextStyleSchema.

(** The keyword arguments a load hands to the [TextStyle] constructor; [None] is
    a key that is not in the dict. *)
Record kwargs : Type := {
  kw_color : option (option Color);
  kw_style : option Z
}.

(** [color = ColorField(missing=None)] *)
Definition color_deserialize : pyval -> outcome (option Color) :=
  marshmallow.fields.Field_deserialize (Some None) ColorField._deserialize [].

(** [style = TextStyleField(missing=[])] *)
Definition style_deserialize : pyval -> outcome Z :=
  marshmallow.fields.Field_deserialize None TextStyleField._deserialize [].

(** [schema.dump(obj)]: an attribute the object does not have is left out. *)
Definition dump (obj : TextStyle) : marshmallow.result dict :=
  {| marshmallow.data :=
       (match color obj with
        | Some c => [("color", ColorField._serialize (Some c))]
        | None => []
        end ++
        [("style", TextStyleField._serialize (Some (style obj)))])%list;
     marshmallow.errs := [] |}.

(** [schema.load(data)]: the fields are read off a mapping; for any other
    input the result carries an error and no data. *)
Definition load (data : pyval) : outcome (marshmallow.result (option kwargs)) :=
  match data with
  | VNone => Returned {| marshmallow.data := None; marshmallow.errs := [] |}
  | VDict d =>
      '(c, e1) <- marshmallow.unmarshal_field "color" (Some VNone)
                    color_deserialize d ;;
      '(s, e2) <- marshmallow.unmarshal_field "style" (Some (VList []))
                    style_deserialize d ;;
      Returned {| marshmallow.data := Some {| kw_color := c; kw_style := s |};
                  marshmallow.errs := (e1 ++ e2)%list |}
  | _ =>
      Returned {| marshmallow.data := None;
                  marshmallow.errs := [("_schema", "Invalid input type.")] |}
  end.

End TextStyleSchema.

(** The constructor called on the loaded dict as keyword arguments. *)
Definition TextStyle_of_kwargs (data : option TextStyleSchema.kwargs)
  : outcome TextStyle :=
  match data with
  | None => Raised TypeError
  | Some kw =>
      Returned (TextStyle.__init__
                  (match TextStyleSchema.kw_color kw with Some c => c | None => None end)
                  0 0 0
                  (match TextStyleSchema.kw_style kw with Some s => s | None => 0 end))
  end.

(** [TextStyle.dump] and [TextStyle.load]; like the [_schema] they
    delegate to, they are bound once the schema class exists. *)
Definition TextStyle_dump (self : TextStyle) : dict :=
  marshmallow.data (TextStyleSchema.dump self).

Definition TextStyle_load (data : pyval) : outcome TextStyle :=
  r <- TextStyleSchema.load data ;;
  TextStyle_of_kwargs (marshmallow.data r).

(** ** class RichTextField *)

Definition RichText : Type := list (TextStyle * pyval).

Module RichTextField.

Definition message : string := "RichText should be a list of style and content".

Definition _serialize (value : option RichText) : outcome pyval :=
  match value with
  | None => Returned VNone
  | Some runs =>
      _ <- try_except
             (fold_left
                (fun acc run =>
                   _ <- acc ;;
                   match py_isinstance_str (snd run) with
                   | Some _ => Returned tt
                   | None => Raised RuntimeError
                   end)
                runs (Returned tt))
             (Raised (ValidationError message)) ;;
      Returned (VList (map (fun run => VTuple [VDict (TextStyle_dump (fst run));
                                               snd run]) runs))
  end.

(** [s, t = entry] *)
Definition unpack2 (entry : pyval) : outcome (pyval * pyval) :=
  items <- py_iter entry ;;
  match items with
  | [s; t] => Returned (s, t)
  | _ => Raised ValueError
  end.

Fixpoint load_runs (entries : list pyval) : outcome RichText :=
  match entries with
  | [] => Returned []
  | entry :: rest =>
      '(s, t) <- unpack2 entry ;;
      ts <- TextStyle_load s ;;
      runs <- load_runs rest ;;
      Returned ((ts, t) :: runs)
  end.

Definition _deserialize (value : pyval) : outcome (option RichText) :=
  match value with
  | VNone => Returned None
  | _ =>
      try_except
        (entries <- py_iter value ;;
         runs <- load_runs entries ;;
         Returned (Some runs))
        (Raised (ValidationError message))
  end.

End RichTextField.

(** ** The json module

    [json.dumps] with its default options ([ensure_ascii], separators
    [", "] and [": "]) and [json.loads] on a str. *)

Module json.

(** The quotation mark. *)
Definition dquote : string := String (chr 34) "".

Definition hex_digit (n : Z) : ascii :=
  if n <? 10 then chr (48 + n) else chr (87 + n).

(** [\uXXXX] *)
Definition u_escape (cp : Z) : string :=
  String "\" (String "u"
    (String (hex_digit (Z.land (Z.shiftr cp 12) 15))
      (String (hex_digit (Z.land (Z.shiftr cp 8) 15))
        (String (hex_digit (Z.land (Z.shiftr cp 4) 15))
          (String (hex_digit (Z.land cp 15)) ""))))).

(** The code point of one character, given as its first byte and its
    continuation bytes. *)
Definition code_point (c : ascii) (t : string) : Z :=
  let n := ord c in
  let lead :=
    match utf8_trail c with
    | 0%nat => n
    | 1%nat => Z.land n 31
    | 2%nat => Z.land n 15
    | _ => Z.land n 7
    end in
  fold_left (fun cp b => 64 * cp + Z.land (ord b) 63) (list_ascii_of_string t) lead.

Definition escape_char (c : ascii) (t : string) : string :=
  let n := ord c in
  if n =? 34 then "\" ++ dquote
  else if n =? 92 then "\\"
  else if n =? 10 then "\n"
  else if n =? 13 then "\r"
  else if n =? 9 then "\t"
  else if n =? 12 then "\f"
  else if n =? 8 then "\b"
  else if (32 <=? n) && (n <=? 126) then String c ""
  else
    let cp := code_point c t in
    if cp <? 65536 then u_escape cp
    else
      let v := cp - 65536 in
      u_escape (Z.lor 55296 (Z.land (Z.shiftr v 10) 1023)) ++
      u_escape (Z.lor 56320 (Z.land v 1023)).

Definition escape_chunk (ch : string) : string :=
  match ch with
  | String c t => escape_char c t
  | "" => ""
  end.

Definition encode_basestring_ascii (s : string) : string :=
  dquote ++ String.concat "" (map escape_chunk (py_str_chars s)) ++ dquote.

(** A float as the encoder writes it: its [repr], or the name JavaScript
    has for it. *)
Definition floatstr (x : float) : string :=
  match x with
  | S754_nan => "NaN"
  | S754_infinity s => if s then "-Infinity" else "Infinity"
  | _ => float.__repr__ x
  end.

Fixpoint dumps (obj : pyval) : string :=
  match obj with
  | VNone => "null"
  | VBool true => "true"
  | VBool false => "false"
  | VInt n => py_str_of_int n
  | VFloat x => floatstr x
  | VStr s => encode_basestring_ascii s
  | VList l | VTuple l => "[" ++ py_join ", " (map dumps l) ++ "]"
  | VDict d =>
      "{" ++ py_join ", "
               (map (fun kv : string * pyval => let (k, v) := kv in
                               encode_basestring_ascii k ++ ": " ++ dumps v) d)
          ++ "}"
  end.

Definition is_ws (c : ascii) : bool :=
  let n := ord c in (n =? 32) || (n =? 9) || (n =? 10) || (n =? 13).

Fixpoint skip_ws (s : string) : string :=
  match s with
  | String c s' => if is_ws c then skip_ws s' else s
  | "" => ""
  end.

Definition hex_value (c : ascii) : option Z :=
  let n := ord c in
  if (48 <=? n) && (n <=? 57) then Some (n - 48)
  else if (97 <=? n) && (n <=? 102) then Some (n - 87)
  else if (65 <=? n) && (n <=? 70) then Some (n - 55)
  else None.

Definition hex4 (a b c d : ascii) : option Z :=
  match hex_value a, hex_value b, hex_value c, hex_value d with
  | Some x, Some y, Some z, Some w => Some (4096 * x + 256 * y + 16 * z + w)
  | _, _, _, _ => None
  end.

(** The UTF-8 encoding of a code point. *)
Definition utf8_encode (cp : Z) : string :=
  if cp <? 128 then String (chr cp) ""
  else if cp <? 2048 then
    String (chr (Z.lor 192 (Z.shiftr cp 6)))
      (String (chr (Z.lor 128 (Z.land cp 63))) "")
  else if cp <? 65536 then
    String (chr (Z.lor 224 (Z.shiftr cp 12)))
      (String (chr (Z.lor 128 (Z.land (Z.shiftr cp 6) 63)))
        (String (chr (Z.lor 128 (Z.land cp 63))) ""))
  else
    String (chr (Z.lor 240 (Z.shiftr cp 18)))
      (String (chr (Z.lor 128 (Z.land (Z.shiftr cp 12) 63)))
        (String (chr (Z.lor 128 (Z.land (Z.shiftr cp 6) 63)))
          (String (chr (Z.lor 128 (Z.land cp 63))) ""))).

Definition simple_escape (e : ascii) : option ascii :=
  let n := ord e in
  if n =? 34 then Some (chr 34)
  else if n =? 92 then Some (chr 92)
  else if n =? 47 then Some (chr 47)
  else if n =? 98 then Some (chr 8)
  else if n =? 102 then Some (chr 12)
  else if n =? 110 then Some (chr 10)
  else if n =? 114 then Some (chr 13)
  else if n =? 116 then Some (chr 9)
  else None.

Definition is_high_surrogate (cp : Z) : bool := (55296 <=? cp) && (cp <=? 56319).
Definition is_low_surrogate (cp : Z) : bool := (56320 <=? cp) && (cp <=? 57343).

Definition prepend (p : string) (r : option (string * string))
  : option (string * string) :=
  match r with
  | Some (body, rest) => Some (p ++ body, rest)
  | None => None
  end.

(** [scanstring]: the text after an opening quote, up to the closing
    quote; returns the decoded str and what follows it. *)
Fixpoint scanstring (s : string) : option (string * string) :=
  match s with
  | "" => None
  | String c s1 =>
      if ord c =? 34 then Some ("", s1)
      else if ord c =? 92 then
        match s1 with
        | "" => None
        | String e s2 =>
            if ord e =? 117 then
              match s2 with
              | String h1 (String h2 (String h3 (String h4 s3))) =>
                  match hex4 h1 h2 h3 h4 with
                  | None => None
                  | Some cp =>
                      match s3 with
                      | String b (String u (String l1 (String l2
                          (String l3 (String l4 s4))))) =>
                          if is_high_surrogate cp && (ord b =? 92) && (ord u =? 117)
                          then
                            match hex4 l1 l2 l3 l4 with
                            | None => None
                            | Some lo =>
                                if is_low_surrogate lo
                                then prepend
                                       (utf8_encode
                                          (65536 + Z.lor (Z.shiftl (cp - 55296) 10)
                                                         (lo - 56320)))
                                       (scanstring s4)
                                else prepend (utf8_encode cp) (scanstring s3)
                            end
                          else prepend (utf8_encode cp) (scanstring s3)
                      | _ => prepend (utf8_encode cp) (scanstring s3)
                      end
                  end
              | _ => None
              end
            else
              match simple_escape e with
              | Some x => prepend (String x "") (scanstring s2)
              | None => None
              end
        end
      else if ord c <? 32 then None
      else prepend (String c "") (scanstring s1)
  end.

Fixpoint take_digits (acc : Z) (s : string) : Z * string :=
  match s with
  | String c s' =>
      if is_digit c then take_digits (10 * acc + (ord c - 48)) s' else (acc, s)
  | "" => (acc, "")
  end.

Definition starts_with_digit (s : string) : bool :=
  match s with
  | String c _ => is_digit c
  | "" => false
  end.

(** What follows an integer part makes the literal a float. *)
Definition float_tail (s : string) : bool :=
  match s with
  | String c s' =>
      if ord c =? 46 then starts_with_digit s'
      else if (ord c =? 101) || (ord c =? 69) then
        match s' with
        | String g s'' =>
            if (ord g =? 43) || (ord g =? 45) then starts_with_digit s''
            else is_digit g
        | "" => false
        end
      else false
  | "" => false
  end.

(** An integer literal: [0] or a digit string without leading zero. *)
Definition scan_natural (s : string) : option (Z * string) :=
  match s with
  | String c s' =>
      if ord c =? 48 then Some (0, s')
      else if is_digit c then Some (take_digits (ord c - 48) s')
      else None
  | "" => None
  end.

Fixpoint strip_prefix (p s : string) : option string :=
  match p, s with
  | "", _ => Some s
  | String a p', String b s' => if Ascii.eqb a b then strip_prefix p' s' else None
  | _, "" => None
  end.

(** The digits of a fraction, added to the digits [m] read so far;
    [k] counts them. *)
Fixpoint take_fraction (m k : Z) (s : string) : Z * Z * string :=
  match s with
  | String c s' =>
      if is_digit c then take_fraction (10 * m + (ord c - 48)) (k + 1) s'
      else (m, k, s)
  | "" => (m, k, "")
  end.

(** An exponent, if one follows: [e] or [E], a sign or none, digits. *)
Definition scan_exponent (s : string) : Z * string :=
  match s with
  | String c s' =>
      if (ord c =? 101) || (ord c =? 69) then
        match s' with
        | String g s'' =>
            if (ord g =? 43) && starts_with_digit s'' then take_digits 0 s''
            else if (ord g =? 45) && starts_with_digit s'' then
              let (x, rest) := take_digits 0 s'' in (- x, rest)
            else if is_digit g then take_digits 0 s'
            else (0, s)
        | "" => (0, s)
        end
      else (0, s)
  | "" => (0, s)
  end.

(** The float literal whose integer part [n] has been read: a fraction, an
    exponent, or both follow. *)
Definition scan_float (neg : bool) (n : Z) (rest : string) : pyval * string :=
  let '(m, k, rest1) :=
    match rest with
    | String c r =>
        if (ord c =? 46) && starts_with_digit r then take_fraction n 0 r
        else (n, 0, rest)
    | "" => (n, 0, rest)
    end in
  let (x, rest2) := scan_exponent rest1 in
  (VFloat (float.of_decimal neg m (x - k)), rest2).

Definition scan_number (s : string) : option (pyval * string) :=
  let (neg, digits) :=
    match s with
    | String c s' => if ord c =? 45 then (true, s') else (false, s)
    | "" => (false, s)
    end in
  match scan_natural digits with
  | Some (n, rest) =>
      if float_tail rest then Some (scan_float neg n rest)
      else Some (VInt (if neg then - n else n), rest)
  | None => None
  end.

(** The three names of floats that are no numbers, or else a number. *)
Definition scan_constant (s : string) : option (pyval * string) :=
  match strip_prefix "NaN" s, strip_prefix "Infinity" s,
        strip_prefix "-Infinity" s with
  | Some rest, _, _ => Some (VFloat S754_nan, rest)
  | _, Some rest, _ => Some (VFloat (S754_infinity false), rest)
  | _, _, Some rest => Some (VFloat (S754_infinity true), rest)
  | None, None, None => scan_number s
  end.

Fixpoint scan_once (fuel : nat) (s : string) : option (pyval * string) :=
  match fuel with
  | O => None
  | S fuel' =>
      match s with
      | "" => None
      | String c s' =>
          if ord c =? 34 then
            match scanstring s' with
            | Some (str, rest) => Some (VStr str, rest)
            | None => None
            end
          else if ord c =? 123 then
            match skip_ws s' with
            | String c1 s1 =>
                if ord c1 =? 125 then Some (VDict [], s1)
                else
                  match scan_pairs fuel' (String c1 s1) with
                  | Some (pairs, rest) => Some (VDict (dict_of_pairs pairs), rest)
                  | None => None
                  end
            | "" => None
            end
          else if ord c =? 91 then
            match skip_ws s' with
            | String c1 s1 =>
                if ord c1 =? 93 then Some (VList [], s1)
                else
                  match scan_items fuel' (String c1 s1) with
                  | Some (items, rest) => Some (VList items, rest)
                  | None => None
                  end
            | "" => None
            end
          else
            match strip_prefix "null" s, strip_prefix "true" s,
                  strip_prefix "false" s with
            | Some rest, _, _ => Some (VNone, rest)
            | _, Some rest, _ => Some (VBool true, rest)
            | _, _, Some rest => Some (VBool false, rest)
            | None, None, None => scan_constant s
            end
      end
  end

with scan_items (fuel : nat) (s : string) : option (list pyval * string) :=
  match fuel with
  | O => None
  | S fuel' =>
      match scan_once fuel' s with
      | None => None
      | Some (v, rest) =>
          match skip_ws rest with
          | String c s1 =>
              if ord c =? 93 then Some ([v], s1)
              else if ord c =? 44 then
                match scan_items fuel' (skip_ws s1) with
                | Some (items, rest') => Some (v :: items, rest')
                | None => None
                end
              else None
          | "" => None
          end
      end
  end

with scan_pairs (fuel : nat) (s : string) : option (list (string * pyval) * string) :=
  match fuel with
  | O => None
  | S fuel' =>
      match s with
      | String q s0 =>
          if ord q =? 34 then
            match scanstring s0 with
            | None => None
            | Some (key, after_key) =>
                match skip_ws after_key with
                | String colon s1 =>
                    if ord colon =? 58 then
                      match scan_once fuel' (skip_ws s1) with
                      | None => None
                      | Some (v, rest) =>
                          match skip_ws rest with
                          | String c s2 =>
                              if ord c =? 125 then Some ([(key, v)], s2)
                              else if ord c =? 44 then
                                match scan_pairs fuel' (skip_ws s2) with
                                | Some (pairs, rest') => Some ((key, v) :: pairs, rest')
                                | None => None
                                end
                              else None
                          | "" => None
                          end
                      end
                    else None
                | "" => None
                end
            end
          else None
      | "" => None
      end
  end.

(** [json.loads(s)]: one value, blanks around it, nothing else. *)
Definition loads (s : string) : outcome pyval :=
  match scan_once (S (String.length s)) (skip_ws s) with
  | Some (obj, rest) =>
      match skip_ws rest with
      | "" => Returned obj
      | _ => Raised JSONDecodeError
      end
  | None => Raised JSONDecodeError
  end.

End json.

(** ** class ChannelType, class MessageType *)

Module ChannelType.
Definition XMPP : string := "xmpp".
Definition IRC : string := "irc".
Definition Telegram : string := "telegram".
Definition Web : string := "web".
Definition API : string := "api".
End ChannelType.

Module MessageType.
Definition Text : string := "text".
Definition Photo : string := "photo".
Definition Sticker : string := "sticker".
Definition Location : string := "location".
Definition Audio : string := "audio".
Definition Video : string := "video".
Definition Animation : string := "animation".
Definition File : string := "file".
Definition Event : string := "event".
Definition Command : string := "command".
End MessageType.

(** ** class Message: the instance attributes *)

Record Message : Type := {
  channel : string;
  sender : string;
  receiver : string;
  content : string;
  rich_text : option RichText;
  mtype : string;
  date : option string;
  time : option string;
  media_url : option string;
  botmsg : bool;
  room : option string;
  opt : dict
}.

(** ** class MessageSchema *)

Module MessageSchema.

Import marshmallow.

(** The choices of the [mtype] validator, in the order the source lists
    them. *)
Definition mtype_choices : list string :=
  [MessageType.Photo; MessageType.Text; MessageType.Sticker;
   MessageType.Location; MessageType.Audio; MessageType.Command;
   MessageType.Event; MessageType.File; MessageType.Animation;
   MessageType.Video].

Definition string_deserialize : pyval -> outcome string :=
  fields.Field_deserialize None fields.String._deserialize [].

Definition mtype_deserialize : pyval -> outcome string :=
  fields.Field_deserialize None fields.String._deserialize
    [validate.OneOf mtype_choices].

Definition rich_text_deserialize : pyval -> outcome (option RichText) :=
  fields.Field_deserialize None RichTextField._deserialize [].

Definition botmsg_deserialize : pyval -> outcome bool :=
  fields.Field_deserialize None fields.Boolean._deserialize [].

Definition opt_deserialize : pyval -> outcome dict :=
  fields.Field_deserialize None fields.Dict._deserialize [].

(** The keyword arguments a load hands to the [Message] constructor;
    [None] is a key that is not in the dict. *)
Record kwargs : Type := {
  kw_channel : option string;
  kw_sender : option string;
  kw_receiver : option string;
  kw_mtype : option string;
  kw_media_url : option string;
  kw_content : option string;
  kw_rich_text : option (option RichText);
  kw_date : option string;
  kw_time : option string;
  kw_botmsg : option bool;
  kw_room : option string;
  kw_opt : option dict
}.

(** [schema.load(data)] *)
Definition load (data : pyval) : outcome (result (option kwargs)) :=
  match data with
  | VNone => Returned {| data := None; errs := [] |}
  | VDict d =>
      '(channel, e1) <- unmarshal_field "channel" None string_deserialize d ;;
      '(sender, e2) <- unmarshal_field "sender" None string_deserialize d ;;
      '(receiver, e3) <- unmarshal_field "receiver" None string_deserialize d ;;
      '(mtype, e4) <- unmarshal_field "mtype" None mtype_deserialize d ;;
      '(media_url, e5) <- unmarshal_field "media_url" None string_deserialize d ;;
      '(content, e6) <- unmarshal_field "content" None string_deserialize d ;;
      '(rich_text, e7) <- unmarshal_field "rich_text" None rich_text_deserialize d ;;
      '(date, e8) <- unmarshal_field "date" None string_deserialize d ;;
      '(time, e9) <- unmarshal_field "time" None string_deserialize d ;;
      '(botmsg, e10) <- unmarshal_field "botmsg" None botmsg_deserialize d ;;
      '(room, e11) <- unmarshal_field "room" None string_deserialize d ;;
      '(opt, e12) <- unmarshal_field "opt" None opt_deserialize d ;;
      Returned
        {| data := Some {| kw_channel := channel; kw_sender := sender;
                           kw_receiver := receiver; kw_mtype := mtype;
                           kw_media_url := media_url; kw_content := content;
                           kw_rich_text := rich_text; kw_date := date;
                           kw_time := time; kw_botmsg := botmsg;
                           kw_room := room; kw_opt := opt |};
           errs := (e1 ++ e2 ++ e3 ++ e4 ++ e5 ++ e6 ++ e7 ++ e8 ++ e9 ++ e10
                       ++ e11 ++ e12)%list |}
  | _ =>
      Returned {| data := None;
                  errs := [("_schema", "Invalid input type.")] |}
  end.

(** [schema.loads(json_data)] *)
Definition loads (json_data : string) : outcome (result (option kwargs)) :=
  data <- json.loads json_data ;;
  load data.

(** One round of the marshalling loop: a [ValidationError] raised by the
    field is stored and the key is left out. *)
Definition marshal_field (name : string) (serialized : outcome pyval)
  : outcome (dict * errors) :=
  match serialized with
  | Returned v => Returned ([(name, v)], [])
  | Raised (ValidationError msg) => Returned ([], [(name, msg)])
  | Raised e => Raised e
  end.

(** [schema.dump(obj)] *)
Definition dump (obj : Message) : outcome (result dict) :=
  '(rt, e) <- marshal_field "rich_text" (RichTextField._serialize (rich_text obj)) ;;
  Returned
    {| data :=
         ([("channel", fields.String._serialize (Some (channel obj)));
           ("sender", fields.String._serialize (Some (sender obj)));
           ("receiver", fields.String._serialize (Some (receiver obj)));
           ("mtype", fields.String._serialize (Some (mtype obj)));
           ("media_url", fields.String._serialize (media_url obj));
           ("content", fields.String._serialize (Some (content obj)))]
          ++ rt ++
          [("date", fields.String._serialize (date obj));
           ("time", fields.String._serialize (time obj));
           ("botmsg", fields.Boolean._serialize (botmsg obj));
           ("room", fields.String._serialize (room obj));
           ("opt", fields.Dict._serialize (opt obj))])%list;
       errs := e |}.

(** [schema.dumps(obj)] *)
Definition dumps (obj : Message) : outcome (result string) :=
  r <- dump obj ;;
  Returned {| data := json.dumps (VDict (data r)); errs := errs r |}.

End MessageSchema.

(** ** The wire text handed to [loads]: a str or a bytes object *)

Inductive text : Type :=
| Str (s : string)
| Bytes (b : list byte).

Definition byte_ord (b : byte) : Z := Z.of_N (Byte.to_N b).

Definition is_cont (b : byte) : bool :=
  let n := byte_ord b in (128 <=? n) && (n <=? 191).

(** Well-formed UTF-8: shortest forms only, no surrogates, nothing above
    U+10FFFF. *)
Fixpoint utf8_valid (bs : list byte) : bool :=
  match bs with
  | [] => true
  | b0 :: r0 =>
      let n0 := byte_ord b0 in
      if n0 <? 128 then utf8_valid r0
      else if n0 <? 194 then false
      else
        match r0 with
        | [] => false
        | b1 :: r1 =>
            let n1 := byte_ord b1 in
            if n0 <? 224 then is_cont b1 && utf8_valid r1
            else
              match r1 with
              | [] => false
              | b2 :: r2 =>
                  if n0 <? 240 then
                    is_cont b1 && is_cont b2
                    && (if n0 =? 224 then 160 <=? n1 else true)
                    && (if n0 =? 237 then n1 <=? 159 else true)
                    && utf8_valid r2
                  else
                    match r2 with
                    | [] => false
                    | b3 :: r3 =>
                        (n0 <=? 244)
                        && is_cont b1 && is_cont b2 && is_cont b3
                        && (if n0 =? 240 then 144 <=? n1 else true)
                        && (if n0 =? 244 then n1 <=? 143 else true)
                        && utf8_valid r3
                    end
              end
        end
  end.

(** [b.decode('utf-8')] *)
Definition bytes_decode (b : list byte) : outcome string :=
  if utf8_valid b then Returned (string_of_list_byte b)
  else Raised UnicodeDecodeError.

(** ** class Message: the methods *)

Module Message.

Definition __init__ (channel sender receiver content : string) (mtype : string)
  (date time media_url : option string) (botmsg : bool) (room : option string)
  (opt : option dict) (rich_text : option RichText) : Message :=
  {| channel := channel;
     sender := sender;
     receiver := receiver;
     content := content;
     rich_text := rich_text;
     mtype := mtype;
     date := date;
     time := time;
     media_url := media_url;
     botmsg := botmsg;
     room := room;
     opt := match opt with
            | Some d => if py_truthy (VDict d) then d else []
            | None => []
            end |}.

(** The constructor called on keyword arguments: [channel], [sender],
    [receiver] and [content] have no default, the others take the defaults
    of the signature. *)
Definition of_kwargs (kw : MessageSchema.kwargs) : outcome Message :=
  match MessageSchema.kw_channel kw, MessageSchema.kw_sender kw,
        MessageSchema.kw_receiver kw, MessageSchema.kw_content kw with
  | Some channel, Some sender, Some receiver, Some content =>
      Returned
        (__init__ channel sender receiver content
           (match MessageSchema.kw_mtype kw with
            | Some m => m | None => MessageType.Text end)
           (MessageSchema.kw_date kw)
           (MessageSchema.kw_time kw)
           (MessageSchema.kw_media_url kw)
           (match MessageSchema.kw_botmsg kw with
            | Some b => b | None => false end)
           (MessageSchema.kw_room kw)
           (MessageSchema.kw_opt kw)
           (match MessageSchema.kw_rich_text kw with
            | Some r => r | None => None end))
  | _, _, _, _ => Raised TypeError
  end.

(** The constructor called on the [.data] of a load; a [.data] of [None]
    cannot be spread into keyword arguments. *)
Definition of_data (data : option MessageSchema.kwargs) : outcome Message :=
  match data with
  | Some kw => of_kwargs kw
  | None => Raised TypeError
  end.

Definition dumps (self : Message) : outcome string :=
  r <- MessageSchema.dumps self ;;
  Returned (marshmallow.data r).

(** [Message("fishroom", "fishroom", "None", "Error")] *)
Definition sentinel : Message :=
  __init__ "fishroom" "fishroom" "None" "Error"
    MessageType.Text None None None false None None None.

(** The body of the [try] block of [loads]. *)
Definition loads_body (jstr : string) : outcome Message :=
  r <- MessageSchema.loads jstr ;;
  of_data (marshmallow.data r).

Definition loads (jstr : text) : outcome Message :=
  jstr <- match jstr with
          | Bytes b => bytes_decode b
          | Str s => Returned s
          end ;;
  try_except (loads_body jstr) (Returned sentinel).

End Message.

(** ** The remaining methods

    [TextStyle.dumps] and [TextStyle.loads] go through JSON text and are
    placed after the [json] module; [Message.__repr__] closes the class. *)

(** [TextStyle.dumps] *)
Definition TextStyle_dumps (self : TextStyle) : string :=
  json.dumps (VDict (marshmallow.data (TextStyleSchema.dump self))).

(** [TextStyle.loads]: no [try] block here, so whatever the decoding, the
    JSON parser or the constructor raises reaches the caller. *)
Definition TextStyle_loads (jstr : text) : outcome TextStyle :=
  jstr <- match jstr with
          | Bytes b => bytes_decode b
          | Str s => Returned s
          end ;;
  data <- json.loads jstr ;;
  r <- TextStyleSchema.load data ;;
  TextStyle_of_kwargs (marshmallow.data r).

(** [Message.__repr__] *)
Definition Message_repr (self : Message) : string :=
  "[" ++ channel self ++ "] " ++ mtype self ++ " from: " ++ sender self
  ++ ", to: " ++ receiver self ++ ", " ++ content self.

(** ** Vocabulary of the statements *)

(** The error of the color codec. *)
Definition color_error : exn :=
  ValidationError "Color field should only contain fg and bg".

(** The error of the style-list codec. *)
Definition style_error : exn := ValidationError "Invalid style list".

(** The style names the codec knows. *)
Definition recognized (name : string) : bool :=
  String.eqb name "italic" || String.eqb name "bold" || String.eqb name "underline".

(** The bitmask with exactly the chosen style bits. *)
Definition style_of_flags (italic bold underline : bool) : Z :=
  (if italic then TextStyle.ITALIC else 0)
  + (if bold then TextStyle.BOLD else 0)
  + (if underline then TextStyle.UNDERLINE else 0).

(** A style value as the data model describes it: only the four known
    bits, and the COLOR bit together with the color attribute. *)
Definition valid_TextStyle (s : TextStyle) : Prop :=
  0 <= style s < 16
  /\ (Z.testbit (style s) 0 = true <-> color s <> None).

(** The colors that carry a background. *)
Definition has_bg (c : option Color) : Prop :=
  match c with
  | Some c => bg c <> None
  | None => True
  end.

(** The colors whose foreground is an int proper, not a bool. *)
Definition int_fg (c : option Color) : Prop :=
  match c with
  | Some c => exists n, fg c = IInt n
  | None => True
  end.

(** [Message.loads(m.dumps())] *)
Definition Message_roundtrip (m : Message) : outcome Message :=
  jstr <- Message.dumps m ;;
  Message.loads (Str jstr).

(** The message of the end-to-end run at the bottom of the source. *)
Definition main_message : Message :=
  Message.__init__ ChannelType.Telegram "tester" "tester2" "test"
    MessageType.Text None None None false None None
    (Some [(TextStyle.__init__ (Some (Color.__init__ 5 (Some 6))) 1 0 0 0,
            VStr "test")]).

(** The same message with a foreground-only color in its run. *)
Definition fg_only_message : Message :=
  Message.__init__ ChannelType.Telegram "tester" "tester2" "test"
    MessageType.Text None None None false None None
    (Some [(TextStyle.__init__ (Some (Color.__init__ 5 None)) 1 0 0 0,
            VStr "test")]).

(** A parse or validation failure occurs while loading [jstr]: the JSON
    parser raises, or the schema reports errors. *)
Definition failure_occurs (jstr : string) : Prop :=
  match MessageSchema.loads jstr with
  | Raised _ => True
  | Returned r => marshmallow.errs r <> []
  end.

(** The str a document holds under a key, if it holds one. *)
Definition str_at (d : dict) (key : string) : option string :=
  match dict_get d key with
  | Some (VStr s) => Some s
  | _ => None
  end.

(** An [mtype] value outside the enumerated message kinds. *)
Definition outside_mtypes (v : pyval) : bool :=
  match v with
  | VStr s => negb (existsb (String.eqb s) MessageSchema.mtype_choices)
  | _ => true
  end.

(** Wire text with a [botmsg] that is no boolean. *)
Definition wire_bad_botmsg : string :=
  json.dumps (VDict [("channel", VStr "irc"); ("sender", VStr "alice");
                     ("receiver", VStr "#fishroom"); ("content", VStr "hello");
                     ("botmsg", VStr "maybe")]).

(** Wire text with an [mtype] outside the enumeration. *)
Definition wire_bogus_mtype : string :=
  json.dumps (VDict [("channel", VStr "irc"); ("sender", VStr "alice");
                     ("receiver", VStr "#fishroom"); ("content", VStr "hello");
                     ("mtype", VStr "bogus")]).

(** What a value looks like once it went through JSON text: tuples come
    back as lists. *)
Fixpoint jsonify (v : pyval) : pyval :=
  match v with
  | VTuple l | VList l => VList (map jsonify l)
  | VDict d =>
      VDict (map (fun kv : string * pyval => let (k, x) := kv in (k, jsonify x)) d)
  | _ => v
  end.

(** The JSON text of a document reads back as that document. *)
Definition json_roundtrips (doc : pyval) : Prop :=
  json.loads (json.dumps doc) = Returned (jsonify doc).

(** A run of rich text as the data model describes it; its color, if any,
    carries a background and has an int for its foreground. *)
Definition valid_run (run : TextStyle * pyval) : Prop :=
  valid_TextStyle (fst run) /\ has_bg (color (fst run))
  /\ int_fg (color (fst run))
  /\ exists t, snd run = VStr t.

(** A message as the data model describes it: an enumerated [mtype],
    well-formed runs, and JSON data for [opt]. *)
Definition valid_Message (m : Message) : Prop :=
  In (mtype m) MessageSchema.mtype_choices
  /\ (forall runs, rich_text m = Some runs -> Forall valid_run runs)
  /\ jsonify (VDict (opt m)) = VDict (opt m).

(** The dumped form of one run. *)
Definition run_dump (run : TextStyle * pyval) : pyval :=
  VTuple [VDict (TextStyle_dump (fst run)); snd run].


(** Every run carries a str as its text. *)
Definition texts_are_str (runs : RichText) : bool :=
  forallb (fun run : TextStyle * pyval =>
             match py_isinstance_str (snd run) with
             | Some _ => true
             | None => false
             end) runs.

(** The keys the message schema reads. *)
Definition schema_keys : list string :=
  ["channel"; "sender"; "receiver"; "mtype"; "media_url"; "content";
   "rich_text"; "date"; "time"; "botmsg"; "room"; "opt"].

(** The rich text of a message can be encoded. *)
Definition rich_text_ok (m : Message) : bool :=
  match rich_text m with
  | Some runs => texts_are_str runs
  | None => true
  end.

(** The message kind a document asks for, when it is an enumerated one. *)
Definition mtype_at (d : dict) : option string :=
  match str_at d "mtype" with
  | Some s => if existsb (String.eqb s) MessageSchema.mtype_choices
              then Some s else None
  | None => None
  end.

(** The rich text a document holds, when it decodes. *)
Definition rich_text_at (d : dict) : option RichText :=
  match dict_get d "rich_text" with
  | Some v => match RichTextField._deserialize v with
              | Returned r => r
              | Raised _ => None
              end
  | None => None
  end.

(** The [botmsg] flag a document holds, when it decodes. *)
Definition botmsg_at (d : dict) : bool :=
  match dict_get d "botmsg" with
  | Some v => match marshmallow.fields.Boolean._deserialize v with
              | Returned b => b
              | Raised _ => false
              end
  | None => false
  end.

(** The options a document holds, when they are a mapping. *)
Definition opt_at (d : dict) : dict :=
  match dict_get d "opt" with
  | Some (VDict o) => o
  | _ => []
  end.

(** The message [loads] builds from a JSON object that holds the four
    mandatory fields as strs: every other field is read off the key of
    its name, and takes the default of the constructor when the key is
    missing or its value does not validate. *)
Definition loaded_message (d : dict) (c s rc t : string) : Message :=
  {| channel := c; sender := s; receiver := rc; content := t;
     rich_text := rich_text_at d;
     mtype := match mtype_at d with
              | Some k => k
              | None => MessageType.Text
              end;
     date := str_at d "date";
     time := str_at d "time";
     media_url := str_at d "media_url";
     botmsg := botmsg_at d;
     room := str_at d "room";
     opt := opt_at d |}.

(** The keys of a list are distinct. *)
Fixpoint nodup_keys (l : list string) : bool :=
  match l with
  | [] => true
  | k :: l => negb (existsb (String.eqb k) l) && nodup_keys l
  end.

(** Wire text of a style with a float under a key the schema does not
    know. *)
Definition wire_style_float : string :=
  json.dumps (VDict [("style", VList [VStr "bold"]);
                     ("x", VFloat (float.of_decimal false 15 (-1)))]).

(** Wire text with the four mandatory fields and nothing else. *)
Definition wire_four_fields : string :=
  json.dumps (VDict [("channel", VStr "irc"); ("sender", VStr "alice");
                     ("receiver", VStr "#fishroom"); ("content", VStr "hello")]).

(** Wire text with a float under a key the schema does not know. *)
Definition wire_float_extra : string :=
  json.dumps (VDict [("channel", VStr "irc"); ("sender", VStr "alice");
                     ("receiver", VStr "#fishroom"); ("content", VStr "hello");
                     ("extra", VFloat (float.of_decimal false 15 (-1)))]).

(** Wire text whose rich text gives a style by its name, not by a
    mapping, and whose options hold a float. *)
Definition wire_named_style : string :=
  json.dumps (VDict [("channel", VStr "irc"); ("sender", VStr "alice");
                     ("receiver", VStr "#fishroom"); ("content", VStr "hello");
                     ("rich_text", VList [VList [VStr "bold"; VStr "hi"]]);
                     ("opt", VDict [("weight",
                                     VFloat (float.of_decimal false 25 (-1)))])]).

(** The number a string of decimal digits denotes, read left to right
    from an accumulator. *)
Fixpoint uint_value (acc : Z) (d : Decimal.uint) : Z :=
  match d with
  | Decimal.Nil => acc
  | Decimal.D0 d => uint_value (10 * acc) d
  | Decimal.D1 d => uint_value (10 * acc + 1) d
  | Decimal.D2 d => uint_value (10 * acc + 2) d
  | Decimal.D3 d => uint_value (10 * acc + 3) d
  | Decimal.D4 d => uint_value (10 * acc + 4) d
  | Decimal.D5 d => uint_value (10 * acc + 5) d
  | Decimal.D6 d => uint_value (10 * acc + 6) d
  | Decimal.D7 d => uint_value (10 * acc + 7) d
  | Decimal.D8 d => uint_value (10 * acc + 8) d
  | Decimal.D9 d => uint_value (10 * acc + 9) d
  end.

(** What may follow an integer literal without changing how it reads:
    no digit, and nothing that would make it a float. *)
Definition ends_number (rest : string) : bool :=
  negb (json.starts_with_digit rest) && negb (json.float_tail rest).

(** The escaped body of a str, between the quotation marks. *)
Definition escape_body (s : string) : string :=
  String.concat "" (map json.escape_chunk (py_str_chars s)).

(** A str reads back from its escaped form, whatever follows the closing
    quotation mark. *)
Definition str_reads_back (s : string) : Prop :=
  forall rest, json.scanstring (escape_body s ++ json.dquote ++ rest) = Some (s, rest).

(** A document the JSON text preserves: it holds no float, its strs read
    back and the keys of each of its mappings are distinct. *)
Fixpoint json_ok (v : pyval) : Prop :=
  match v with
  | VFloat _ => False
  | VStr s => str_reads_back s
  | VList l | VTuple l =>
      (fix all (l : list pyval) : Prop :=
         match l with
         | [] => True
         | x :: l' => json_ok x /\ all l'
         end) l
  | VDict d =>
      NoDup (map fst d)
      /\ (fix all (d : list (string * pyval)) : Prop :=
            match d with
            | [] => True
            | (k, x) :: d' => str_reads_back k /\ json_ok x /\ all d'
            end) d
  | _ => True
  end.

(** The number of nodes of a document, counting each list item and each
    mapping entry once more. *)
Fixpoint doc_size (v : pyval) : nat :=
  match v with
  | VList l | VTuple l =>
      S ((fix sz (l : list pyval) : nat :=
            match l with
            | [] => O
            | x :: l' => S (doc_size x + sz l')
            end) l)
  | VDict d =>
      S ((fix sz (d : list (string * pyval)) : nat :=
            match d with
            | [] => O
            | (_, x) :: d' => S (doc_size x + sz d')
            end) d)
  | _ => 1%nat
  end.

Definition items_ok (l : list pyval) : Prop := Forall json_ok l.

Definition items_size (l : list pyval) : nat :=
  fold_right (fun x n => S (doc_size x + n)) O l.

Definition pairs_ok (d : list (string * pyval)) : Prop :=
  Forall (fun kv => str_reads_back (fst kv) /\ json_ok (snd kv)) d.

Definition pairs_size (d : list (string * pyval)) : nat :=
  fold_right (fun kv n => S (doc_size (snd kv) + n)) O d.

(** The text of one entry of a mapping. *)
Definition dump_pair (kv : string * pyval) : string :=
  json.encode_basestring_ascii (fst kv) ++ ": " ++ json.dumps (snd kv).

Definition jsonify_pair (kv : string * pyval) : string * pyval :=
  (fst kv, jsonify (snd kv)).

(** A character that opens a JSON value as [json.dumps] writes it. *)
Definition value_start (c : ascii) : bool :=
  negb (json.is_ws c) && negb (ord c =? 93) && negb (ord c =? 125).

(** A character that opens an integer literal. *)
Definition number_start (c : ascii) : bool :=
  (ord c =? 45) || is_digit c.

Definition head_is (p : ascii -> bool) (s : string) : bool :=
  match s with
  | String c _ => p c
  | "" => false
  end.

(** One character reads back from its escaped form. *)
Definition chunk_reads_back (ch : string) : Prop :=
  forall t, json.scanstring (json.escape_chunk ch ++ t)
            = json.prepend ch (json.scanstring t).

(** The integers [lo], [lo + 1], ..., [lo + k - 1]. *)
Definition Z_range (lo : Z) (k : nat) : list Z :=
  map (fun i => lo + Z.of_nat i) (seq 0 k).


(** A continuation byte of a UTF-8 sequence. *)
Definition utf8_cont (c : ascii) : bool :=
  (128 <=? ord c) && (ord c <=? 191).

(** One character of a str: a well-formed UTF-8 sequence. *)
Definition utf8_char (ch : string) : bool :=
  match ch with
  | String c "" => ord c <? 128
  | String c (String c1 "") =>
      (194 <=? ord c) && (ord c <? 224) && utf8_cont c1
  | String c (String c1 (String c2 "")) =>
      (224 <=? ord c) && (ord c <? 240) && utf8_cont c1 && utf8_cont c2
      && (if ord c =? 224 then 160 <=? ord c1 else true)
      && (if ord c =? 237 then ord c1 <=? 159 else true)
  | String c (String c1 (String c2 (String c3 ""))) =>
      (240 <=? ord c) && (ord c <=? 244)
      && utf8_cont c1 && utf8_cont c2 && utf8_cont c3
      && (if ord c =? 240 then 144 <=? ord c1 else true)
      && (if ord c =? 244 then ord c1 <=? 143 else true)
  | _ => false
  end.

(** The texts that are values of Python's [str]: what [bytes.decode]
    accepts. *)
Definition well_formed (s : string) : Prop :=
  utf8_valid (list_byte_of_string s) = true.


(** JSON data of Python values, floats apart: every str in it is
    well-formed and the keys of each mapping are distinct. *)
Fixpoint json_data (v : pyval) : Prop :=
  match v with
  | VFloat _ => False
  | VStr s => well_formed s
  | VList l | VTuple l =>
      (fix all (l : list pyval) : Prop :=
         match l with
         | [] => True
         | x :: l' => json_data x /\ all l'
         end) l
  | VDict d =>
      NoDup (map fst d)
      /\ (fix all (d : list (string * pyval)) : Prop :=
            match d with
            | [] => True
            | (k, x) :: d' => well_formed k /\ json_data x /\ all d'
            end) d
  | _ => True
  end.

Definition well_formed_opt (o : option string) : Prop :=
  match o with
  | Some s => well_formed s
  | None => True
  end.

(** The attributes of a message hold Python values: its texts are strs
    and its options are JSON data. *)
Definition well_formed_Message (m : Message) : Prop :=
  well_formed (channel m) /\ well_formed (sender m)
  /\ well_formed (receiver m) /\ well_formed (content m)
  /\ well_formed_opt (media_url m) /\ well_formed_opt (date m)
  /\ well_formed_opt (time m) /\ well_formed_opt (room m)
  /\ (forall runs, rich_text m = Some runs ->
                   Forall (fun run => json_data (snd run)) runs)
  /\ json_data (VDict (opt m)).

(** A message whose texts leave the ASCII range: an accented letter, a
    CJK character and an emoji, with a line break and a quotation mark. *)
Definition unicode_message : Message :=
  Message.__init__ ChannelType.IRC
    (String (chr 195) (String (chr 169) "milie"))
    "#fishroom"
    (String (chr 233) (String (chr 177) (String (chr 188)
       (String (chr 10) (String (chr 34)
          (String (chr 240) (String (chr 159) (String (chr 144)
             (String (chr 159) "!")))))))))
    MessageType.Text (Some "2016-01-01") None None true None
    (Some [("reply_to", VInt (-3)); ("tags", VList [VStr "a"; VNone])])
    (Some [(TextStyle.__init__ (Some (Color.__init__ 5 (Some 6))) 1 0 0 0,
            VStr (String (chr 226) (String (chr 130) (String (chr 172) ""))))]).


(** A text in the ASCII range. *)
Fixpoint is_ascii (s : string) : bool :=
  match s with
  | String c s' => (ord c <? 128) && is_ascii s'
  | "" => true
  end.

(** [s.encode('utf-8')]: a str is held as its UTF-8 bytes. *)
Definition str_encode (s : string) : list byte := list_byte_of_string s.

(** * Properties *)

(** ** Generic facts *)

Lemma bind_returned {A B : Type} (c : outcome A) (k : A -> outcome B) (b : B) :
  bind c k = Returned b -> exists a, c = Returned a /\ k a = Returned b.
Proof.
  destruct c as [a|e]; simpl; intros H; [exists a; auto | discriminate].
Qed.

Lemma forallb_hashable_strs (names : list string) :
  forallb py_hashable (map VStr names) = true.
Proof.
  induction names as [|n names IH]; simpl; auto.
Qed.

Lemma py_set_strs (names : list string) :
  py_set (VList (map VStr names)) = Returned (map VStr names).
Proof.
  unfold py_set; simpl. now rewrite forallb_hashable_strs.
Qed.

Lemma py_str_in_strs (name : string) (names : list string) :
  py_str_in name (map VStr names) = true <-> In name names.
Proof.
  unfold py_str_in. induction names as [|n names IH]; simpl.
  - split; [discriminate | tauto].
  - rewrite orb_true_iff, IH, String.eqb_eq. tauto.
Qed.

Lemma py_str_in_ext (name : string) (l1 l2 : list string) :
  (In name l1 <-> In name l2) ->
  py_str_in name (map VStr l1) = py_str_in name (map VStr l2).
Proof.
  intros H.
  destruct (py_str_in name (map VStr l1)) eqn:E1,
           (py_str_in name (map VStr l2)) eqn:E2; auto.
  - apply (proj1 (py_str_in_strs _ _)) in E1. apply (proj1 H) in E1.
    apply (proj2 (py_str_in_strs _ _)) in E1. congruence.
  - apply (proj1 (py_str_in_strs _ _)) in E2. apply (proj2 H) in E2.
    apply (proj2 (py_str_in_strs _ _)) in E2. congruence.
Qed.

(** ** The library models on sample inputs *)

Example py_int_samples :
  py_int (VStr " 12 ") = Returned 12
  /\ py_int (VStr "-1_000") = Returned (-1000)
  /\ py_int (VStr "1__0") = Raised ValueError
  /\ py_int (VStr "r") = Raised ValueError
  /\ py_int (VBool true) = Returned 1
  /\ py_int VNone = Raised TypeError
  /\ py_int (VFloat (float.of_decimal false 27 (-1))) = Returned 2
  /\ py_int (VFloat S754_nan) = Raised ValueError
  /\ py_int (VFloat (S754_infinity false)) = Raised OverflowError.
Proof. repeat split; reflexivity. Qed.

(** A foreground [True] is kept as a bool by the constructor and printed
    as one; the codec writes it as a bool and reads it back as the int
    [1]. *)
Example color_True_samples :
  ColorField._deserialize (VBool true)
  = Returned (Some (Color.__init__ (IBool true) None))
  /\ Color.__repr__ (Color.__init__ (IBool true) None) = "<color: True/None>"
  /\ ColorField._serialize (Some (Color.__init__ (IBool true) (Some 6)))
     = VTuple [VBool true; VInt 6]
  /\ ColorField._deserialize
       (ColorField._serialize (Some (Color.__init__ (IBool true) (Some 6))))
     = Returned (Some (Color.__init__ 1 (Some 6))).
Proof. repeat split; reflexivity. Qed.

(** [int()] on a str: the file separator is no blank for it, the
    ideographic space is; ARABIC-INDIC DIGIT THREE and FOUR are digits. *)
Example py_int_unicode_samples :
  py_int (VStr (String (chr 28) "5")) = Raised ValueError
  /\ py_int (VStr (String (chr 227) (String (chr 128) (String (chr 128) "5"))))
     = Returned 5
  /\ py_int (VStr (String (chr 217) (String (chr 163)
                     (String (chr 217) (String (chr 164) "")))))
     = Returned 34
  /\ py_int (VStr (String (chr 194) (String (chr 178) ""))) = Raised ValueError.
Proof. repeat split; vm_compute; reflexivity. Qed.

Example float_samples :
  float.of_decimal false 15 (-1) = S754_finite false 6755399441055744 (-52)
  /\ float.of_decimal false 1 (-1) = S754_finite false 7205759403792794 (-56)
  /\ float.of_decimal true 0 (-1) = S754_zero true
  /\ float.of_decimal false 1 400 = S754_infinity false
  /\ float.of_decimal false 9007199254740993 0
     = S754_finite false 4503599627370496 1
  /\ float.__repr__ (S754_finite false 6755399441055744 (-52)) = "1.5"
  /\ float.__repr__ (S754_finite false 7205759403792794 (-56)) = "0.1"
  /\ float.__repr__ (S754_finite false 5000000000000000 1) = "1e+16"
  /\ float.__repr__ (S754_finite false 5902958103587057 (-69)) = "1e-05"
  /\ float.__repr__ (S754_finite true 8796093022208000 (-43)) = "-1000.0".
Proof. repeat split; vm_compute; reflexivity. Qed.

Example json_loads_samples :
  json.loads " [1, [true, null], -3, {}] "
  = Returned (VList [VInt 1; VList [VBool true; VNone]; VInt (-3); VDict []])
  /\ json.loads "[1,]" = Raised JSONDecodeError
  /\ json.loads "01" = Raised JSONDecodeError
  /\ json.loads "[1] 2" = Raised JSONDecodeError
  /\ json.loads "" = Raised JSONDecodeError
  /\ json.loads "not json" = Raised JSONDecodeError
  /\ json.loads "[1.5, 1e3, -0.0, NaN, 2.5E-1, -Infinity]"
     = Returned (VList [VFloat (S754_finite false 6755399441055744 (-52));
                        VFloat (S754_finite false 8796093022208000 (-43));
                        VFloat (S754_zero true); VFloat S754_nan;
                        VFloat (S754_finite false 4503599627370496 (-54));
                        VFloat (S754_infinity true)])
  /\ json.loads "1." = Raised JSONDecodeError
  /\ json.loads "-0" = Returned (VInt 0).
Proof. repeat split; vm_compute; reflexivity. Qed.

Example json_dumps_sample :
  json.dumps (VDict [("n", VInt (-12)); ("l", VTuple [VNone; VBool false]);
                     ("s", VList [])])
  = "{" ++ json.dquote ++ "n" ++ json.dquote ++ ": -12, "
    ++ json.dquote ++ "l" ++ json.dquote ++ ": [null, false], "
    ++ json.dquote ++ "s" ++ json.dquote ++ ": []}".
Proof. vm_compute. reflexivity. Qed.

Example json_dumps_floats :
  json.dumps (VList [VFloat (S754_finite false 6755399441055744 (-52));
                     VFloat (S754_finite false 5000000000000000 1);
                     VFloat S754_nan; VFloat (S754_zero true);
                     VFloat (S754_infinity true); VBool true])
  = "[1.5, 1e+16, NaN, -0.0, -Infinity, true]".
Proof. vm_compute. reflexivity. Qed.

Example utf8_valid_samples :
  utf8_valid [x66; xc3; xa9] = true
  /\ utf8_valid [xe2; x82; xac] = true
  /\ utf8_valid [xf0; x9f; x98; x80] = true
  /\ utf8_valid [xc0; x80] = false
  /\ utf8_valid [xed; xa0; x80] = false
  /\ utf8_valid [xe2; x82] = false
  /\ utf8_valid [x80] = false
  /\ utf8_valid [xf5; x80; x80; x80] = false.
Proof. repeat split; reflexivity. Qed.

(** ** ColorField *)

Lemma ColorField_roundtrip_none :
  ColorField._deserialize (ColorField._serialize None) = Returned None.
Proof. reflexivity. Qed.

(** A color with both components survives the codec. *)
Lemma ColorField_roundtrip_fg_bg (f b : Z) :
  ColorField._deserialize (ColorField._serialize (Some (Color.__init__ f (Some b))))
  = Returned (Some (Color.__init__ f (Some b))).
Proof. reflexivity. Qed.

(** C2 (defect): a color without background does not survive the codec.
    [_serialize] emits the pair [(fg, None)], and [_deserialize] rejects
    that pair because [int(None)] raises: for every [fg] the round trip of
    [Color(fg)] ends in a [ValidationError] instead of giving the color
    back. *)
Theorem C2_color_without_bg_is_rejected (f : Z) :
  ColorField._serialize (Some (Color.__init__ f None)) = VTuple [VInt f; VNone]
  /\ ColorField._deserialize (ColorField._serialize (Some (Color.__init__ f None)))
     = Raised (ValidationError "Color field should only contain fg and bg").
Proof. split; reflexivity. Qed.

(** C6 (counterexample): inputs that are neither an integer nor a
    two-element sequence of integers, yet decode to a color: the str
    ["12"] (its characters are drawn and converted), a list of two digit
    strings and a list of two floats.  And the integer 0, being falsy,
    decodes to no color rather than to a foreground. *)
Lemma C6_counterexample :
  ColorField._deserialize (VStr "12") = Returned (Some (Color.__init__ 1 (Some 2)))
  /\ ColorField._deserialize (VList [VStr "5"; VStr "6"])
     = Returned (Some (Color.__init__ 5 (Some 6)))
  /\ ColorField._deserialize
       (VList [VFloat (float.of_decimal false 15 (-1));
               VFloat (float.of_decimal false 27 (-1))])
     = Returned (Some (Color.__init__ 1 (Some 2)))
  /\ ColorField._deserialize (VInt 0) = Returned None.
Proof. repeat split; reflexivity. Qed.

Lemma unpack2_map_int_returned (items : list pyval) (x y : Z) :
  unpack2_map_int items = Returned (x, y) <->
  exists a b, items = [a; b] /\ py_int a = Returned x /\ py_int b = Returned y.
Proof.
  split.
  - destruct items as [|a [|b [|c rest]]]; simpl; try discriminate.
    + destruct (py_int a); discriminate.
    + destruct (py_int a) as [x'|] eqn:Ea; simpl; try discriminate.
      destruct (py_int b) as [y'|] eqn:Eb; simpl; try discriminate.
      intros H; injection H as -> ->. exists a, b. auto.
    + destruct (py_int a); simpl; try discriminate.
      destruct (py_int b); simpl; try discriminate.
      destruct (py_int c); discriminate.
  - intros (a & b & -> & Ha & Hb). simpl. now rewrite Ha, Hb.
Qed.

(** C6 (amended): the decode contract of the color codec, for every
    input value.  A falsy input is no color.  A truthy instance of [int],
    that is a non-zero int or [True], is a foreground alone, stored as it
    is.  Any other input that yields exactly two items that [int()]
    converts is a foreground and a background: the two-element sequences
    of integers, and also a str of two digits or a list of two floats.
    Every input left fails with the codec's [ValidationError], and no other
    exception leaves the codec.  [[1,2,3]], ["red"] and [1.5] fail, and so
    does a list whose first item is the file separator followed by [5],
    which [int()] does not take for a blank; a list of ARABIC-INDIC DIGIT
    THREE and FOUR is the color 3 on 4. *)
Theorem C6_color_decode_contract :
  (forall value, py_truthy value = false ->
     ColorField._deserialize value = Returned None)
  /\ (forall value i,
        py_truthy value = true -> py_isinstance_int value = Some i ->
        ColorField._deserialize value = Returned (Some (Color.__init__ i None)))
  /\ (forall n, n <> 0 ->
        ColorField._deserialize (VInt n) = Returned (Some (Color.__init__ n None)))
  /\ ColorField._deserialize (VBool true)
     = Returned (Some (Color.__init__ (IBool true) None))
  /\ (forall f b,
        ColorField._deserialize (VList [VInt f; VInt b])
        = Returned (Some (Color.__init__ f (Some b)))
        /\ ColorField._deserialize (VTuple [VInt f; VInt b])
           = Returned (Some (Color.__init__ f (Some b))))
  /\ (forall value a b x y,
        py_truthy value = true -> py_isinstance_int value = None ->
        py_iter value = Returned [a; b] ->
        py_int a = Returned x -> py_int b = Returned y ->
        ColorField._deserialize value = Returned (Some (Color.__init__ x (Some y))))
  /\ (forall value,
        py_truthy value = true -> py_isinstance_int value = None ->
        (forall a b x y, py_iter value = Returned [a; b] ->
                         py_int a = Returned x -> py_int b = Returned y -> False) ->
        ColorField._deserialize value = Raised color_error)
  /\ (forall value e, ColorField._deserialize value = Raised e -> e = color_error)
  /\ ColorField._deserialize (VList [VInt 1; VInt 2; VInt 3]) = Raised color_error
  /\ ColorField._deserialize (VStr "red") = Raised color_error
  /\ ColorField._deserialize (VFloat (float.of_decimal false 15 (-1)))
     = Raised color_error
  /\ ColorField._deserialize (VList [VStr (String (chr 28) "5"); VStr "6"])
     = Raised color_error
  /\ ColorField._deserialize
       (VList [VStr (String (chr 217) (String (chr 163) ""));
               VStr (String (chr 217) (String (chr 164) ""))])
     = Returned (Some (Color.__init__ 3 (Some 4))).
Proof.
  repeat split.
  - intros value H. unfold ColorField._deserialize. now rewrite H.
  - intros value i Ht Hi. unfold ColorField._deserialize. now rewrite Ht, Hi.
  - intros n Hn. unfold ColorField._deserialize. simpl.
    destruct (Z.eqb_spec n 0); [contradiction | reflexivity].
  - intros value a b x y Ht Hi Hit Ha Hb.
    unfold ColorField._deserialize. rewrite Ht, Hi, Hit. simpl.
    now rewrite Ha, Hb.
  - intros value Ht Hi Hno.
    unfold ColorField._deserialize. rewrite Ht, Hi. simpl.
    destruct (py_iter value) as [items|e] eqn:Eit; simpl; [|reflexivity].
    destruct (unpack2_map_int items) as [[x y]|e] eqn:Eu; simpl; [|reflexivity].
    apply unpack2_map_int_returned in Eu. destruct Eu as (a & b & -> & Ha & Hb).
    exfalso. eapply Hno; eauto.
  - intros value e. unfold ColorField._deserialize.
    destruct (py_truthy value); simpl; [|discriminate].
    destruct (py_isinstance_int value); [discriminate|].
    destruct (py_iter value) as [items|e'] eqn:Eit; simpl.
    + destruct (unpack2_map_int items) as [[x y]|e''] eqn:Eu; simpl;
        [discriminate | intros H; injection H as <-; reflexivity].
    + intros H; injection H as <-; reflexivity.
Qed.

(** ** TextStyleField *)

Lemma TextStyleField_deserialize_strs (names : list string) :
  TextStyleField._deserialize (VList (map VStr names))
  = Returned (style_of_flags (py_str_in "italic" (map VStr names))
                             (py_str_in "bold" (map VStr names))
                             (py_str_in "underline" (map VStr names))).
Proof.
  unfold TextStyleField._deserialize. rewrite py_set_strs. simpl.
  destruct (py_str_in "italic" _), (py_str_in "bold" _), (py_str_in "underline" _);
    reflexivity.
Qed.

Lemma In_filter_recognized (name : string) (names : list string) :
  recognized name = true ->
  (In name (filter recognized names) <-> In name names).
Proof.
  intros Hr. rewrite filter_In. tauto.
Qed.

(** C7: on a list of style names the style codec acts on the set of the
    names: the ITALIC, BOLD and UNDERLINE bits of the result are set exactly
    when the matching name occurs in the list, no other bit is set, lists
    with the same members decode alike, and names the codec does not know
    change nothing and raise nothing.  [["bold", "sparkle"]] decodes to
    BOLD. *)
Theorem C7_style_names_lenient (names : list string) :
  exists style,
    TextStyleField._deserialize (VList (map VStr names)) = Returned style
    /\ (Z.land style TextStyle.ITALIC = TextStyle.ITALIC <-> In "italic" names)
    /\ (Z.land style TextStyle.BOLD = TextStyle.BOLD <-> In "bold" names)
    /\ (Z.land style TextStyle.UNDERLINE = TextStyle.UNDERLINE
        <-> In "underline" names)
    /\ Z.land style TextStyle.COLOR = 0
    /\ 0 <= style < 16
    /\ (forall names', (forall x, In x names <-> In x names') ->
          TextStyleField._deserialize (VList (map VStr names')) = Returned style)
    /\ TextStyleField._deserialize (VList (map VStr (filter recognized names)))
       = Returned style
    /\ TextStyleField._deserialize (VList (map VStr ["bold"; "sparkle"]))
       = Returned TextStyle.BOLD.
Proof.
  eexists. split; [apply TextStyleField_deserialize_strs|].
  pose proof (py_str_in_strs "italic" names) as Hi.
  pose proof (py_str_in_strs "bold" names) as Hb.
  pose proof (py_str_in_strs "underline" names) as Hu.
  repeat split.
  - intros H. apply Hi.
    destruct (py_str_in "italic" _), (py_str_in "bold" _), (py_str_in "underline" _);
      auto; discriminate.
  - intros H. apply Hi in H. rewrite H.
    destruct (py_str_in "bold" _), (py_str_in "underline" _); reflexivity.
  - intros H. apply Hb.
    destruct (py_str_in "italic" _), (py_str_in "bold" _), (py_str_in "underline" _);
      auto; discriminate.
  - intros H. apply Hb in H. rewrite H.
    destruct (py_str_in "italic" _), (py_str_in "underline" _); reflexivity.
  - intros H. apply Hu.
    destruct (py_str_in "italic" _), (py_str_in "bold" _), (py_str_in "underline" _);
      auto; discriminate.
  - intros H. apply Hu in H. rewrite H.
    destruct (py_str_in "italic" _), (py_str_in "bold" _); reflexivity.
  - destruct (py_str_in "italic" _), (py_str_in "bold" _), (py_str_in "underline" _);
      reflexivity.
  - destruct (py_str_in "italic" _), (py_str_in "bold" _), (py_str_in "underline" _);
      discriminate.
  - destruct (py_str_in "italic" _), (py_str_in "bold" _), (py_str_in "underline" _);
      reflexivity.
  - intros names' Hsame. rewrite TextStyleField_deserialize_strs.
    now rewrite !(py_str_in_ext _ names' names (iff_sym (Hsame _))).
  - rewrite TextStyleField_deserialize_strs.
    now rewrite !(py_str_in_ext _ (filter recognized names) names)
      by (apply In_filter_recognized; reflexivity).
Qed.

Lemma split_at_length (k : nat) (s : string) :
  (String.length (fst (split_at k s)) <= k)%nat.
Proof.
  revert s. induction k as [|k IH]; intros s; simpl; [lia|].
  destruct s as [|c s]; simpl; [lia|].
  specialize (IH s). destruct (split_at k s) as [t r]; simpl in *. lia.
Qed.

(** A character drawn from a str is its first byte followed by no more
    continuation bytes than that byte announces. *)
Lemma py_str_chars_fuel_shape (fuel : nat) (s ch : string) :
  In ch (py_str_chars_fuel fuel s) ->
  exists c t, ch = String c t /\ (String.length t <= utf8_trail c)%nat.
Proof.
  revert s. induction fuel as [|fuel IH]; intros s; simpl; [tauto|].
  destruct s as [|c s]; simpl; [tauto|].
  pose proof (split_at_length (utf8_trail c) s) as Hlen.
  destruct (split_at (utf8_trail c) s) as [t r]; simpl in *.
  intros [<-|Hin]; [exists c, t; auto | eauto].
Qed.

(** No character of a str equals a name of two or more ASCII letters. *)
Lemma py_str_in_chars (c0 c1 : ascii) (rest s : string) :
  utf8_trail c0 = 0%nat ->
  py_str_in (String c0 (String c1 rest)) (map VStr (py_str_chars s)) = false.
Proof.
  intros H0. unfold py_str_in, py_str_chars.
  destruct (existsb _ _) eqn:E; [|reflexivity]. exfalso.
  apply existsb_exists in E. destruct E as (v & Hin & Hv).
  apply in_map_iff in Hin. destruct Hin as (ch & <- & Hin).
  apply String.eqb_eq in Hv. subst ch.
  apply py_str_chars_fuel_shape in Hin.
  destruct Hin as (c & t & Heq & Hlen).
  injection Heq as <- <-. rewrite H0 in Hlen. simpl in Hlen. lia.
Qed.

Lemma py_set_str (s : string) :
  py_set (VStr s) = Returned (map VStr (py_str_chars s)).
Proof.
  unfold py_set; simpl. now rewrite forallb_hashable_strs.
Qed.

(** C10: the style codec raises only when its input cannot be made into
    a set, and then with its own [ValidationError].  A str can always be
    made into the set of its characters, none of which is a style name,
    so every str (["bold"] for one) decodes to NORMAL. *)
Theorem C10_str_input_decodes_to_normal :
  (forall s, TextStyleField._deserialize (VStr s) = Returned TextStyle.NORMAL)
  /\ TextStyleField._deserialize (VStr "bold") = Returned TextStyle.NORMAL
  /\ (forall value e,
        TextStyleField._deserialize value = Raised e ->
        e = style_error /\ exists e', py_set value = Raised e')
  /\ (forall value e',
        py_set value = Raised e' ->
        TextStyleField._deserialize value = Raised style_error).
Proof.
  split; [|split; [reflexivity|split]].
  - intros s. unfold TextStyleField._deserialize. rewrite py_set_str. simpl.
    now rewrite !py_str_in_chars by reflexivity.
  - intros value e. unfold TextStyleField._deserialize.
    destruct (py_set value) as [styles|e'] eqn:Es; simpl.
    + destruct (py_str_in "italic" styles), (py_str_in "bold" styles),
        (py_str_in "underline" styles); discriminate.
    + intros H; injection H as <-. split; [reflexivity | eauto].
  - intros value e' Hs. unfold TextStyleField._deserialize. now rewrite Hs.
Qed.

(** ** TextStyle *)

Lemma land_1 (a : Z) : Z.land a 1 = if Z.testbit a 0 then 1 else 0.
Proof.
  change 1 with (Z.ones 1) at 1. rewrite Z.land_ones by lia.
  change (2 ^ 1) with 2. rewrite <- Z.bit0_mod.
  now destruct (Z.testbit a 0).
Qed.

Lemma flag_color_bit (a : Z) :
  TextStyle.flag (Z.land a TextStyle.COLOR) = Z.testbit a 0.
Proof.
  unfold TextStyle.COLOR. rewrite land_1. now destruct (Z.testbit a 0).
Qed.

(** C8: the constructor does not keep the color attribute and the COLOR
    bit together.  [TextStyle(style=TextStyle.COLOR)] has the COLOR bit and
    no color attribute, and [__repr__] fails on every such value, since it
    reads the attribute whenever the bit is set; without a color argument
    no attribute is ever assigned; with a color argument the COLOR bit is
    always set and the color attached. *)
Theorem C8_constructor_does_not_enforce_color_invariant :
  TextStyle.__init__ None 0 0 0 TextStyle.COLOR
    = {| style := TextStyle.COLOR; color := None |}
  /\ TextStyle.__repr__ (TextStyle.__init__ None 0 0 0 TextStyle.COLOR)
     = Raised AttributeError
  /\ (forall self, color self = None -> Z.testbit (style self) 0 = true ->
        TextStyle.__repr__ self = Raised AttributeError)
  /\ (forall italic bold underline style0,
        color (TextStyle.__init__ None italic bold underline style0) = None)
  /\ (forall c italic bold underline style0,
        Z.land (style (TextStyle.__init__ (Some c) italic bold underline style0))
               TextStyle.COLOR = TextStyle.COLOR
        /\ color (TextStyle.__init__ (Some c) italic bold underline style0) = Some c).
Proof.
  split; [reflexivity|]. split; [reflexivity|]. split; [|split].
  - intros self Hc Hbit. unfold TextStyle.__repr__, TextStyle.getattr_color.
    now rewrite flag_color_bit, Hbit, Hc.
  - reflexivity.
  - intros c italic bold underline style0. split; [|reflexivity].
    unfold TextStyle.__init__; simpl. unfold TextStyle.COLOR. rewrite land_1.
    rewrite !Z.lor_spec.
    replace (Z.testbit 1 0) with true by reflexivity.
    now rewrite orb_true_r.
Qed.

(** A style with a full color, or with none, survives dump and load. *)
Lemma TextStyle_roundtrip (s : TextStyle) :
  valid_TextStyle s -> has_bg (color s) -> int_fg (color s) ->
  TextStyle_load (VDict (TextStyle_dump s)) = Returned s.
Proof.
  destruct s as [st c]. unfold valid_TextStyle, has_bg, int_fg; simpl.
  intros [Hrange Hbit] Hbg Hfg.
  assert (Hst : In st [0;1;2;3;4;5;6;7;8;9;10;11;12;13;14;15]) by (simpl; lia).
  destruct c as [[f [b|]]|]; simpl in Hbg; try congruence;
    [destruct Hfg as [n Hn]; simpl in Hn; subst f|].
  - assert (Hc : Z.testbit st 0 = true) by (apply Hbit; discriminate).
    simpl in Hst.
    repeat (destruct Hst as [<-|Hst]; [try discriminate Hc; reflexivity|]).
    contradiction.
  - assert (Hc : Z.testbit st 0 <> true) by (intros H; apply Hbit in H; congruence).
    simpl in Hst.
    repeat (destruct Hst as [<-|Hst];
            [try (exfalso; apply Hc; reflexivity); reflexivity|]).
    contradiction.
Qed.

(** C4 (defect): a style whose color has no background does not survive
    dump and load.  The color is dumped as [(fg, None)], its load fails
    inside the schema, the failure is recorded and the key dropped, and the
    constructor is called without a color: whatever the foreground and the
    flags, the reloaded style has lost the color and the COLOR bit. *)
Theorem C4_style_roundtrip_loses_fg_only_color (f italic bold underline : Z) :
  let s := TextStyle.__init__ (Some (Color.__init__ f None)) italic bold underline 0 in
  valid_TextStyle s
  /\ TextStyle_load (VDict (TextStyle_dump s))
     = Returned (TextStyle.__init__ None italic bold underline 0)
  /\ TextStyle_load (VDict (TextStyle_dump s)) <> Returned s.
Proof.
  unfold TextStyle.__init__, valid_TextStyle.
  destruct (TextStyle.flag italic), (TextStyle.flag bold), (TextStyle.flag underline);
    simpl; (repeat split; try lia; try reflexivity; try discriminate).
Qed.

(** ** Message *)

(** The end-to-end run of the source: the message comes back as it was. *)
Lemma main_message_roundtrip :
  Message_roundtrip main_message = Returned main_message.
Proof. vm_compute. reflexivity. Qed.

(** That run goes through four validation failures.  The dumped text
    carries [null] for [media_url], [date], [time] and [room]; the load
    records "may not be null" for each and leaves the keys out, and the
    constructor defaults bring the [None]s back. *)
Lemma main_message_load_errors :
  exists jstr r,
    Message.dumps main_message = Returned jstr
    /\ MessageSchema.loads jstr = Returned r
    /\ map fst (marshmallow.errs r) = ["media_url"; "date"; "time"; "room"].
Proof. do 2 eexists. repeat split; vm_compute; reflexivity. Qed.

(** C5 (defect): the round trip of a message loses a color that has no
    background.  With [Color(5)] in place of [Color(5, 6)] in the run of
    the end-to-end message, the reloaded run carries the NORMAL style
    without any color. *)
Theorem C5_message_roundtrip_loses_fg_only_color :
  Message_roundtrip fg_only_message
  = Returned
      (Message.__init__ ChannelType.Telegram "tester" "tester2" "test"
         MessageType.Text None None None false None None
         (Some [(TextStyle.__init__ None 1 0 0 0, VStr "test")]))
  /\ Message_roundtrip fg_only_message <> Returned fg_only_message.
Proof. split; vm_compute; [reflexivity | discriminate]. Qed.

(** C9: [loads] decodes a bytes input before it enters the [try] block,
    so on bytes that are not well-formed UTF-8 the decoding error reaches
    the caller and no sentinel is returned. *)
Theorem C9_invalid_utf8_bytes_propagate (b : list byte) :
  utf8_valid b = false ->
  Message.loads (Bytes b) = Raised UnicodeDecodeError
  /\ Message.loads (Bytes b) <> Returned Message.sentinel.
Proof.
  intros H. unfold Message.loads, bytes_decode. rewrite H. simpl.
  split; [reflexivity | discriminate].
Qed.

Lemma C9_witness :
  utf8_valid [xff] = false
  /\ Message.loads (Bytes [xff]) = Raised UnicodeDecodeError
  /\ Message.loads (Bytes [xff]) <> Returned Message.sentinel.
Proof.
  split; [reflexivity | apply (C9_invalid_utf8_bytes_propagate [xff]); reflexivity].
Defined.

(** Well-formed bytes are handled like the str they encode. *)
Lemma loads_bytes_valid (b : list byte) :
  utf8_valid b = true ->
  Message.loads (Bytes b) = Message.loads (Str (string_of_list_byte b)).
Proof.
  intros H. unfold Message.loads, bytes_decode. now rewrite H.
Qed.

(** *** The schema stores validation errors and raises nothing *)

Lemma unmarshal_string (name : string) (d : dict) :
  exists e,
    marshmallow.unmarshal_field name None MessageSchema.string_deserialize d
    = Returned (str_at d name, e).
Proof.
  unfold marshmallow.unmarshal_field, str_at.
  destruct (dict_get d name) as [v|]; [|eexists; reflexivity].
  destruct v; eexists; reflexivity.
Qed.

Lemma unmarshal_mtype (d : dict) :
  exists m e,
    marshmallow.unmarshal_field "mtype" None MessageSchema.mtype_deserialize d
    = Returned (m, e)
    /\ (forall s, m = Some s -> In s MessageSchema.mtype_choices)
    /\ (forall v, dict_get d "mtype" = Some v -> outside_mtypes v = true ->
          m = None /\ exists msg, e = [("mtype", msg)]).
Proof.
  unfold marshmallow.unmarshal_field, outside_mtypes.
  destruct (dict_get d "mtype") as [v|].
  2:{ do 2 eexists. split; [reflexivity|]. split; intros; discriminate. }
  destruct v as [| | | |s| | |];
    try (do 2 eexists; split; [reflexivity|];
         split; [intros; discriminate | intros; split; eauto]).
  unfold MessageSchema.mtype_deserialize, marshmallow.fields.Field_deserialize,
    marshmallow.validate.OneOf.
  cbn [fold_left bind marshmallow.fields.String._deserialize py_isinstance_str].
  destruct (existsb (String.eqb s) MessageSchema.mtype_choices) eqn:E; cbn [bind negb].
  - do 2 eexists. split; [reflexivity|]. split.
    + intros s' H; injection H as <-.
      apply existsb_exists in E. destruct E as (x & Hin & Hx).
      apply String.eqb_eq in Hx. now subst x.
    + intros v H; injection H as <-. rewrite E. discriminate.
  - do 2 eexists. split; [reflexivity|]. split; [intros; discriminate|].
    intros; split; eauto.
Qed.

Lemma RichTextField_deserialize_raises (v : pyval) (e : exn) :
  RichTextField._deserialize v = Raised e ->
  e = ValidationError RichTextField.message.
Proof.
  unfold RichTextField._deserialize.
  destruct v; try discriminate;
    match goal with
    | |- try_except ?b _ = _ -> _ => destruct b; simpl; congruence
    end.
Qed.

Lemma unmarshal_rich_text (d : dict) :
  exists x e,
    marshmallow.unmarshal_field "rich_text" None
      MessageSchema.rich_text_deserialize d = Returned (x, e).
Proof.
  unfold marshmallow.unmarshal_field.
  destruct (dict_get d "rich_text") as [v|]; [|do 2 eexists; reflexivity].
  unfold MessageSchema.rich_text_deserialize, marshmallow.fields.Field_deserialize.
  destruct v; try (do 2 eexists; reflexivity);
    match goal with
    | |- context [RichTextField._deserialize ?v] =>
        destruct (RichTextField._deserialize v) as [r|e] eqn:E; simpl;
          [do 2 eexists; reflexivity
          |apply RichTextField_deserialize_raises in E; subst e;
           do 2 eexists; reflexivity]
    end.
Qed.

Lemma Boolean_deserialize_raises (v : pyval) (e : exn) :
  marshmallow.fields.Boolean._deserialize v = Raised e ->
  e = ValidationError "Not a valid boolean.".
Proof.
  unfold marshmallow.fields.Boolean._deserialize.
  match goal with
  | |- bind (try_except ?b _) _ = _ -> _ => destruct b as [[[|]|]|]; simpl
  end; congruence.
Qed.

Lemma unmarshal_botmsg (d : dict) :
  exists x e,
    marshmallow.unmarshal_field "botmsg" None
      MessageSchema.botmsg_deserialize d = Returned (x, e).
Proof.
  unfold marshmallow.unmarshal_field.
  destruct (dict_get d "botmsg") as [v|]; [|do 2 eexists; reflexivity].
  unfold MessageSchema.botmsg_deserialize, marshmallow.fields.Field_deserialize.
  destruct v; try (do 2 eexists; reflexivity);
    match goal with
    | |- context [marshmallow.fields.Boolean._deserialize ?v] =>
        destruct (marshmallow.fields.Boolean._deserialize v) as [r|e] eqn:E; simpl;
          [do 2 eexists; reflexivity
          |apply Boolean_deserialize_raises in E; subst e;
           do 2 eexists; reflexivity]
    end.
Qed.

Lemma unmarshal_opt (d : dict) :
  exists x e,
    marshmallow.unmarshal_field "opt" None
      MessageSchema.opt_deserialize d = Returned (x, e).
Proof.
  unfold marshmallow.unmarshal_field.
  destruct (dict_get d "opt") as [v|]; [|do 2 eexists; reflexivity].
  destruct v; do 2 eexists; reflexivity.
Qed.

(** Loading a JSON object never raises; the four mandatory keys are kept
    exactly when they hold a str, and a kept [mtype] is an enumerated
    one. *)
Lemma MessageSchema_load_dict (d : dict) :
  exists kw e,
    MessageSchema.load (VDict d)
    = Returned {| marshmallow.data := Some kw; marshmallow.errs := e |}
    /\ MessageSchema.kw_channel kw = str_at d "channel"
    /\ MessageSchema.kw_sender kw = str_at d "sender"
    /\ MessageSchema.kw_receiver kw = str_at d "receiver"
    /\ MessageSchema.kw_content kw = str_at d "content"
    /\ (forall s, MessageSchema.kw_mtype kw = Some s ->
          In s MessageSchema.mtype_choices)
    /\ (forall v, dict_get d "mtype" = Some v -> outside_mtypes v = true ->
          MessageSchema.kw_mtype kw = None /\ In "mtype" (map fst e)).
Proof.
  unfold MessageSchema.load.
  destruct (unmarshal_string "channel" d) as (e1 & ->).
  destruct (unmarshal_string "sender" d) as (e2 & ->).
  destruct (unmarshal_string "receiver" d) as (e3 & ->).
  destruct (unmarshal_mtype d) as (m & e4 & -> & Hm & Hout).
  destruct (unmarshal_string "media_url" d) as (e5 & ->).
  destruct (unmarshal_string "content" d) as (e6 & ->).
  destruct (unmarshal_rich_text d) as (rt & e7 & ->).
  destruct (unmarshal_string "date" d) as (e8 & ->).
  destruct (unmarshal_string "time" d) as (e9 & ->).
  destruct (unmarshal_botmsg d) as (bm & e10 & ->).
  destruct (unmarshal_string "room" d) as (e11 & ->).
  destruct (unmarshal_opt d) as (o & e12 & ->).
  simpl. do 2 eexists. split; [reflexivity|]. simpl.
  repeat split; auto.
  - now apply (Hout v).
  - destruct (Hout v H H0) as (_ & msg & ->).
    rewrite !map_app, !in_app_iff. simpl. tauto.
Qed.

Lemma mtype_of_kwargs (kw : MessageSchema.kwargs) (m : Message) :
  (forall s, MessageSchema.kw_mtype kw = Some s -> In s MessageSchema.mtype_choices) ->
  Message.of_kwargs kw = Returned m ->
  In (mtype m) MessageSchema.mtype_choices.
Proof.
  intros Hm. unfold Message.of_kwargs.
  destruct (MessageSchema.kw_channel kw), (MessageSchema.kw_sender kw),
    (MessageSchema.kw_receiver kw), (MessageSchema.kw_content kw); try discriminate.
  intros H; injection H as <-. simpl.
  destruct (MessageSchema.kw_mtype kw) as [mt|]; [now apply Hm | simpl; tauto].
Qed.

(** What [loads] returns on a str that parses to a JSON object. *)
Lemma loads_dict (jstr : string) (d : dict) :
  json.loads jstr = Returned (VDict d) ->
  exists kw e,
    MessageSchema.loads jstr
    = Returned {| marshmallow.data := Some kw; marshmallow.errs := e |}
    /\ MessageSchema.load (VDict d)
       = Returned {| marshmallow.data := Some kw; marshmallow.errs := e |}
    /\ Message.loads (Str jstr)
       = Returned (match Message.of_kwargs kw with
                   | Returned m => m
                   | Raised _ => Message.sentinel
                   end).
Proof.
  intros Hj. destruct (MessageSchema_load_dict d) as (kw & e & Hload & _).
  exists kw, e. unfold Message.loads, Message.loads_body, MessageSchema.loads.
  cbn [bind]. rewrite Hj; cbn [bind]. rewrite Hload.
  cbn [bind marshmallow.data Message.of_data].
  split; [reflexivity|]. split; [reflexivity|].
  unfold try_except. now destruct (Message.of_kwargs kw).
Qed.

(** *** The round trip of well-formed messages *)

Lemma unmarshal_field_returned {A : Type} (name : string) (missing : option pyval)
  (f : pyval -> outcome A) (d : dict) (a : A) (e : marshmallow.errors) :
  marshmallow.unmarshal_field name missing f d = Returned (Some a, e) ->
  exists v, f v = Returned a.
Proof.
  unfold marshmallow.unmarshal_field.
  destruct (match dict_get d name with Some v => Some v | None => missing end)
    as [v|]; [|discriminate].
  destruct (f v) as [a'|[]] eqn:E; try discriminate.
  intros H; injection H as <- <-. eauto.
Qed.

Lemma style_deserialize_range (v : pyval) (z : Z) :
  TextStyleSchema.style_deserialize v = Returned z ->
  In z [0; 2; 4; 6; 8; 10; 12; 14].
Proof.
  unfold TextStyleSchema.style_deserialize, marshmallow.fields.Field_deserialize,
    TextStyleField._deserialize.
  destruct v; try discriminate;
    match goal with
    | |- context [py_set ?v] => destruct (py_set v) as [st|]; simpl
    end; try discriminate;
    destruct (py_str_in "italic" st), (py_str_in "bold" st),
      (py_str_in "underline" st);
    intros H; injection H as <-; simpl; tauto.
Qed.

Lemma init_valid (c : option Color) (z : Z) :
  In z [0; 2; 4; 6; 8; 10; 12; 14] ->
  valid_TextStyle (TextStyle.__init__ c 0 0 0 z).
Proof.
  intros Hz. simpl in Hz.
  unfold valid_TextStyle, TextStyle.__init__, TextStyle.flag, TextStyle.COLOR,
    TextStyle.ITALIC, TextStyle.BOLD, TextStyle.UNDERLINE.
  destruct c as [c|];
    repeat (destruct Hz as [<-|Hz];
            [simpl; split; [lia | split; congruence]|]);
    contradiction.
Qed.

Lemma TextStyle_load_shape (data : pyval) (s : TextStyle) :
  TextStyle_load data = Returned s ->
  exists c z, s = TextStyle.__init__ c 0 0 0 z /\ In z [0; 2; 4; 6; 8; 10; 12; 14].
Proof.
  unfold TextStyle_load. intros H.
  apply bind_returned in H. destruct H as (r & Hload & Hk).
  destruct (marshmallow.data r) as [kw|] eqn:Hd; simpl in Hk; [|discriminate].
  injection Hk as <-. eexists. eexists. split; [reflexivity|].
  unfold TextStyleSchema.load in Hload.
  destruct data as [| | | | | | |d];
    try (injection Hload as <-; simpl in Hd; discriminate).
  apply bind_returned in Hload. destruct Hload as ([c e1] & _ & Hload).
  apply bind_returned in Hload. destruct Hload as ([z e2] & Hs & Hload).
  injection Hload as <-. simpl in Hd. injection Hd as <-. simpl.
  destruct z as [z|]; [|tauto].
  apply unmarshal_field_returned in Hs. destruct Hs as (v & Hv).
  apply style_deserialize_range in Hv. exact Hv.
Qed.

(** A reloaded style always satisfies the invariant of the data model:
    the COLOR bit is set exactly when a color is attached. *)
Lemma TextStyle_load_valid (data : pyval) (s : TextStyle) :
  TextStyle_load data = Returned s -> valid_TextStyle s.
Proof.
  intros H. apply TextStyle_load_shape in H.
  destruct H as (c & z & -> & Hz). now apply init_valid.
Qed.

(** Dump, JSON text and load give a well-formed style back. *)
Lemma TextStyle_roundtrip_json (s : TextStyle) :
  valid_TextStyle s -> has_bg (color s) -> int_fg (color s) ->
  TextStyle_load (jsonify (VDict (TextStyle_dump s))) = Returned s.
Proof.
  destruct s as [st c]. unfold valid_TextStyle, has_bg, int_fg; simpl.
  intros [Hrange Hbit] Hbg Hfg.
  assert (Hst : In st [0;1;2;3;4;5;6;7;8;9;10;11;12;13;14;15]) by (simpl; lia).
  destruct c as [[f [b|]]|]; simpl in Hbg; try congruence;
    [destruct Hfg as [n Hn]; simpl in Hn; subst f|].
  - assert (Hc : Z.testbit st 0 = true) by (apply Hbit; discriminate).
    simpl in Hst.
    repeat (destruct Hst as [<-|Hst]; [try discriminate Hc; reflexivity|]).
    contradiction.
  - assert (Hc : Z.testbit st 0 <> true) by (intros H; apply Hbit in H; congruence).
    simpl in Hst.
    repeat (destruct Hst as [<-|Hst];
            [try (exfalso; apply Hc; reflexivity); reflexivity|]).
    contradiction.
Qed.

Lemma RichTextField_check_valid (runs : RichText) :
  Forall valid_run runs ->
  fold_left
    (fun acc run =>
       _ <- acc ;;
       match py_isinstance_str (snd run) with
       | Some _ => Returned tt
       | None => Raised RuntimeError
       end)
    runs (Returned tt) = Returned tt.
Proof.
  induction 1 as [|run runs (_ & _ & _ & t & Ht) _ IH]; simpl; [reflexivity|].
  now rewrite Ht.
Qed.

Lemma RichTextField_serialize_valid (runs : RichText) :
  Forall valid_run runs ->
  RichTextField._serialize (Some runs) = Returned (VList (map run_dump runs)).
Proof.
  intros H. unfold RichTextField._serialize.
  now rewrite (RichTextField_check_valid runs H).
Qed.

Lemma load_runs_valid (runs : RichText) :
  Forall valid_run runs ->
  RichTextField.load_runs (map jsonify (map run_dump runs)) = Returned runs.
Proof.
  induction 1 as [|[s t] runs (Hs & Hbg & Hfg & t' & Ht) _ IH]; [reflexivity|].
  simpl in Hs, Hbg, Hfg, Ht. subst t.
  change (map jsonify (map run_dump ((s, VStr t') :: runs)))
    with (VList [jsonify (VDict (TextStyle_dump s)); VStr t']
            :: map jsonify (map run_dump runs)).
  cbn [RichTextField.load_runs RichTextField.unpack2 py_iter bind].
  rewrite (TextStyle_roundtrip_json s Hs Hbg Hfg). cbn [bind].
  now rewrite IH.
Qed.

Lemma OneOf_member (choices : list string) (s : string) :
  In s choices -> marshmallow.validate.OneOf choices s = Returned tt.
Proof.
  intros H. unfold marshmallow.validate.OneOf.
  replace (existsb (String.eqb s) choices) with true; [reflexivity|].
  symmetry. apply existsb_exists. exists s. split; [exact H | apply String.eqb_refl].
Qed.

Lemma opt_or_empty (o : dict) :
  (if py_truthy (VDict o) then o else []) = o.
Proof. now destruct o. Qed.

Lemma unmarshal_field_found {A : Type} (name : string) (missing : option pyval)
  (f : pyval -> outcome A) (d : dict) (v : pyval) (a : A) :
  dict_get d name = Some v -> f v = Returned a ->
  marshmallow.unmarshal_field name missing f d = Returned (Some a, []).
Proof.
  intros Hg Hf. unfold marshmallow.unmarshal_field. now rewrite Hg, Hf.
Qed.

Lemma unmarshal_optional_string (name : string) (d : dict) (x : option string) :
  dict_get d name = Some (marshmallow.fields.String._serialize x) ->
  exists e,
    marshmallow.unmarshal_field name None MessageSchema.string_deserialize d
    = Returned (x, e).
Proof.
  intros Hg. unfold marshmallow.unmarshal_field. rewrite Hg.
  destruct x; eexists; reflexivity.
Qed.

Lemma unmarshal_optional_rich_text (d : dict) (rt : option RichText) (v : pyval) :
  dict_get d "rich_text" = Some v ->
  match rt with
  | Some runs => Forall valid_run runs /\ v = VList (map jsonify (map run_dump runs))
  | None => v = VNone
  end ->
  exists e,
    marshmallow.unmarshal_field "rich_text" None
      MessageSchema.rich_text_deserialize d
    = Returned (match rt with Some runs => Some (Some runs) | None => None end, e).
Proof.
  intros Hg Hv. unfold marshmallow.unmarshal_field. rewrite Hg.
  destruct rt as [runs|].
  - destruct Hv as (Hruns & ->).
    unfold MessageSchema.rich_text_deserialize, marshmallow.fields.Field_deserialize,
      RichTextField._deserialize.
    cbn [py_iter bind]. rewrite (load_runs_valid runs Hruns).
    eexists; reflexivity.
  - subst v. eexists; reflexivity.
Qed.

(** The round trip of every well-formed message whose colors carry a
    background, given that the JSON text of its dump reads back. *)
Lemma Message_roundtrip_valid (m : Message) (r : marshmallow.result dict) :
  valid_Message m ->
  MessageSchema.dump m = Returned r ->
  json_roundtrips (VDict (marshmallow.data r)) ->
  Message_roundtrip m = Returned m.
Proof.
  destruct m as [ch sd rc ct rt mt dt tm mu bm rm o].
  unfold valid_Message; cbn [rich_text mtype opt]. intros (Hmt & Hruns & Hopt).
  injection Hopt as Hopt.
  unfold Message_roundtrip, Message.dumps, MessageSchema.dumps.
  intros Hdump Hjson. rewrite Hdump. cbn [bind marshmallow.data].
  unfold json_roundtrips in Hjson.
  unfold Message.loads, Message.loads_body, MessageSchema.loads.
  cbn [bind]. rewrite Hjson. cbn [bind]. clear Hjson.
  assert (Hdoc : exists v,
             match rt with
             | Some runs => Forall valid_run runs
                            /\ v = VList (map jsonify (map run_dump runs))
             | None => v = VNone
             end
             /\ jsonify (VDict (marshmallow.data r))
                = VDict [("channel", VStr ch); ("sender", VStr sd);
                         ("receiver", VStr rc); ("mtype", VStr mt);
                         ("media_url", marshmallow.fields.String._serialize mu);
                         ("content", VStr ct); ("rich_text", v);
                         ("date", marshmallow.fields.String._serialize dt);
                         ("time", marshmallow.fields.String._serialize tm);
                         ("botmsg", VBool bm);
                         ("room", marshmallow.fields.String._serialize rm);
                         ("opt", VDict o)]).
  { unfold MessageSchema.dump in Hdump.
    cbn [rich_text channel sender receiver content mtype date time media_url
         botmsg room opt] in Hdump.
    destruct rt as [runs|].
    - specialize (Hruns runs eq_refl).
      rewrite (RichTextField_serialize_valid runs Hruns) in Hdump.
      cbn [MessageSchema.marshal_field bind] in Hdump.
      injection Hdump as <-. eexists. split; [split; [exact Hruns | reflexivity]|].
      cbn [marshmallow.data app jsonify map marshmallow.fields.String._serialize
           marshmallow.fields.Boolean._serialize marshmallow.fields.Dict._serialize].
      rewrite Hopt. now destruct mu, dt, tm, rm.
    - cbn [RichTextField._serialize MessageSchema.marshal_field bind] in Hdump.
      injection Hdump as <-. eexists. split; [reflexivity|].
      cbn [marshmallow.data app jsonify map marshmallow.fields.String._serialize
           marshmallow.fields.Boolean._serialize marshmallow.fields.Dict._serialize].
      rewrite Hopt. now destruct mu, dt, tm, rm. }
  destruct Hdoc as (v & Hv & ->).
  set (doc := [("channel", VStr ch); ("sender", VStr sd); ("receiver", VStr rc);
               ("mtype", VStr mt);
               ("media_url", marshmallow.fields.String._serialize mu);
               ("content", VStr ct); ("rich_text", v);
               ("date", marshmallow.fields.String._serialize dt);
               ("time", marshmallow.fields.String._serialize tm);
               ("botmsg", VBool bm);
               ("room", marshmallow.fields.String._serialize rm);
               ("opt", VDict o)]).
  unfold MessageSchema.load.
  rewrite (unmarshal_field_found "channel" None _ doc (VStr ch) ch eq_refl eq_refl).
  rewrite (unmarshal_field_found "sender" None _ doc (VStr sd) sd eq_refl eq_refl).
  rewrite (unmarshal_field_found "receiver" None _ doc (VStr rc) rc eq_refl eq_refl).
  rewrite (unmarshal_field_found "mtype" None _ doc (VStr mt) mt eq_refl).
  2:{ unfold MessageSchema.mtype_deserialize, marshmallow.fields.Field_deserialize.
      cbn [marshmallow.fields.String._deserialize py_isinstance_str bind fold_left].
      now rewrite (OneOf_member _ mt Hmt). }
  destruct (unmarshal_optional_string "media_url" doc mu eq_refl) as (e5 & ->).
  rewrite (unmarshal_field_found "content" None _ doc (VStr ct) ct eq_refl eq_refl).
  destruct (unmarshal_optional_rich_text doc rt v eq_refl Hv) as (e7 & ->).
  destruct (unmarshal_optional_string "date" doc dt eq_refl) as (e8 & ->).
  destruct (unmarshal_optional_string "time" doc tm eq_refl) as (e9 & ->).
  rewrite (unmarshal_field_found "botmsg" None _ doc (VBool bm) bm eq_refl).
  2:{ now destruct bm. }
  destruct (unmarshal_optional_string "room" doc rm eq_refl) as (e11 & ->).
  rewrite (unmarshal_field_found "opt" None _ doc (VDict o) o eq_refl eq_refl).
  cbn [bind marshmallow.data Message.of_data Message.of_kwargs
       MessageSchema.kw_channel MessageSchema.kw_sender MessageSchema.kw_receiver
       MessageSchema.kw_content MessageSchema.kw_mtype MessageSchema.kw_date
       MessageSchema.kw_time MessageSchema.kw_media_url MessageSchema.kw_botmsg
       MessageSchema.kw_room MessageSchema.kw_opt MessageSchema.kw_rich_text
       try_except].
  unfold Message.__init__. rewrite opt_or_empty.
  now destruct rt.
Qed.

(** The end-to-end run meets the premises of the round trip. *)
Lemma Message_roundtrip_valid_main :
  valid_Message main_message
  /\ (exists r, MessageSchema.dump main_message = Returned r
                /\ json_roundtrips (VDict (marshmallow.data r)))
  /\ Message_roundtrip main_message = Returned main_message.
Proof.
  assert (Hv : valid_Message main_message).
  { unfold valid_Message. split; [simpl; tauto|]. split; [|reflexivity].
    intros runs H; injection H as <-. constructor; [|constructor].
    unfold valid_run, valid_TextStyle; simpl.
    repeat split; try lia; try discriminate; eexists; reflexivity. }
  assert (Hd : MessageSchema.dump main_message
               = Returned {| marshmallow.data :=
                               [("channel", VStr "telegram");
                                ("sender", VStr "tester");
                                ("receiver", VStr "tester2");
                                ("mtype", VStr "text");
                                ("media_url", VNone);
                                ("content", VStr "test");
                                ("rich_text",
                                  VList [VTuple [VDict [("color", VTuple [VInt 5; VInt 6]);
                                                        ("style", VList [VStr "italic"])];
                                                 VStr "test"]]);
                                ("date", VNone); ("time", VNone);
                                ("botmsg", VBool false); ("room", VNone);
                                ("opt", VDict [])];
                             marshmallow.errs := [] |}) by reflexivity.
  assert (Hj : json_roundtrips
                 (VDict (marshmallow.data
                           {| marshmallow.data :=
                               [("channel", VStr "telegram");
                                ("sender", VStr "tester");
                                ("receiver", VStr "tester2");
                                ("mtype", VStr "text");
                                ("media_url", VNone);
                                ("content", VStr "test");
                                ("rich_text",
                                  VList [VTuple [VDict [("color", VTuple [VInt 5; VInt 6]);
                                                        ("style", VList [VStr "italic"])];
                                                 VStr "test"]]);
                                ("date", VNone); ("time", VNone);
                                ("botmsg", VBool false); ("room", VNone);
                                ("opt", VDict [])];
                             marshmallow.errs := [] |})))
    by (vm_compute; reflexivity).
  split; [exact Hv|]. split; [eexists; split; [exact Hd | exact Hj]|].
  exact (Message_roundtrip_valid main_message _ Hv Hd Hj).
Defined.

(** * Further properties of the codecs *)

(** ** Style bits and style names *)

Lemma land_pow2 (a k : Z) :
  0 <= k -> Z.land a (2 ^ k) = if Z.testbit a k then 2 ^ k else 0.
Proof.
  intros Hk. apply Z.bits_inj'. intros n Hn.
  rewrite Z.land_spec, Z.pow2_bits_eqb by exact Hk.
  destruct (Z.eqb_spec k n) as [->|Hne].
  - destruct (Z.testbit a n); simpl.
    + now rewrite Z.pow2_bits_true.
    + now rewrite Z.bits_0.
  - rewrite andb_false_r. destruct (Z.testbit a k).
    + rewrite Z.pow2_bits_false; [reflexivity | exact Hne].
    + now rewrite Z.bits_0.
Qed.

Lemma flag_land_pow2 (a k : Z) :
  0 <= k -> TextStyle.flag (Z.land a (2 ^ k)) = Z.testbit a k.
Proof.
  intros Hk. rewrite (land_pow2 a k Hk). unfold TextStyle.flag.
  destruct (Z.testbit a k); [|reflexivity].
  destruct (Z.eqb_spec (2 ^ k) 0) as [H0|]; [|reflexivity].
  pose proof (Z.pow_pos_nonneg 2 k ltac:(lia) Hk). lia.
Qed.

Lemma style_list_bits (style : Z) :
  TextStyle.style_list style
  = ((if Z.testbit style 1 then ["italic"] else [])
     ++ (if Z.testbit style 2 then ["bold"] else [])
     ++ (if Z.testbit style 3 then ["underline"] else []))%list.
Proof.
  unfold TextStyle.style_list, TextStyle.ITALIC, TextStyle.BOLD, TextStyle.UNDERLINE.
  change 2 with (2 ^ 1) at 1. change 4 with (2 ^ 2). change 8 with (2 ^ 3).
  now rewrite !flag_land_pow2 by lia.
Qed.

Lemma land_14 (a : Z) :
  Z.land a 14
  = (if Z.testbit a 1 then 2 else 0) + (if Z.testbit a 2 then 4 else 0)
    + (if Z.testbit a 3 then 8 else 0).
Proof.
  change 14 with (Z.lor (2 ^ 1) (Z.lor (2 ^ 2) (2 ^ 3))).
  rewrite !Z.land_lor_distr_r, !land_pow2 by lia.
  destruct (Z.testbit a 1), (Z.testbit a 2), (Z.testbit a 3); reflexivity.
Qed.

(** X1: [style_list] reads the ITALIC, BOLD and UNDERLINE bits and nothing
    else.  A name is listed exactly when its bit is set, the names come in
    the order italic, bold, underline without repetition, and two masks
    that agree on these three bits give the same list, so the COLOR bit
    and any higher bit never shows. *)
Theorem X1_style_list_reads_three_bits (style : Z) :
  (In "italic" (TextStyle.style_list style) <-> Z.testbit style 1 = true)
  /\ (In "bold" (TextStyle.style_list style) <-> Z.testbit style 2 = true)
  /\ (In "underline" (TextStyle.style_list style) <-> Z.testbit style 3 = true)
  /\ (forall name, In name (TextStyle.style_list style) -> recognized name = true)
  /\ (exists l1 l2 l3,
        TextStyle.style_list style = (l1 ++ l2 ++ l3)%list
        /\ (l1 = [] \/ l1 = ["italic"]) /\ (l2 = [] \/ l2 = ["bold"])
        /\ (l3 = [] \/ l3 = ["underline"]))
  /\ (forall style', Z.land style' 14 = Z.land style 14 ->
        TextStyle.style_list style' = TextStyle.style_list style)
  /\ TextStyle.style_list (Z.lor style TextStyle.COLOR) = TextStyle.style_list style.
Proof.
  rewrite !style_list_bits.
  split; [|split; [|split; [|split; [|split; [|split]]]]].
  - destruct (Z.testbit style 1), (Z.testbit style 2), (Z.testbit style 3);
      simpl; split; intros H; try reflexivity; try discriminate;
      intuition discriminate.
  - destruct (Z.testbit style 1), (Z.testbit style 2), (Z.testbit style 3);
      simpl; split; intros H; try reflexivity; try discriminate;
      intuition discriminate.
  - destruct (Z.testbit style 1), (Z.testbit style 2), (Z.testbit style 3);
      simpl; split; intros H; try reflexivity; try discriminate;
      intuition discriminate.
  - intros name.
    destruct (Z.testbit style 1), (Z.testbit style 2), (Z.testbit style 3);
      simpl; intros H;
      repeat (destruct H as [<-|H]; [reflexivity|]); contradiction.
  - do 3 eexists. split; [reflexivity|].
    destruct (Z.testbit style 1), (Z.testbit style 2), (Z.testbit style 3); auto.
  - intros style' H. rewrite !land_14 in H. rewrite style_list_bits.
    destruct (Z.testbit style 1), (Z.testbit style 2), (Z.testbit style 3),
      (Z.testbit style' 1), (Z.testbit style' 2), (Z.testbit style' 3);
      try reflexivity; exfalso; lia.
  - unfold TextStyle.COLOR. rewrite !Z.lor_spec.
    replace (Z.testbit 1 1) with false by reflexivity.
    replace (Z.testbit 1 2) with false by reflexivity.
    replace (Z.testbit 1 3) with false by reflexivity.
    now rewrite !orb_false_r.
Qed.

(** X2: encoding a style mask and decoding the names gives the mask back
    with only its ITALIC, BOLD and UNDERLINE bits: it is the identity on
    masks built from these three, and it drops the COLOR bit, which the
    color field carries.  An absent mask decodes to NORMAL. *)
Theorem X2_style_field_roundtrip (style : Z) :
  TextStyleField._deserialize (TextStyleField._serialize (Some style))
  = Returned (Z.land style 14)
  /\ TextStyleField._deserialize (TextStyleField._serialize None)
     = Returned TextStyle.NORMAL.
Proof.
  split; [|reflexivity].
  unfold TextStyleField._serialize. rewrite TextStyleField_deserialize_strs.
  rewrite style_list_bits, land_14.
  destruct (Z.testbit style 1), (Z.testbit style 2), (Z.testbit style 3);
    reflexivity.
Qed.

(** X3: decoding a list of names and encoding the result puts the list in
    canonical form: the recognized names that occur in it, once each, in
    the order italic, bold, underline. *)
Theorem X3_style_names_canonical_form (names : list string) :
  exists style,
    TextStyleField._deserialize (VList (map VStr names)) = Returned style
    /\ TextStyleField._serialize (Some style)
       = VList (map VStr
                  ((if existsb (String.eqb "italic") names then ["italic"] else [])
                   ++ (if existsb (String.eqb "bold") names then ["bold"] else [])
                   ++ (if existsb (String.eqb "underline") names
                       then ["underline"] else []))%list).
Proof.
  eexists. split; [apply TextStyleField_deserialize_strs|].
  assert (Hin : forall name,
             py_str_in name (map VStr names) = existsb (String.eqb name) names).
  { intros name. unfold py_str_in. induction names as [|n names IH]; simpl;
      [reflexivity|]. now rewrite IH, (String.eqb_sym n name). }
  rewrite !Hin. unfold TextStyleField._serialize.
  destruct (existsb (String.eqb "italic") names),
    (existsb (String.eqb "bold") names),
    (existsb (String.eqb "underline") names); reflexivity.
Qed.

(** ** Colors and styles *)

(** X4: the color codec gives back every color that carries a
    background and has an int for its foreground, and the absent color:
    encode followed by decode is the identity on them.  (A foreground
    [True] comes back as the int [1].) *)
Theorem X4_color_field_roundtrip (c : option Color) :
  has_bg c -> int_fg c ->
  ColorField._deserialize (ColorField._serialize c) = Returned c.
Proof.
  destruct c as [[f [b|]]|]; simpl; intros H Hfg; try reflexivity.
  - destruct Hfg as [n Hn]. simpl in Hn. now subst f.
  - now contradiction H.
Qed.

Lemma X4_witness :
  ColorField._deserialize
    (ColorField._serialize (Some (Color.__init__ 5 (Some 6))))
  = Returned (Some (Color.__init__ 5 (Some 6))).
Proof.
  apply (X4_color_field_roundtrip (Some (Color.__init__ 5 (Some 6)))).
  - simpl. discriminate.
  - simpl. eexists; reflexivity.
Defined.

Lemma testbit_flag_mask (x m k n : Z) :
  0 <= k -> m = 2 ^ k ->
  Z.testbit (if TextStyle.flag x then m else 0) n = TextStyle.flag x && (n =? k).
Proof.
  intros Hk ->. rewrite (Z.eqb_sym n k). destruct (TextStyle.flag x); simpl.
  - now apply Z.pow2_bits_eqb.
  - apply Z.bits_0.
Qed.

(** X5: the constructor only ever sets bits.  Bit 0 (COLOR) of the result
    is set when a color is given or the [style] argument has it; bits 1,
    2 and 3 are set when the [italic], [bold] or [underline] flag is
    truthy or the [style] argument has them; every other bit is that of
    the [style] argument.  The color attribute is the color given. *)
Theorem X5_constructor_sets_bits
  (c : option Color) (italic bold underline style0 n : Z) :
  Z.testbit (style (TextStyle.__init__ c italic bold underline style0)) n
  = Z.testbit style0 n
    || (match c with Some _ => true | None => false end && (n =? 0))
    || (TextStyle.flag italic && (n =? 1))
    || (TextStyle.flag bold && (n =? 2))
    || (TextStyle.flag underline && (n =? 3))
  /\ color (TextStyle.__init__ c italic bold underline style0) = c.
Proof.
  unfold TextStyle.__init__, TextStyle.COLOR, TextStyle.ITALIC, TextStyle.BOLD,
    TextStyle.UNDERLINE.
  destruct c as [c|]; cbn [style color]; (split; [|reflexivity]);
    rewrite !Z.lor_spec;
    rewrite (testbit_flag_mask italic 2 1 n) by (lia || reflexivity);
    rewrite (testbit_flag_mask bold 4 2 n) by (lia || reflexivity);
    rewrite (testbit_flag_mask underline 8 3 n) by (lia || reflexivity).
  - replace (Z.testbit 1 n) with (n =? 0); [reflexivity|].
    change 1 with (2 ^ 0). rewrite Z.pow2_bits_eqb by lia. apply Z.eqb_sym.
  - now rewrite orb_false_r.
Qed.

(** X6: called with a [style] argument that has only ITALIC, BOLD or
    UNDERLINE bits, the constructor returns a style that satisfies the
    invariant of the data model, whatever the color and the flags. *)
Theorem X6_constructor_valid
  (c : option Color) (italic bold underline style0 : Z) :
  0 <= style0 < 16 -> Z.testbit style0 0 = false ->
  valid_TextStyle (TextStyle.__init__ c italic bold underline style0).
Proof.
  intros Hr Hb.
  assert (Hs : In style0 [0;1;2;3;4;5;6;7;8;9;10;11;12;13;14;15]) by (simpl; lia).
  unfold valid_TextStyle, TextStyle.__init__, TextStyle.COLOR, TextStyle.ITALIC,
    TextStyle.BOLD, TextStyle.UNDERLINE.
  simpl in Hs.
  destruct c as [c|], (TextStyle.flag italic), (TextStyle.flag bold),
    (TextStyle.flag underline);
    repeat (destruct Hs as [<-|Hs];
            [first [ now (vm_compute in Hb)
                   | simpl; split; [lia | split; congruence] ]|]);
    contradiction.
Qed.

Lemma X6_witness :
  valid_TextStyle (TextStyle.__init__ (Some (Color.__init__ 5 (Some 6))) 1 0 0 4).
Proof.
  apply (X6_constructor_valid (Some (Color.__init__ 5 (Some 6))) 1 0 0 4);
    [lia | reflexivity].
Defined.

(** X7: [__repr__] fails exactly on the values that have the COLOR bit
    without a color attribute, and then with [AttributeError]; on every
    other value, and so on every value that satisfies the invariant, it
    returns a string, which is ["<normal>"] exactly when none of the four
    style bits is set. *)
Theorem X7_repr_fails_iff_color_bit_without_color (self : TextStyle) :
  (forall e, TextStyle.__repr__ self = Raised e <->
             (Z.testbit (style self) 0 = true /\ color self = None
              /\ e = AttributeError))
  /\ (valid_TextStyle self -> exists text, TextStyle.__repr__ self = Returned text)
  /\ (TextStyle.__repr__ self = Returned "<normal>" <-> Z.land (style self) 15 = 0).
Proof.
  destruct self as [st c]. unfold valid_TextStyle; cbn [style color].
  assert (H15 : Z.land st 15
                = (if Z.testbit st 0 then 1 else 0) + Z.land st 14).
  { change 15 with (Z.lor (2 ^ 0) 14). rewrite Z.land_lor_distr_r.
    rewrite land_pow2 by lia. rewrite land_14.
    destruct (Z.testbit st 0), (Z.testbit st 1), (Z.testbit st 2),
      (Z.testbit st 3); reflexivity. }
  rewrite H15, land_14. clear H15.
  unfold TextStyle.__repr__, TextStyle.getattr_color; cbn [style color].
  rewrite flag_color_bit, style_list_bits.
  generalize (Z.testbit st 0) (Z.testbit st 1) (Z.testbit st 2) (Z.testbit st 3).
  intros b0 b1 b2 b3.
  split; [|split].
  - intros e.
    destruct b0, c as [c|], b1, b2, b3; simpl; split;
      try discriminate; try (intros (H1 & H2 & H3); discriminate);
      try (intros H; injection H as <-; auto);
      try (intros (_ & _ & ->); reflexivity).
  - intros (_ & Hbit).
    destruct b0, c as [c|], b1, b2, b3; simpl; eauto;
      exfalso; (apply (proj1 Hbit); reflexivity).
  - destruct b0, c as [c|], b1, b2, b3; simpl; split; intros H;
      try reflexivity; try discriminate; try lia.
Qed.

(** ** Loading a style *)

Lemma ColorField_deserialize_raises (v : pyval) (e : exn) :
  ColorField._deserialize v = Raised e -> e = color_error.
Proof.
  unfold ColorField._deserialize.
  destruct (py_truthy v); simpl; [|discriminate].
  destruct (py_isinstance_int v); [discriminate|].
  destruct (py_iter v) as [items|e'] eqn:Eit; simpl.
  - destruct (unpack2_map_int items) as [[x y]|e''] eqn:Eu; simpl;
      [discriminate | intros H; injection H as <-; reflexivity].
  - intros H; injection H as <-; reflexivity.
Qed.

Lemma unmarshal_color (d : dict) :
  exists c e,
    marshmallow.unmarshal_field "color" (Some VNone)
      TextStyleSchema.color_deserialize d = Returned (c, e).
Proof.
  unfold marshmallow.unmarshal_field.
  destruct (match dict_get d "color" with Some v => Some v | None => Some VNone end)
    as [v|]; [|do 2 eexists; reflexivity].
  unfold TextStyleSchema.color_deserialize, marshmallow.fields.Field_deserialize.
  destruct v; try (do 2 eexists; reflexivity);
    match goal with
    | |- context [ColorField._deserialize ?v] =>
        destruct (ColorField._deserialize v) as [r|e] eqn:E; simpl;
          [do 2 eexists; reflexivity
          |apply ColorField_deserialize_raises in E; subst e;
           do 2 eexists; reflexivity]
    end.
Qed.

Lemma TextStyleField_deserialize_raises (v : pyval) (e : exn) :
  TextStyleField._deserialize v = Raised e -> e = style_error.
Proof.
  unfold TextStyleField._deserialize.
  destruct (py_set v) as [styles|e'] eqn:Es; simpl.
  - destruct (py_str_in "italic" styles), (py_str_in "bold" styles),
      (py_str_in "underline" styles); discriminate.
  - intros H; injection H as <-. reflexivity.
Qed.

Lemma unmarshal_style (d : dict) :
  exists z e,
    marshmallow.unmarshal_field "style" (Some (VList []))
      TextStyleSchema.style_deserialize d = Returned (z, e).
Proof.
  unfold marshmallow.unmarshal_field.
  destruct (match dict_get d "style" with
            | Some v => Some v | None => Some (VList []) end)
    as [v|]; [|do 2 eexists; reflexivity].
  unfold TextStyleSchema.style_deserialize, marshmallow.fields.Field_deserialize.
  destruct v; try (do 2 eexists; reflexivity);
    match goal with
    | |- context [TextStyleField._deserialize ?v] =>
        destruct (TextStyleField._deserialize v) as [r|e] eqn:E;
          cbn [bind fold_left];
          [do 2 eexists; reflexivity
          |apply TextStyleField_deserialize_raises in E; subst e;
           do 2 eexists; reflexivity]
    end.
Qed.

Lemma TextStyle_load_returns (d : dict) :
  exists s, TextStyle_load (VDict d) = Returned s.
Proof.
  unfold TextStyle_load, TextStyleSchema.load.
  destruct (unmarshal_color d) as (c & e1 & ->).
  destruct (unmarshal_style d) as (z & e2 & ->).
  eexists; reflexivity.
Qed.

Lemma TextStyle_load_not_mapping (data : pyval) :
  (forall d, data <> VDict d) -> TextStyle_load data = Raised TypeError.
Proof.
  intros Hd. destruct data; try reflexivity. exfalso. now apply (Hd d).
Qed.

(** X8: [TextStyle.load] returns a style on mappings and on nothing else.
    On every mapping it returns, whatever the entries hold: a color or a
    style list that does not validate is dropped without an error, and the
    style returned satisfies the invariant of the data model.  On every
    other input, [None] included, the schema yields no data and the call
    of the constructor on it raises a [TypeError]. *)
Theorem X8_style_load_returns_on_mappings_only :
  (forall d, exists s,
      TextStyle_load (VDict d) = Returned s /\ valid_TextStyle s)
  /\ (forall data, (forall d, data <> VDict d) ->
                   TextStyle_load data = Raised TypeError)
  /\ TextStyle_load (VStr "abc") = Raised TypeError
  /\ TextStyle_load VNone = Raised TypeError
  /\ TextStyle_load (VDict [("style", VInt 5); ("color", VStr "red")])
     = Returned {| style := TextStyle.NORMAL; color := None |}.
Proof.
  split; [|split; [|repeat split]].
  - intros d. destruct (TextStyle_load_returns d) as (s & Hs).
    exists s. split; [exact Hs | now apply (TextStyle_load_valid (VDict d))].
  - apply TextStyle_load_not_mapping.
Qed.

(** X9: a style that satisfies the invariant and whose color, if any,
    carries a background and has an int for its foreground comes back
    unchanged from [load] of its [dump]. *)
Theorem X9_style_dump_load_roundtrip (s : TextStyle) :
  valid_TextStyle s -> has_bg (color s) -> int_fg (color s) ->
  TextStyle_load (VDict (TextStyle_dump s)) = Returned s.
Proof. apply TextStyle_roundtrip. Qed.

Lemma X9_witness :
  TextStyle_load
    (VDict (TextStyle_dump
              (TextStyle.__init__ (Some (Color.__init__ 5 (Some 6))) 1 0 0 0)))
  = Returned (TextStyle.__init__ (Some (Color.__init__ 5 (Some 6))) 1 0 0 0).
Proof.
  apply (X9_style_dump_load_roundtrip
           (TextStyle.__init__ (Some (Color.__init__ 5 (Some 6))) 1 0 0 0)).
  - unfold valid_TextStyle; simpl. split; [lia | split; congruence].
  - simpl. discriminate.
  - simpl. eexists; reflexivity.
Defined.

(** X10: [TextStyle.load] reads the keys [color] and [style] of a mapping
    and no other: two mappings that agree on these two load alike. *)
Theorem X10_style_load_reads_two_keys (d d' : dict) :
  dict_get d "color" = dict_get d' "color" ->
  dict_get d "style" = dict_get d' "style" ->
  TextStyle_load (VDict d) = TextStyle_load (VDict d').
Proof.
  intros Hc Hs. unfold TextStyle_load, TextStyleSchema.load,
    marshmallow.unmarshal_field.
  now rewrite Hc, Hs.
Qed.

Lemma X10_witness :
  TextStyle_load (VDict [("style", VList [VStr "bold"]); ("blink", VBool true)])
  = TextStyle_load (VDict [("note", VStr "x"); ("style", VList [VStr "bold"])]).
Proof.
  apply (X10_style_load_reads_two_keys
           [("style", VList [VStr "bold"]); ("blink", VBool true)]
           [("note", VStr "x"); ("style", VList [VStr "bold"])]);
    reflexivity.
Defined.

(** ** Rich text *)

Lemma RichTextField_check (runs : RichText) (acc : outcome unit) :
  fold_left
    (fun acc run =>
       _ <- acc ;;
       match py_isinstance_str (snd run) with
       | Some _ => Returned tt
       | None => Raised RuntimeError
       end)
    runs acc
  = match acc with
    | Returned _ => if texts_are_str runs then Returned tt else Raised RuntimeError
    | Raised e => Raised e
    end.
Proof.
  revert acc. induction runs as [|run runs IH]; intros acc; simpl.
  - destruct acc as [[]|]; reflexivity.
  - rewrite IH. destruct acc as [[]|]; simpl; [|reflexivity].
    destruct (py_isinstance_str (snd run)); reflexivity.
Qed.

(** X11: encoding rich text is all or nothing.  When every run carries a
    str, the result is the list of the encoded runs, in order, one per run;
    when one run does not, the whole encoding fails with the field's
    [ValidationError] and nothing is emitted.  Absent rich text encodes to
    [None]. *)
Theorem X11_rich_text_serialize_all_or_nothing (runs : RichText) :
  RichTextField._serialize (Some runs)
  = (if texts_are_str runs
     then Returned (VList (map run_dump runs))
     else Raised (ValidationError RichTextField.message))
  /\ RichTextField._serialize None = Returned VNone
  /\ (texts_are_str runs = true <-> forall run, In run runs -> exists t, snd run = VStr t).
Proof.
  split; [|split; [reflexivity|]].
  - unfold RichTextField._serialize. rewrite RichTextField_check.
    destruct (texts_are_str runs); reflexivity.
  - unfold texts_are_str. rewrite forallb_forall. split.
    + intros H run Hin. specialize (H run Hin).
      destruct (snd run); try discriminate. eauto.
    + intros H run Hin. destruct (H run Hin) as (t & ->). reflexivity.
Qed.

Lemma load_runs_dumped (runs : RichText) :
  Forall valid_run runs ->
  RichTextField.load_runs (map run_dump runs) = Returned runs.
Proof.
  induction 1 as [|[s t] runs (Hs & Hbg & Hfg & t' & Ht) _ IH]; [reflexivity|].
  simpl in Hs, Hbg, Hfg, Ht. subst t.
  change (map run_dump ((s, VStr t') :: runs))
    with (VTuple [VDict (TextStyle_dump s); VStr t'] :: map run_dump runs).
  cbn [RichTextField.load_runs RichTextField.unpack2 py_iter bind].
  rewrite (TextStyle_roundtrip s Hs Hbg Hfg). cbn [bind].
  now rewrite IH.
Qed.

(** X12: rich text whose runs are well formed, with a background and an
    int foreground in every color, comes back unchanged from decoding its
    encoding, the empty sequence included. *)
Theorem X12_rich_text_roundtrip (runs : RichText) :
  Forall valid_run runs ->
  exists encoded,
    RichTextField._serialize (Some runs) = Returned encoded
    /\ RichTextField._deserialize encoded = Returned (Some runs).
Proof.
  intros H. exists (VList (map run_dump runs)). split.
  - now apply RichTextField_serialize_valid.
  - unfold RichTextField._deserialize. cbn [py_iter bind].
    now rewrite (load_runs_dumped runs H).
Qed.

Lemma X12_witness :
  exists encoded,
    RichTextField._serialize
      (Some [(TextStyle.__init__ (Some (Color.__init__ 5 (Some 6))) 1 0 0 0,
              VStr "test");
             (TextStyle.__init__ None 0 1 0 0, VStr "")])
    = Returned encoded
    /\ RichTextField._deserialize encoded
       = Returned
           (Some [(TextStyle.__init__ (Some (Color.__init__ 5 (Some 6))) 1 0 0 0,
                   VStr "test");
                  (TextStyle.__init__ None 0 1 0 0, VStr "")]).
Proof.
  apply (X12_rich_text_roundtrip
           [(TextStyle.__init__ (Some (Color.__init__ 5 (Some 6))) 1 0 0 0,
             VStr "test");
            (TextStyle.__init__ None 0 1 0 0, VStr "")]).
  apply Forall_cons; [|apply Forall_cons; [|apply Forall_nil]];
    unfold valid_run, valid_TextStyle, TextStyle.__init__, TextStyle.flag,
      TextStyle.COLOR, TextStyle.ITALIC, TextStyle.BOLD, TextStyle.UNDERLINE;
    simpl.
  - split; [split; [lia | split; congruence]|].
    split; [congruence|]. split; eexists; reflexivity.
  - split; [split; [lia | split; congruence]|].
    split; [exact I|]. split; [exact I | eexists; reflexivity].
Defined.

Lemma load_runs_sound (entries : list pyval) (runs : RichText) :
  RichTextField.load_runs entries = Returned runs ->
  Forall2 (fun entry run =>
             exists s, RichTextField.unpack2 entry = Returned (s, snd run)
                       /\ TextStyle_load s = Returned (fst run))
          entries runs.
Proof.
  revert runs. induction entries as [|entry entries IH]; intros runs; simpl.
  - intros H; injection H as <-. constructor.
  - intros H. apply bind_returned in H. destruct H as ([s t] & Hu & H).
    apply bind_returned in H. destruct H as (ts & Hl & H).
    apply bind_returned in H. destruct H as (rest & Hr & H).
    injection H as <-. constructor; [|now apply IH].
    exists s. simpl. auto.
Qed.

Lemma load_runs_complete (entries : list pyval) :
  Forall (fun entry => exists d t,
            RichTextField.unpack2 entry = Returned (VDict d, t)) entries ->
  exists runs, RichTextField.load_runs entries = Returned runs.
Proof.
  induction 1 as [|entry entries (d & t & Hu) _ (runs & IH)]; simpl.
  - eexists; reflexivity.
  - rewrite Hu; simpl.
    destruct (TextStyle_load_returns d) as (s & ->); simpl.
    rewrite IH; simpl. eexists; reflexivity.
Qed.

(** X13: what decoding rich text guarantees.  A result has one run per
    entry of the input, in order; every entry was a pair whose first item
    is a mapping that loads to the run's style and whose second item is
    the run's text, untouched; every style satisfies the invariant of the
    data model.  Conversely an iterable of such pairs is decoded.  A
    failure is always the field's [ValidationError], for the whole input;
    an entry that is a str of two characters, or a pair whose first item
    is a str, is such a failure. *)
Theorem X13_rich_text_deserialize_sound (value : pyval) :
  (forall runs,
     RichTextField._deserialize value = Returned (Some runs) ->
     exists entries,
       py_iter value = Returned entries
       /\ List.length runs = List.length entries
       /\ Forall2 (fun entry run =>
                     exists d,
                       RichTextField.unpack2 entry = Returned (VDict d, snd run)
                       /\ TextStyle_load (VDict d) = Returned (fst run))
                  entries runs
       /\ Forall (fun run => valid_TextStyle (fst run)) runs)
  /\ (forall entries,
        value <> VNone ->
        py_iter value = Returned entries ->
        Forall (fun entry => exists d t,
                  RichTextField.unpack2 entry = Returned (VDict d, t)) entries ->
        exists runs, RichTextField._deserialize value = Returned (Some runs))
  /\ (forall e, RichTextField._deserialize value = Raised e ->
                e = ValidationError RichTextField.message)
  /\ (RichTextField._deserialize value = Returned None <-> value = VNone)
  /\ RichTextField._deserialize (VList [VStr "ab"])
     = Raised (ValidationError RichTextField.message)
  /\ RichTextField._deserialize (VList [VList [VStr "bold"; VStr "hi"]])
     = Raised (ValidationError RichTextField.message)
  /\ RichTextField._deserialize (VList [VList [VNone; VStr "hi"]])
     = Raised (ValidationError RichTextField.message)
  /\ RichTextField._deserialize
       (VList [VList [VDict [("style", VList [VStr "bold"])]; VStr "hi"]])
     = Returned (Some [({| style := TextStyle.BOLD; color := None |},
                         VStr "hi")]).
Proof.
  split; [|split; [|split; [|split; [|repeat split]]]].
  - intros runs H.
    assert (Hb : (entries <- py_iter value ;;
                  runs <- RichTextField.load_runs entries ;;
                  Returned (Some runs)) = Returned (Some runs)).
    { unfold RichTextField._deserialize in H.
      destruct value; try discriminate;
        match type of H with
        | try_except ?b _ = _ => destruct b; simpl in H; [exact H | discriminate]
        end. }
    apply bind_returned in Hb. destruct Hb as (entries & Hit & Hb).
    apply bind_returned in Hb. destruct Hb as (runs' & Hl & Hb).
    injection Hb as ->. exists entries.
    pose proof (load_runs_sound entries runs Hl) as HF.
    split; [exact Hit|]. split; [symmetry; eapply Forall2_length; exact HF|].
    clear Hl Hit H.
    induction HF as [|entry run entries runs (s & Hu & Hs) _ [IH1 IH2]];
      split; constructor; try assumption.
    + destruct s as [| | | | | | |d];
        try (rewrite TextStyle_load_not_mapping in Hs by discriminate;
             discriminate).
      exists d. split; assumption.
    + now apply (TextStyle_load_valid s).
  - intros entries Hn Hit Hall.
    destruct (load_runs_complete entries Hall) as (runs & Hl).
    exists runs. unfold RichTextField._deserialize.
    destruct value; try (now exfalso); rewrite Hit; simpl; rewrite Hl; reflexivity.
  - apply RichTextField_deserialize_raises.
  - split.
    + unfold RichTextField._deserialize.
      destruct value; try reflexivity;
        match goal with
        | |- try_except ?b _ = _ -> _ =>
            let E := fresh in
            destruct b as [[r|]|] eqn:E; simpl; try discriminate;
            apply bind_returned in E; destruct E as (? & _ & E);
            apply bind_returned in E; destruct E as (? & _ & E); discriminate
        end.
    + intros ->. reflexivity.
Qed.

(** ** Messages *)

Lemma RichTextField_serialize_cases (runs : RichText) :
  RichTextField._serialize (Some runs)
  = (if texts_are_str runs
     then Returned (VList (map run_dump runs))
     else Raised (ValidationError RichTextField.message)).
Proof.
  unfold RichTextField._serialize. rewrite RichTextField_check.
  destruct (texts_are_str runs); reflexivity.
Qed.

(** X14: the document the schema dumps a message to, whatever the order
    of its keys.  The keys are distinct and are those of the schema,
    except that [rich_text] is left out when a run holds a text that is
    not a str; that is the one error a dump records.  Every key holds the
    attribute of its name: a str as it is, an unset attribute as None,
    the flag as a bool, the options as a dict, and the rich text as the
    list of its dumped runs. *)
Theorem X14_message_dump_document (m : Message) :
  exists r,
    MessageSchema.dump m = Returned r
    /\ NoDup (map fst (marshmallow.data r))
    /\ (forall k, In k (map fst (marshmallow.data r))
                  <-> In k schema_keys
                      /\ (k = "rich_text" -> rich_text_ok m = true))
    /\ (forall k msg, In (k, msg) (marshmallow.errs r)
                      <-> k = "rich_text" /\ msg = RichTextField.message
                          /\ rich_text_ok m = false)
    /\ dict_get (marshmallow.data r) "channel" = Some (VStr (channel m))
    /\ dict_get (marshmallow.data r) "sender" = Some (VStr (sender m))
    /\ dict_get (marshmallow.data r) "receiver" = Some (VStr (receiver m))
    /\ dict_get (marshmallow.data r) "content" = Some (VStr (content m))
    /\ dict_get (marshmallow.data r) "mtype" = Some (VStr (mtype m))
    /\ dict_get (marshmallow.data r) "media_url"
       = Some (marshmallow.fields.String._serialize (media_url m))
    /\ dict_get (marshmallow.data r) "date"
       = Some (marshmallow.fields.String._serialize (date m))
    /\ dict_get (marshmallow.data r) "time"
       = Some (marshmallow.fields.String._serialize (time m))
    /\ dict_get (marshmallow.data r) "room"
       = Some (marshmallow.fields.String._serialize (room m))
    /\ dict_get (marshmallow.data r) "botmsg" = Some (VBool (botmsg m))
    /\ dict_get (marshmallow.data r) "opt" = Some (VDict (opt m))
    /\ dict_get (marshmallow.data r) "rich_text"
       = match rich_text m with
         | None => Some VNone
         | Some runs => if texts_are_str runs
                        then Some (VList (map run_dump runs))
                        else None
         end.
Proof.
  assert (Hnodup : forall l : list string,
            nodup_keys l = true -> NoDup l).
  { induction l as [|k l IH]; simpl; [constructor|].
    intros H. apply andb_prop in H. destruct H as [Hk Hl].
    constructor; [|now apply IH].
    intros Hin. apply negb_true_iff in Hk.
    assert (existsb (String.eqb k) l = true); [|congruence].
    apply existsb_exists. exists k. split; [exact Hin | apply String.eqb_refl]. }
  unfold MessageSchema.dump, rich_text_ok.
  assert (Hsome : forall runs, rich_text m = Some runs ->
            RichTextField._serialize (rich_text m)
            = (if texts_are_str runs
               then Returned (VList (map run_dump runs))
               else Raised (ValidationError RichTextField.message))).
  { intros runs ->. apply RichTextField_serialize_cases. }
  destruct (rich_text m) as [runs|];
    [rewrite (Hsome runs eq_refl); destruct (texts_are_str runs)|];
    eexists;
    (split; [reflexivity|]);
    (split; [apply Hnodup; reflexivity|]);
    (split; [intros k; cbn|]);
    try (split; [|repeat split; reflexivity]; intros k msg; cbn).
  - tauto.
  - split; [tauto | intros (_ & _ & H); discriminate].
  - split.
    + intros H. split; [tauto|].
      intros ->. repeat (destruct H as [H|H]; [discriminate|]). destruct H.
    + intros [H Hrt].
      assert (Hk : k <> "rich_text") by (intros E; now specialize (Hrt E)).
      repeat (destruct H as [H|H]; [try tauto; now symmetry in H|]).
      destruct H.
  - split.
    + intros [H|[]]. injection H as <- <-. repeat split.
    + intros (-> & -> & _). now left.
  - tauto.
  - split; [tauto | intros (_ & _ & H); discriminate].
Qed.

Lemma unmarshal_mtype_at (d : dict) :
  exists e,
    marshmallow.unmarshal_field "mtype" None MessageSchema.mtype_deserialize d
    = Returned (mtype_at d, e).
Proof.
  unfold marshmallow.unmarshal_field, mtype_at, str_at.
  destruct (dict_get d "mtype") as [v|]; [|eexists; reflexivity].
  destruct v as [| | | |s| | |]; try (eexists; reflexivity).
  unfold MessageSchema.mtype_deserialize, marshmallow.fields.Field_deserialize,
    marshmallow.validate.OneOf.
  cbn [fold_left bind marshmallow.fields.String._deserialize py_isinstance_str].
  destruct (existsb (String.eqb s) MessageSchema.mtype_choices);
    eexists; reflexivity.
Qed.

Lemma unmarshal_rich_text_at (d : dict) :
  exists x e,
    marshmallow.unmarshal_field "rich_text" None
      MessageSchema.rich_text_deserialize d = Returned (x, e)
    /\ match x with Some r => r | None => None end = rich_text_at d.
Proof.
  unfold marshmallow.unmarshal_field, rich_text_at.
  destruct (dict_get d "rich_text") as [v|]; [|do 2 eexists; split; reflexivity].
  unfold MessageSchema.rich_text_deserialize, marshmallow.fields.Field_deserialize.
  destruct v; try (do 2 eexists; split; reflexivity);
    match goal with
    | |- context [RichTextField._deserialize ?v] =>
        destruct (RichTextField._deserialize v) as [r|e] eqn:E; cbn [bind fold_left];
          [do 2 eexists; split; reflexivity
          |apply RichTextField_deserialize_raises in E; subst e;
           do 2 eexists; split; reflexivity]
    end.
Qed.

Lemma unmarshal_botmsg_at (d : dict) :
  exists x e,
    marshmallow.unmarshal_field "botmsg" None
      MessageSchema.botmsg_deserialize d = Returned (x, e)
    /\ match x with Some b => b | None => false end = botmsg_at d.
Proof.
  unfold marshmallow.unmarshal_field, botmsg_at.
  destruct (dict_get d "botmsg") as [v|]; [|do 2 eexists; split; reflexivity].
  unfold MessageSchema.botmsg_deserialize, marshmallow.fields.Field_deserialize.
  destruct v; try (do 2 eexists; split; reflexivity);
    match goal with
    | |- context [marshmallow.fields.Boolean._deserialize ?v] =>
        destruct (marshmallow.fields.Boolean._deserialize v) as [r|e] eqn:E;
          cbn [bind fold_left];
          [do 2 eexists; split; reflexivity
          |apply Boolean_deserialize_raises in E; subst e;
           do 2 eexists; split; reflexivity]
    end.
Qed.

Lemma unmarshal_opt_at (d : dict) :
  exists x e,
    marshmallow.unmarshal_field "opt" None
      MessageSchema.opt_deserialize d = Returned (x, e)
    /\ match x with
       | Some o => if py_truthy (VDict o) then o else []
       | None => []
       end = opt_at d.
Proof.
  unfold marshmallow.unmarshal_field, opt_at.
  destruct (dict_get d "opt") as [v|]; [|do 2 eexists; split; reflexivity].
  destruct v as [| | | | | | |o]; try (do 2 eexists; split; reflexivity).
  do 2 eexists. split; [reflexivity|]. apply opt_or_empty.
Qed.

(** The keyword arguments a JSON object loads to, field by field. *)
Lemma MessageSchema_load_fields (d : dict) :
  exists kw e,
    MessageSchema.load (VDict d)
    = Returned {| marshmallow.data := Some kw; marshmallow.errs := e |}
    /\ MessageSchema.kw_channel kw = str_at d "channel"
    /\ MessageSchema.kw_sender kw = str_at d "sender"
    /\ MessageSchema.kw_receiver kw = str_at d "receiver"
    /\ MessageSchema.kw_content kw = str_at d "content"
    /\ MessageSchema.kw_mtype kw = mtype_at d
    /\ MessageSchema.kw_media_url kw = str_at d "media_url"
    /\ MessageSchema.kw_date kw = str_at d "date"
    /\ MessageSchema.kw_time kw = str_at d "time"
    /\ MessageSchema.kw_room kw = str_at d "room"
    /\ match MessageSchema.kw_rich_text kw with Some r => r | None => None end
       = rich_text_at d
    /\ match MessageSchema.kw_botmsg kw with Some b => b | None => false end
       = botmsg_at d
    /\ match MessageSchema.kw_opt kw with
       | Some o => if py_truthy (VDict o) then o else []
       | None => []
       end = opt_at d.
Proof.
  unfold MessageSchema.load.
  destruct (unmarshal_string "channel" d) as (e1 & ->).
  destruct (unmarshal_string "sender" d) as (e2 & ->).
  destruct (unmarshal_string "receiver" d) as (e3 & ->).
  destruct (unmarshal_mtype_at d) as (e4 & ->).
  destruct (unmarshal_string "media_url" d) as (e5 & ->).
  destruct (unmarshal_string "content" d) as (e6 & ->).
  destruct (unmarshal_rich_text_at d) as (rt & e7 & -> & Hrt).
  destruct (unmarshal_string "date" d) as (e8 & ->).
  destruct (unmarshal_string "time" d) as (e9 & ->).
  destruct (unmarshal_botmsg_at d) as (bm & e10 & -> & Hbm).
  destruct (unmarshal_string "room" d) as (e11 & ->).
  destruct (unmarshal_opt_at d) as (o & e12 & -> & Ho).
  cbn [bind]. do 2 eexists. split; [reflexivity|].
  cbn [MessageSchema.kw_channel MessageSchema.kw_sender MessageSchema.kw_receiver
       MessageSchema.kw_content MessageSchema.kw_mtype MessageSchema.kw_date
       MessageSchema.kw_time MessageSchema.kw_media_url MessageSchema.kw_botmsg
       MessageSchema.kw_room MessageSchema.kw_opt MessageSchema.kw_rich_text].
  repeat split; assumption.
Qed.

(** What [loads] returns on a JSON object, in full. *)
Lemma loads_object (jstr : string) (d : dict) :
  json.loads jstr = Returned (VDict d) ->
  Message.loads (Str jstr)
  = Returned match str_at d "channel", str_at d "sender",
                   str_at d "receiver", str_at d "content" with
             | Some c, Some s, Some rc, Some t => loaded_message d c s rc t
             | _, _, _, _ => Message.sentinel
             end.
Proof.
  intros Hj.
  destruct (loads_dict jstr d Hj) as (kw & e & _ & Hload & ->).
  destruct (MessageSchema_load_fields d)
    as (kw' & e' & Hload' & Hc' & Hs' & Hr' & Ht' & Hm & Hu & Hd & Hti & Hro
        & Hrt & Hb & Ho).
  rewrite Hload in Hload'. injection Hload' as <- <-.
  unfold Message.of_kwargs, Message.__init__, loaded_message.
  rewrite Hc', Hs', Hr', Ht', Hm, Hu, Hd, Hti, Hro, Hrt, Hb, Ho.
  now destruct (str_at d "channel"), (str_at d "sender"),
    (str_at d "receiver"), (str_at d "content").
Qed.

Lemma mtype_at_enumerated (d : dict) (k : string) :
  mtype_at d = Some k -> In k MessageSchema.mtype_choices.
Proof.
  unfold mtype_at. destruct (str_at d "mtype") as [s|]; [|discriminate].
  destruct (existsb (String.eqb s) MessageSchema.mtype_choices) eqn:E;
    [|discriminate].
  intros H; injection H as <-.
  apply existsb_exists in E. destruct E as (x & Hin & Hx).
  apply String.eqb_eq in Hx. now subst x.
Qed.

(** C1 (counterexample): a validation failure that does not lead to the
    sentinel.  The wire text has a [botmsg] that is no boolean; the load
    records the error, and [loads] returns the message built from the
    other fields. *)
Lemma C1_counterexample :
  json.loads wire_bad_botmsg
  = Returned (VDict [("channel", VStr "irc"); ("sender", VStr "alice");
                     ("receiver", VStr "#fishroom"); ("content", VStr "hello");
                     ("botmsg", VStr "maybe")])
  /\ failure_occurs wire_bad_botmsg
  /\ Message.loads (Str wire_bad_botmsg)
     = Returned (Message.__init__ "irc" "alice" "#fishroom" "hello"
                   MessageType.Text None None None false None None None)
  /\ Message.loads (Str wire_bad_botmsg) <> Returned Message.sentinel.
Proof.
  split; [vm_compute; reflexivity|]. split; [|split].
  - unfold failure_occurs.
    replace (MessageSchema.loads wire_bad_botmsg) with
      (Returned {| marshmallow.data :=
                     Some {| MessageSchema.kw_channel := Some "irc";
                             MessageSchema.kw_sender := Some "alice";
                             MessageSchema.kw_receiver := Some "#fishroom";
                             MessageSchema.kw_mtype := None;
                             MessageSchema.kw_media_url := None;
                             MessageSchema.kw_content := Some "hello";
                             MessageSchema.kw_rich_text := None;
                             MessageSchema.kw_date := None;
                             MessageSchema.kw_time := None;
                             MessageSchema.kw_botmsg := None;
                             MessageSchema.kw_room := None;
                             MessageSchema.kw_opt := None |};
                   marshmallow.errs := [("botmsg", "Not a valid boolean.")] |})
      by (vm_compute; reflexivity).
    simpl. discriminate.
  - vm_compute. reflexivity.
  - vm_compute. discriminate.
Qed.

(** C1 (amended): [loads] is total on a str, and it returns the sentinel
    whenever the body of its [try] block raises: when the text is not JSON
    (as for "not json"), when the document is not an object, and when
    [channel], [sender], [receiver] or [content] is missing or not a str.
    A key the schema does not know is ignored, whatever it holds.
    Otherwise it returns the message built from the document field by
    field ([loaded_message]): the four mandatory strs as they are, and
    every other field read off its key, or the default of the constructor
    when the key is missing or its value does not validate (that failure
    is recorded by the schema and raises nothing).  The [mtype] of any
    returned message is an enumerated one. *)
Theorem C1_loads_total_on_str (jstr : string) :
  (exists m, Message.loads (Str jstr) = Returned m
             /\ In (mtype m) MessageSchema.mtype_choices)
  /\ (forall e, Message.loads_body jstr = Raised e ->
        Message.loads (Str jstr) = Returned Message.sentinel)
  /\ (forall e, json.loads jstr = Raised e ->
        Message.loads (Str jstr) = Returned Message.sentinel)
  /\ (forall data, json.loads jstr = Returned data ->
        (forall d, data <> VDict d) ->
        Message.loads (Str jstr) = Returned Message.sentinel)
  /\ (forall d, json.loads jstr = Returned (VDict d) ->
        str_at d "channel" = None \/ str_at d "sender" = None
        \/ str_at d "receiver" = None \/ str_at d "content" = None ->
        Message.loads (Str jstr) = Returned Message.sentinel)
  /\ (forall d c s r t, json.loads jstr = Returned (VDict d) ->
        str_at d "channel" = Some c -> str_at d "sender" = Some s ->
        str_at d "receiver" = Some r -> str_at d "content" = Some t ->
        Message.loads (Str jstr) = Returned (loaded_message d c s r t))
  /\ Message.loads (Str "not json") = Returned Message.sentinel
  /\ Message.loads (Str wire_float_extra)
     = Returned (Message.__init__ "irc" "alice" "#fishroom" "hello"
                   MessageType.Text None None None false None None None)
  /\ Message.sentinel
     = {| channel := "fishroom"; sender := "fishroom"; receiver := "None";
          content := "Error"; rich_text := None; mtype := "text";
          date := None; time := None; media_url := None; botmsg := false;
          room := None; opt := [] |}.
Proof.
  assert (Hfail : forall e, Message.loads_body jstr = Raised e ->
                    Message.loads (Str jstr) = Returned Message.sentinel).
  { intros e H. unfold Message.loads; simpl. now rewrite H. }
  assert (Hjson : forall e, json.loads jstr = Raised e ->
                    Message.loads (Str jstr) = Returned Message.sentinel).
  { intros e H. unfold Message.loads, Message.loads_body, MessageSchema.loads; simpl.
    now rewrite H. }
  assert (Hshape : forall data, json.loads jstr = Returned data ->
                     (forall d, data <> VDict d) ->
                     Message.loads (Str jstr) = Returned Message.sentinel).
  { intros data Hj Hnd.
    unfold Message.loads, Message.loads_body, MessageSchema.loads; simpl.
    rewrite Hj; simpl.
    destruct data; try reflexivity. exfalso. eapply Hnd; reflexivity. }
  split; [|split; [|split; [|split; [|split; [|split; [|split; [|split]]]]]]].
  - destruct (json.loads jstr) as [data|e] eqn:Hj.
    + assert (Hcases : (exists d, data = VDict d) \/ (forall d, data <> VDict d)).
      { destruct data; try (right; intros d'; discriminate). left; eauto. }
      destruct Hcases as [(d & ->)|Hn].
      * rewrite (loads_object jstr d Hj). eexists. split; [reflexivity|].
        destruct (str_at d "channel"), (str_at d "sender"),
          (str_at d "receiver"), (str_at d "content");
          try (simpl; tauto).
        cbn [loaded_message mtype].
        destruct (mtype_at d) as [k|] eqn:Ek;
          [now apply (mtype_at_enumerated d) | simpl; tauto].
      * exists Message.sentinel. split; [now apply (Hshape data) | simpl; tauto].
    + exists Message.sentinel. split; [now apply (Hjson e) | simpl; tauto].
  - exact Hfail.
  - exact Hjson.
  - exact Hshape.
  - intros d Hj Hmiss. rewrite (loads_object jstr d Hj).
    destruct Hmiss as [ -> | [ -> | [ -> | -> ]]];
      repeat match goal with
             | |- context [match str_at ?d ?k with _ => _ end] =>
                 destruct (str_at d k)
             end; reflexivity.
  - intros d c s r t Hj Hc Hs Hr Ht. rewrite (loads_object jstr d Hj).
    now rewrite Hc, Hs, Hr, Ht.
  - vm_compute. reflexivity.
  - vm_compute. reflexivity.
  - reflexivity.
Qed.

(** C3 (counterexample): wire text with [mtype] "bogus" and the four
    mandatory fields.  The result is not the sentinel: it is the message
    of the other fields, with the default [mtype]. *)
Lemma C3_counterexample :
  json.loads wire_bogus_mtype
  = Returned (VDict [("channel", VStr "irc"); ("sender", VStr "alice");
                     ("receiver", VStr "#fishroom"); ("content", VStr "hello");
                     ("mtype", VStr "bogus")])
  /\ outside_mtypes (VStr "bogus") = true
  /\ Message.loads (Str wire_bogus_mtype)
     = Returned (Message.__init__ "irc" "alice" "#fishroom" "hello"
                   MessageType.Text None None None false None None None)
  /\ Message.loads (Str wire_bogus_mtype) <> Returned Message.sentinel.
Proof.
  repeat split; vm_compute; try reflexivity; discriminate.
Qed.

(** C3 (amended): an [mtype] outside the enumeration is never carried
    into the result.  The schema records the error under [mtype] and drops
    the key, so the returned message has the default [mtype], text: it is
    the sentinel when [channel], [sender], [receiver] or [content] is
    missing or not a str, and otherwise the message built from the
    remaining fields of the document, field by field
    ([loaded_message]). *)
Theorem C3_mtype_outside_enumeration_is_dropped
  (jstr : string) (d : dict) (v : pyval) :
  json.loads jstr = Returned (VDict d) ->
  dict_get d "mtype" = Some v ->
  outside_mtypes v = true ->
  exists m r,
    Message.loads (Str jstr) = Returned m
    /\ mtype m = MessageType.Text
    /\ MessageSchema.loads jstr = Returned r
    /\ In "mtype" (map fst (marshmallow.errs r))
    /\ mtype_at d = None
    /\ m = match str_at d "channel", str_at d "sender",
                 str_at d "receiver", str_at d "content" with
           | Some c, Some s, Some rc, Some t => loaded_message d c s rc t
           | _, _, _, _ => Message.sentinel
           end.
Proof.
  intros Hj Hv Hout.
  destruct (loads_dict jstr d Hj) as (kw & e & Hloads & Hload & _).
  destruct (MessageSchema_load_dict d)
    as (kw' & e' & Hload' & _ & _ & _ & _ & _ & Hdrop).
  rewrite Hload in Hload'. injection Hload' as <- <-.
  destruct (Hdrop v Hv Hout) as (_ & Herr).
  assert (Hmt : mtype_at d = None).
  { unfold mtype_at, str_at. rewrite Hv. unfold outside_mtypes in Hout.
    destruct v; try reflexivity.
    apply negb_true_iff in Hout. now rewrite Hout. }
  eexists. eexists. split; [exact (loads_object jstr d Hj)|].
  split; [|split; [exact Hloads|split; [exact Herr|split; [exact Hmt|reflexivity]]]].
  destruct (str_at d "channel"), (str_at d "sender"),
    (str_at d "receiver"), (str_at d "content"); try reflexivity.
  cbn [loaded_message mtype]. now rewrite Hmt.
Qed.

Lemma C3_witness :
  exists m r,
    Message.loads (Str wire_bogus_mtype) = Returned m
    /\ mtype m = MessageType.Text
    /\ MessageSchema.loads wire_bogus_mtype = Returned r
    /\ In "mtype" (map fst (marshmallow.errs r))
    /\ mtype_at [("channel", VStr "irc"); ("sender", VStr "alice");
                 ("receiver", VStr "#fishroom"); ("content", VStr "hello");
                 ("mtype", VStr "bogus")] = None
    /\ m = {| channel := "irc"; sender := "alice"; receiver := "#fishroom";
              content := "hello"; rich_text := None; mtype := "text";
              date := None; time := None; media_url := None;
              botmsg := false; room := None; opt := [] |}.
Proof.
  apply (C3_mtype_outside_enumeration_is_dropped wire_bogus_mtype
           [("channel", VStr "irc"); ("sender", VStr "alice");
            ("receiver", VStr "#fishroom"); ("content", VStr "hello");
            ("mtype", VStr "bogus")]
           (VStr "bogus")); vm_compute; reflexivity.
Defined.

(** X15: how [loads] maps a JSON object that holds the four mandatory
    fields as strs.  Each field of the returned message is read off the
    key of the same name: the mandatory strs as they are; [media_url],
    [date], [time] and [room] when they hold a str, and absent otherwise;
    [mtype] when it holds an enumerated kind, and text otherwise; the rich
    text when it decodes, and absent otherwise; [botmsg] when it decodes,
    and false otherwise; [opt] when it is a mapping, and empty otherwise.
    No ill-formed optional field makes the call fail. *)
Theorem X15_loads_field_by_field
  (jstr : string) (d : dict) (c s rc t : string) :
  json.loads jstr = Returned (VDict d) ->
  str_at d "channel" = Some c -> str_at d "sender" = Some s ->
  str_at d "receiver" = Some rc -> str_at d "content" = Some t ->
  Message.loads (Str jstr)
  = Returned {| channel := c; sender := s; receiver := rc; content := t;
                rich_text := rich_text_at d;
                mtype := match mtype_at d with
                         | Some k => k
                         | None => MessageType.Text
                         end;
                date := str_at d "date";
                time := str_at d "time";
                media_url := str_at d "media_url";
                botmsg := botmsg_at d;
                room := str_at d "room";
                opt := opt_at d |}.
Proof.
  intros Hj Hc Hs Hr Ht.
  rewrite (loads_object jstr d Hj), Hc, Hs, Hr, Ht. reflexivity.
Qed.

Lemma X15_witness :
  Message.loads (Str wire_named_style)
  = Returned {| channel := "irc"; sender := "alice"; receiver := "#fishroom";
                content := "hello"; rich_text := None; mtype := "text";
                date := None; time := None; media_url := None;
                botmsg := false; room := None;
                opt := [("weight", VFloat (float.of_decimal false 25 (-1)))] |}.
Proof.
  apply (X15_loads_field_by_field wire_named_style
           [("channel", VStr "irc"); ("sender", VStr "alice");
            ("receiver", VStr "#fishroom"); ("content", VStr "hello");
            ("rich_text", VList [VList [VStr "bold"; VStr "hi"]]);
            ("opt", VDict [("weight",
                            VFloat (float.of_decimal false 25 (-1)))])]
           "irc" "alice" "#fishroom" "hello"); vm_compute; reflexivity.
Defined.

(** X16: [loads] reads the twelve keys of the schema and no other: two
    JSON objects that agree on these keys load to the same message,
    whatever else they hold. *)
Theorem X16_loads_reads_schema_keys_only (jstr jstr' : string) (d d' : dict) :
  json.loads jstr = Returned (VDict d) ->
  json.loads jstr' = Returned (VDict d') ->
  (forall key, In key schema_keys -> dict_get d key = dict_get d' key) ->
  Message.loads (Str jstr) = Message.loads (Str jstr').
Proof.
  intros Hj Hj' Hk.
  unfold Message.loads, Message.loads_body, MessageSchema.loads.
  cbn [bind]. rewrite Hj, Hj'. cbn [bind].
  unfold MessageSchema.load, marshmallow.unmarshal_field.
  rewrite !(fun key H => Hk key H) by (simpl; tauto).
  reflexivity.
Qed.

Lemma X16_witness :
  Message.loads (Str wire_float_extra) = Message.loads (Str wire_four_fields).
Proof.
  apply (X16_loads_reads_schema_keys_only wire_float_extra wire_four_fields
           [("channel", VStr "irc"); ("sender", VStr "alice");
            ("receiver", VStr "#fishroom"); ("content", VStr "hello");
            ("extra", VFloat (float.of_decimal false 15 (-1)))]
           [("channel", VStr "irc"); ("sender", VStr "alice");
            ("receiver", VStr "#fishroom"); ("content", VStr "hello")]).
  - vm_compute. reflexivity.
  - vm_compute. reflexivity.
  - intros key H. simpl in H.
    repeat (destruct H as [<-|H]; [reflexivity|]). contradiction.
Defined.

Lemma RichTextField_deserialize_valid (value : pyval) (runs : RichText) :
  RichTextField._deserialize value = Returned (Some runs) ->
  Forall (fun run => valid_TextStyle (fst run)) runs.
Proof.
  intros H.
  assert (Hb : (entries <- py_iter value ;;
                runs <- RichTextField.load_runs entries ;;
                Returned (Some runs)) = Returned (Some runs)).
  { unfold RichTextField._deserialize in H.
    destruct value; try discriminate;
      match type of H with
      | try_except ?b _ = _ => destruct b; simpl in H; [exact H | discriminate]
      end. }
  apply bind_returned in Hb. destruct Hb as (entries & Hit & Hb).
  apply bind_returned in Hb. destruct Hb as (runs' & Hl & Hb).
  injection Hb as ->.
  pose proof (load_runs_sound entries runs Hl) as HF.
  clear Hl Hit H. induction HF as [|entry run entries runs (s & _ & Hs) _ IH];
    constructor; [now apply (TextStyle_load_valid s) | exact IH].
Qed.

(** X17: whatever the text, every style in the rich text of the message
    that [loads] returns satisfies the invariant of the data model: the
    COLOR bit is set exactly when a color is attached.  This holds though
    the constructor itself does not enforce it. *)
Theorem X17_loaded_styles_are_valid (jstr : string) :
  exists m,
    Message.loads (Str jstr) = Returned m
    /\ match rich_text m with
       | Some runs => Forall (fun run => valid_TextStyle (fst run)) runs
       | None => True
       end.
Proof.
  destruct (json.loads jstr) as [data|e] eqn:Hj.
  - destruct data as [| | | | | | |d];
      try (exists Message.sentinel;
           unfold Message.loads, Message.loads_body, MessageSchema.loads;
           cbn [bind]; rewrite Hj; split; [reflexivity | exact I]).
    destruct (loads_dict jstr d Hj) as (kw & e & _ & Hload & ->).
    destruct (MessageSchema_load_fields d)
      as (kw' & e' & Hload' & _ & _ & _ & _ & _ & _ & _ & _ & _ & Hrt & _).
    rewrite Hload in Hload'. injection Hload' as <- <-.
    unfold Message.of_kwargs.
    destruct (MessageSchema.kw_channel kw), (MessageSchema.kw_sender kw),
      (MessageSchema.kw_receiver kw), (MessageSchema.kw_content kw);
      try (eexists; split; [reflexivity | exact I]).
    eexists. split; [reflexivity|]. cbn [rich_text Message.__init__].
    rewrite Hrt. unfold rich_text_at.
    destruct (dict_get d "rich_text") as [v|]; [|exact I].
    destruct (RichTextField._deserialize v) as [[runs|]|] eqn:Ev; try exact I.
    now apply (RichTextField_deserialize_valid v).
  - exists Message.sentinel.
    unfold Message.loads, Message.loads_body, MessageSchema.loads.
    cbn [bind]. rewrite Hj. split; [reflexivity | exact I].
Qed.

(** X18: [TextStyle.loads] has no [try] block.  On a str it fails exactly
    when the JSON parser fails, with the parser's error, or when the text
    is JSON but no object ([null], a number, a string, an array), with the
    [TypeError] of the constructor call; on bytes that are not well-formed
    UTF-8 it fails with the decoding error.  On every JSON object it
    returns, as on the text of a bold style with a float under a key the
    schema does not know; whenever it returns, the style satisfies the
    invariant of the data model. *)
Theorem X18_style_loads_failures (jstr : string) :
  (forall e, TextStyle_loads (Str jstr) = Raised e <->
             (json.loads jstr = Raised e
              \/ (e = TypeError
                  /\ exists data, json.loads jstr = Returned data
                                  /\ forall d, data <> VDict d)))
  /\ (forall s, TextStyle_loads (Str jstr) = Returned s -> valid_TextStyle s)
  /\ (forall b, utf8_valid b = false ->
                TextStyle_loads (Bytes b) = Raised UnicodeDecodeError)
  /\ TextStyle_loads (Str "[]") = Raised TypeError
  /\ TextStyle_loads (Str "5") = Raised TypeError
  /\ TextStyle_loads (Str "null") = Raised TypeError
  /\ TextStyle_loads (Str (json.dumps (VStr "abc"))) = Raised TypeError
  /\ TextStyle_loads (Str wire_style_float)
     = Returned {| style := TextStyle.BOLD; color := None |}.
Proof.
  assert (Hl : TextStyle_loads (Str jstr)
               = (data <- json.loads jstr ;; TextStyle_load data)) by reflexivity.
  split; [|split; [|split; [|repeat split; vm_compute; reflexivity]]].
  - intros e. rewrite Hl.
    destruct (json.loads jstr) as [data|e'] eqn:Hj; cbn [bind].
    + assert (Hcases : (exists d, data = VDict d) \/ (forall d, data <> VDict d)).
      { destruct data; try (right; intros d'; discriminate). left; eauto. }
      destruct Hcases as [(d & ->)|Hn].
      * destruct (TextStyle_load_returns d) as (s & ->).
        split; [discriminate|].
        intros [H|(_ & data & H & Hd)]; [discriminate|].
        injection H as <-. exfalso. now apply (Hd d).
      * rewrite (TextStyle_load_not_mapping data Hn). split.
        -- intros H; injection H as <-. right. split; [reflexivity|].
           exists data. split; [reflexivity | exact Hn].
        -- intros [H|(-> & _)]; [discriminate | reflexivity].
    + split.
      * intros H; injection H as <-. now left.
      * intros [H|(_ & data & H & _)]; [injection H as <-; reflexivity | discriminate].
  - intros s. rewrite Hl.
    destruct (json.loads jstr) as [data|e'] eqn:Hj; cbn [bind]; [|discriminate].
    apply TextStyle_load_valid.
  - intros b Hb. unfold TextStyle_loads, bytes_decode. now rewrite Hb.
Qed.

(** * JSON text reads back *)

(** ** Integers *)

Lemma append_assoc (a b c : string) : (a ++ b) ++ c = a ++ (b ++ c).
Proof. induction a as [|x a IH]; simpl; [reflexivity | now rewrite IH]. Qed.

Lemma take_digits_step (c : ascii) (s : string) (acc : Z) :
  is_digit c = true ->
  json.take_digits acc (String c s) = json.take_digits (10 * acc + (ord c - 48)) s.
Proof. intros H. cbn [json.take_digits]. now rewrite H. Qed.

Lemma take_digits_stop (acc : Z) (rest : string) :
  json.starts_with_digit rest = false -> json.take_digits acc rest = (acc, rest).
Proof.
  intros Hr. destruct rest as [|c r]; [reflexivity|].
  cbn [json.starts_with_digit] in Hr. cbn [json.take_digits]. now rewrite Hr.
Qed.

Lemma take_digits_uint (d : Decimal.uint) (acc : Z) (rest : string) :
  json.starts_with_digit rest = false ->
  json.take_digits acc (NilEmpty.string_of_uint d ++ rest) = (uint_value acc d, rest).
Proof.
  intros Hr. revert acc.
  induction d; intros acc; cbn [NilEmpty.string_of_uint append uint_value];
    try (rewrite take_digits_step by reflexivity; rewrite IHd; reflexivity).
  - now apply take_digits_stop.
  - rewrite take_digits_step by reflexivity. rewrite IHd.
    change (ord "0" - 48) with 0. now rewrite Z.add_0_r.
Qed.

Lemma uint_value_of_uint_acc (d : Decimal.uint) (p : positive) :
  uint_value (Zpos p) d = Zpos (Pos.of_uint_acc d p).
Proof.
  revert p. induction d; intros p; cbn [uint_value Pos.of_uint_acc];
    try reflexivity; rewrite <- IHd; f_equal; lia.
Qed.

Lemma uint_value_of_uint (d : Decimal.uint) :
  uint_value 0 d = Z.of_N (Pos.of_uint d).
Proof.
  induction d; cbn [uint_value Pos.of_uint]; try reflexivity;
    try exact IHd;
    (change (Z.of_N (N.pos ?q)) with (Z.pos q);
     rewrite <- uint_value_of_uint_acc; reflexivity).
Qed.

Lemma nzhead_head (d : Decimal.uint) :
  match Decimal.nzhead d with Decimal.D0 _ => False | _ => True end.
Proof. induction d; simpl; auto. Qed.

Lemma to_uint_head (p : positive) :
  match Pos.to_uint p with
  | Decimal.Nil | Decimal.D0 _ => False
  | _ => True
  end.
Proof.
  pose proof (DecimalPos.Unsigned.to_of (Pos.to_uint p)) as H.
  rewrite DecimalPos.Unsigned.of_to in H. simpl in H.
  pose proof (DecimalPos.Unsigned.to_uint_nonnil p) as Hn.
  pose proof (DecimalPos.Unsigned.to_uint_nonzero p) as Hz.
  destruct (Pos.to_uint p) as [|l| | | | | | | | |]; try exact I.
  - now contradiction Hn.
  - unfold Decimal.unorm in H. simpl in H.
    pose proof (nzhead_head l) as Hh.
    destruct (Decimal.nzhead l); try discriminate; try contradiction;
      injection H as <-; now contradiction Hz.
Qed.

Lemma scan_natural_pos (p : positive) (rest : string) :
  json.starts_with_digit rest = false ->
  json.scan_natural (NilEmpty.string_of_uint (Pos.to_uint p) ++ rest)
  = Some (Zpos p, rest).
Proof.
  intros Hr.
  assert (Hv : uint_value 0 (Pos.to_uint p) = Zpos p).
  { rewrite uint_value_of_uint, DecimalPos.Unsigned.of_to. reflexivity. }
  pose proof (to_uint_head p) as Hh.
  destruct (Pos.to_uint p) as [|l|l|l|l|l|l|l|l|l|l]; try contradiction;
    simpl in Hv |- *; unfold json.scan_natural; simpl;
    rewrite (take_digits_uint l _ rest Hr); now rewrite Hv.
Qed.

Lemma scan_number_of_natural (s : string) (n : Z) (rest : string) :
  json.scan_natural s = Some (n, rest) -> json.float_tail rest = false ->
  json.scan_number s = Some (VInt n, rest).
Proof.
  intros Hs Hf. destruct s as [|c s']; [discriminate|].
  unfold json.scan_number. destruct (Z.eqb_spec (ord c) 45) as [E|_].
  - exfalso. unfold json.scan_natural, is_digit in Hs. rewrite E in Hs.
    simpl in Hs. discriminate.
  - rewrite Hs. now rewrite Hf.
Qed.

Lemma scan_number_of_negated (s : string) (n : Z) (rest : string) :
  json.scan_natural s = Some (n, rest) -> json.float_tail rest = false ->
  json.scan_number (String "-" s) = Some (VInt (- n), rest).
Proof.
  intros Hs Hf. unfold json.scan_number.
  change (ord "-" =? 45) with true. cbn iota. rewrite Hs.
  cbn [option_map fst snd]. now rewrite Hf.
Qed.

Lemma string_of_uint_to_uint (p : positive) :
  NilZero.string_of_uint (Pos.to_uint p) = NilEmpty.string_of_uint (Pos.to_uint p).
Proof.
  pose proof (to_uint_head p) as Hh. unfold NilZero.string_of_uint.
  destruct (Pos.to_uint p); [contradiction | reflexivity ..].
Qed.

(** An integer reads back from its decimal text, whatever follows it, as
    long as that does not continue the number. *)
Lemma scan_number_int (n : Z) (rest : string) :
  ends_number rest = true ->
  json.scan_number (py_str_of_int n ++ rest) = Some (VInt n, rest).
Proof.
  unfold ends_number. intros H. apply andb_true_iff in H. destruct H as [Hd Hf].
  apply negb_true_iff in Hd. apply negb_true_iff in Hf.
  unfold py_str_of_int. destruct n as [|p|p]; cbn [Z.to_int NilZero.string_of_int].
  - apply scan_number_of_natural; [reflexivity | exact Hf].
  - rewrite string_of_uint_to_uint.
    apply scan_number_of_natural; [now apply scan_natural_pos | exact Hf].
  - rewrite string_of_uint_to_uint. cbn [append].
    apply (scan_number_of_negated _ (Zpos p));
      [now apply scan_natural_pos | exact Hf].
Qed.

(** ** The shape of the documents *)

Lemma append_nil_r (s : string) : s ++ "" = s.
Proof. induction s as [|c s IH]; simpl; [reflexivity | now rewrite IH]. Qed.

Lemma json_ok_items (l : list pyval) :
  (fix all (l : list pyval) : Prop :=
     match l with
     | [] => True
     | x :: l' => json_ok x /\ all l'
     end) l <-> items_ok l.
Proof.
  unfold items_ok. induction l as [|x l IH]; split; intros H.
  - constructor.
  - exact I.
  - destruct H as [Hx Hl]. constructor; [exact Hx | now apply IH].
  - inversion H; subst. split; [assumption | now apply IH].
Qed.

Lemma json_ok_pairs (d : list (string * pyval)) :
  (fix all (d : list (string * pyval)) : Prop :=
     match d with
     | [] => True
     | (k, x) :: d' => str_reads_back k /\ json_ok x /\ all d'
     end) d <-> pairs_ok d.
Proof.
  unfold pairs_ok. induction d as [|[k x] d IH]; split; intros H.
  - constructor.
  - exact I.
  - destruct H as (Hk & Hx & Hd). constructor; [simpl; auto | now apply IH].
  - inversion H as [|? ? [Hk Hx] Hd]; subst. simpl in Hk, Hx.
    split; [exact Hk | split; [exact Hx | now apply IH]].
Qed.

Lemma doc_size_items (l : list pyval) :
  (fix sz (l : list pyval) : nat :=
     match l with
     | [] => O
     | x :: l' => S (doc_size x + sz l')
     end) l = items_size l.
Proof. induction l as [|x l IH]; simpl; [reflexivity | now rewrite IH]. Qed.

Lemma doc_size_pairs (d : list (string * pyval)) :
  (fix sz (d : list (string * pyval)) : nat :=
     match d with
     | [] => O
     | (_, x) :: d' => S (doc_size x + sz d')
     end) d = pairs_size d.
Proof. induction d as [|[k x] d IH]; simpl; [reflexivity | now rewrite IH]. Qed.

Lemma dumps_pairs (d : list (string * pyval)) :
  map (fun kv : string * pyval =>
         let (k, v) := kv in
         json.encode_basestring_ascii k ++ ": " ++ json.dumps v) d
  = map dump_pair d.
Proof. apply map_ext. now intros [k v]. Qed.

Lemma jsonify_pairs (d : list (string * pyval)) :
  map (fun kv : string * pyval => let (k, x) := kv in (k, jsonify x)) d
  = map jsonify_pair d.
Proof. apply map_ext. now intros [k v]. Qed.

(** ** Building a mapping from distinct keys keeps the pairs *)

Lemma dict_set_fresh {A : Type} (d : list (string * A)) (k : string) (v : A) :
  ~ In k (map fst d) -> dict_set d k v = (d ++ [(k, v)])%list.
Proof.
  induction d as [|[k' v'] d IH]; simpl; intros Hn; [reflexivity|].
  destruct (String.eqb_spec k' k) as [->|_]; [exfalso; auto|].
  now rewrite IH by tauto.
Qed.

Lemma fold_dict_set_nodup {A : Type} (pairs acc : list (string * A)) :
  NoDup (map fst (acc ++ pairs)%list) ->
  fold_left (fun d kv => dict_set d (fst kv) (snd kv)) pairs acc
  = (acc ++ pairs)%list.
Proof.
  revert acc. induction pairs as [|[k v] pairs IH]; intros acc Hn; simpl.
  - now rewrite app_nil_r.
  - rewrite dict_set_fresh.
    + rewrite IH; rewrite <- app_assoc; [reflexivity | exact Hn].
    + rewrite map_app in Hn. simpl in Hn. apply NoDup_remove_2 in Hn.
      intros Hin. apply Hn. apply in_or_app. now left.
Qed.

Lemma dict_of_pairs_nodup {A : Type} (pairs : list (string * A)) :
  NoDup (map fst pairs) -> dict_of_pairs pairs = pairs.
Proof. intros H. unfold dict_of_pairs. now rewrite fold_dict_set_nodup. Qed.

(** ** One step of the scanner on each kind of value *)

Lemma head_is_append (p : ascii -> bool) (s rest : string) :
  head_is p s = true -> head_is p (s ++ rest) = true.
Proof. destruct s; [discriminate | auto]. Qed.

Lemma py_str_of_int_head (n : Z) : head_is number_start (py_str_of_int n) = true.
Proof.
  unfold py_str_of_int. destruct n as [|p|p]; cbn [Z.to_int NilZero.string_of_int];
    try reflexivity.
  rewrite string_of_uint_to_uint. pose proof (to_uint_head p) as Hh.
  destruct (Pos.to_uint p); try contradiction; reflexivity.
Qed.

Lemma number_start_value (c : ascii) : number_start c = true -> value_start c = true.
Proof.
  unfold number_start, value_start, is_digit, json.is_ws.
  intros H. apply orb_true_iff in H.
  destruct H as [H|H];
    [apply Z.eqb_eq in H
    |apply andb_true_iff in H; destruct H as [H1 H2];
     apply Z.leb_le in H1; apply Z.leb_le in H2];
    repeat match goal with
           | |- context [?a =? ?b] => destruct (Z.eqb_spec a b); try lia
           end; reflexivity.
Qed.

Lemma format_head (digits : string) (decpt : Z) :
  head_is number_start digits = true ->
  head_is value_start (float.format digits decpt) = true.
Proof.
  destruct digits as [|c rest]; [discriminate|]. cbn [head_is]. intros H.
  apply number_start_value in H. unfold float.format.
  destruct ((decpt <=? -4) || (16 <? decpt)).
  - destruct rest; exact H.
  - destruct (decpt <=? 0); [reflexivity|].
    destruct (Z.of_nat (String.length (String c rest)) <=? decpt); [exact H|].
    destruct (Z.to_nat decpt) as [|k]; [reflexivity | exact H].
Qed.

Lemma shortest_head (m : positive) (e : Z) :
  head_is number_start (fst (float.shortest m e)) = true.
Proof.
  unfold float.shortest.
  destruct (float.shortest_from _ _ _ _ _ _ _ _) as [d k].
  destruct (float.strip_zeros _ d k) as [d' k'].
  cbn [fst]. apply py_str_of_int_head.
Qed.

Lemma floatstr_head (x : float) : head_is value_start (json.floatstr x) = true.
Proof.
  destruct x as [[|]|[|]| |[|] m e]; try reflexivity;
    cbn [json.floatstr float.__repr__];
    pose proof (shortest_head m e) as H;
    destruct (float.shortest m e) as [digits decpt]; cbn [fst] in H;
    [reflexivity | now apply format_head].
Qed.

Lemma dumps_head (v : pyval) : head_is value_start (json.dumps v) = true.
Proof.
  destruct v as [|[|]|n|x|s|l|l|d]; try reflexivity.
  - cbn [json.dumps]. pose proof (py_str_of_int_head n) as H.
    destruct (py_str_of_int n) as [|c t]; [discriminate|].
    now apply number_start_value.
  - apply floatstr_head.
Qed.

Lemma skip_ws_value (s : string) :
  head_is value_start s = true -> json.skip_ws s = s.
Proof.
  destruct s as [|c t]; [reflexivity|]. unfold head_is, value_start.
  intros H. cbn [json.skip_ws]. destruct (json.is_ws c); [discriminate | reflexivity].
Qed.

Lemma ascii_eqb_ord (a c : ascii) : ord a <> ord c -> Ascii.eqb a c = false.
Proof.
  intros H. destruct (Ascii.eqb_spec a c) as [->|]; [now contradiction H | reflexivity].
Qed.

Lemma py_str_of_int_sign (n : Z) :
  match py_str_of_int n with
  | String c t => ord c = 45 -> head_is is_digit t = true
  | "" => False
  end.
Proof.
  unfold py_str_of_int. destruct n as [|p|p]; cbn [Z.to_int NilZero.string_of_int].
  - intros H; vm_compute in H; discriminate.
  - rewrite string_of_uint_to_uint. pose proof (to_uint_head p) as Hh.
    destruct (Pos.to_uint p); try contradiction;
      cbn [NilEmpty.string_of_uint]; intros H; vm_compute in H; discriminate.
  - rewrite string_of_uint_to_uint. pose proof (to_uint_head p) as Hh.
    destruct (Pos.to_uint p); try contradiction; intros _; reflexivity.
Qed.

Lemma scan_once_number (f : nat) (c : ascii) (s : string) :
  number_start c = true ->
  (ord c = 45 -> head_is is_digit s = true) ->
  json.scan_once (S f) (String c s) = json.scan_number (String c s).
Proof.
  intros H Hsign.
  assert (Hb : ord c = 45 \/ 48 <= ord c <= 57).
  { unfold number_start, is_digit in H. apply orb_true_iff in H.
    destruct H as [H|H]; [left; now apply Z.eqb_eq|right].
    apply andb_true_iff in H. destruct H as [H1 H2].
    apply Z.leb_le in H1. apply Z.leb_le in H2. lia. }
  cbn [json.scan_once].
  destruct (Z.eqb_spec (ord c) 34); [lia|].
  destruct (Z.eqb_spec (ord c) 123); [lia|].
  destruct (Z.eqb_spec (ord c) 91); [lia|].
  assert (Hc : json.scan_constant (String c s) = json.scan_number (String c s)).
  { unfold json.scan_constant. cbn [json.strip_prefix].
    rewrite (ascii_eqb_ord "N" c), (ascii_eqb_ord "I" c);
      [| change (ord "I") with 73; lia | change (ord "N") with 78; lia].
    destruct (Ascii.eqb_spec "-"%char c) as [<-|_]; [|reflexivity].
    specialize (Hsign eq_refl). destruct s as [|d s']; [discriminate|].
    cbn [head_is] in Hsign. unfold is_digit in Hsign.
    cbn [json.strip_prefix].
    rewrite (ascii_eqb_ord "I" d); [reflexivity|]. change (ord "I") with 73. lia. }
  cbn [json.strip_prefix].
  rewrite (ascii_eqb_ord "n" c), (ascii_eqb_ord "t" c), (ascii_eqb_ord "f" c);
    [exact Hc | | |]; change (ord "f") with 102; change (ord "t") with 116;
    change (ord "n") with 110; lia.
Qed.

Lemma scan_once_array (f : nat) (s : string) :
  head_is value_start s = true ->
  json.scan_once (S f) (String "[" s)
  = match json.scan_items f s with
    | Some (items, rest) => Some (VList items, rest)
    | None => None
    end.
Proof.
  intros H. cbn [json.scan_once].
  change (ord "[" =? 34) with false. change (ord "[" =? 123) with false.
  change (ord "[" =? 91) with true. cbv iota.
  rewrite (skip_ws_value s H).
  destruct s as [|c t]; [discriminate|].
  unfold head_is, value_start in H.
  destruct (ord c =? 93); [|reflexivity].
  rewrite andb_false_r in H. discriminate.
Qed.

Lemma scan_once_object (f : nat) (s : string) :
  head_is (fun c => ord c =? 34) s = true ->
  json.scan_once (S f) (String "{" s)
  = match json.scan_pairs f s with
    | Some (pairs, rest) => Some (VDict (dict_of_pairs pairs), rest)
    | None => None
    end.
Proof.
  intros H. cbn [json.scan_once].
  change (ord "{" =? 34) with false. change (ord "{" =? 123) with true. cbv iota.
  destruct s as [|c t]; [discriminate|]. cbn [head_is] in H.
  apply Z.eqb_eq in H.
  assert (Hw : json.is_ws c = false).
  { unfold json.is_ws. rewrite H. reflexivity. }
  cbn [json.skip_ws]. rewrite Hw.
  destruct (Z.eqb_spec (ord c) 125); [lia | reflexivity].
Qed.

Lemma py_join_cons (sep x : string) (y : string) (l : list string) :
  py_join sep (x :: y :: l) = x ++ sep ++ py_join sep (y :: l).
Proof. reflexivity. Qed.

Lemma py_join_head (p : ascii -> bool) (sep x : string) (l : list string) :
  head_is p x = true -> head_is p (py_join sep (x :: l)) = true.
Proof.
  intros H. destruct l as [|y l]; [exact H|].
  rewrite py_join_cons. now apply head_is_append.
Qed.

(** ** Scanning the text of a document *)

Lemma ends_number_comma (s : string) : ends_number (", " ++ s) = true.
Proof. reflexivity. Qed.

Lemma ends_number_close (s : string) :
  ends_number ("]" ++ s) = true /\ ends_number ("}" ++ s) = true.
Proof. split; reflexivity. Qed.

Lemma skip_ws_space (t : string) : json.skip_ws (String " " t) = json.skip_ws t.
Proof. reflexivity. Qed.

Lemma skip_ws_comma (t : string) : json.skip_ws (String "," t) = String "," t.
Proof. reflexivity. Qed.

Lemma skip_ws_colon (t : string) : json.skip_ws (String ":" t) = String ":" t.
Proof. reflexivity. Qed.

Lemma scan_items_last (f : nat) (v : pyval) (s rest : string) :
  json.scan_once f s = Some (v, "]" ++ rest) ->
  json.scan_items (S f) s = Some ([v], rest).
Proof. intros H. cbn [json.scan_items]. rewrite H. reflexivity. Qed.

Lemma scan_items_more (f : nat) (v : pyval) (items : list pyval) (s t rest : string) :
  json.scan_once f s = Some (v, ", " ++ t) ->
  head_is value_start t = true ->
  json.scan_items f t = Some (items, rest) ->
  json.scan_items (S f) s = Some (v :: items, rest).
Proof.
  intros H Ht Hi. cbn [json.scan_items]. rewrite H.
  cbn [append]. rewrite skip_ws_comma.
  change (ord "," =? 93) with false. change (ord "," =? 44) with true. cbv iota.
  rewrite skip_ws_space, (skip_ws_value t Ht). now rewrite Hi.
Qed.

Lemma scan_pairs_entry (f : nat) (k : string) (v : pyval) (s after : string) :
  str_reads_back k ->
  head_is value_start s = true ->
  json.scan_once f s = Some (v, after) ->
  json.scan_pairs (S f)
    (json.dquote ++ escape_body k ++ json.dquote ++ ": " ++ s)
  = match json.skip_ws after with
    | String c s2 =>
        if ord c =? 125 then Some ([(k, v)], s2)
        else if ord c =? 44 then
          match json.scan_pairs f (json.skip_ws s2) with
          | Some (pairs, rest') => Some ((k, v) :: pairs, rest')
          | None => None
          end
        else None
    | "" => None
    end.
Proof.
  intros Hk Hs Ho. cbn [json.scan_pairs json.dquote append].
  change (ord (chr 34) =? 34) with true. cbv iota.
  pose proof (Hk (": " ++ s)) as Hk'. cbn [json.dquote append] in Hk'.
  rewrite Hk'. rewrite skip_ws_colon.
  change (ord ":" =? 58) with true. cbv iota.
  rewrite skip_ws_space, (skip_ws_value s Hs). now rewrite Ho.
Qed.

Lemma doc_size_pos (v : pyval) : (1 <= doc_size v)%nat.
Proof. destruct v; simpl; lia. Qed.

Lemma dump_pair_head (kv : string * pyval) :
  head_is (fun c => ord c =? 34) (dump_pair kv) = true.
Proof. reflexivity. Qed.

Lemma dump_pair_text (k : string) (v : pyval) (rest : string) :
  dump_pair (k, v) ++ rest
  = json.dquote ++ escape_body k ++ json.dquote ++ ": " ++ (json.dumps v ++ rest).
Proof.
  unfold dump_pair, json.encode_basestring_ascii, escape_body. cbn [fst snd].
  now rewrite !append_assoc.
Qed.

(** With enough fuel the scanner reads a document, the items of a list
    and the entries of a mapping back from their text. *)
Lemma scan_doc (fuel : nat) :
  (forall doc rest,
     (doc_size doc <= fuel)%nat -> json_ok doc -> ends_number rest = true ->
     json.scan_once fuel (json.dumps doc ++ rest) = Some (jsonify doc, rest))
  /\ (forall l rest,
        l <> [] -> (items_size l <= fuel)%nat -> items_ok l ->
        json.scan_items fuel (py_join ", " (map json.dumps l) ++ "]" ++ rest)
        = Some (map jsonify l, rest))
  /\ (forall d rest,
        d <> [] -> (pairs_size d <= fuel)%nat -> pairs_ok d ->
        json.scan_pairs fuel (py_join ", " (map dump_pair d) ++ "}" ++ rest)
        = Some (map jsonify_pair d, rest)).
Proof.
  induction fuel as [|f (IHonce & IHitems & IHpairs)].
  - split; [|split].
    + intros doc rest H. pose proof (doc_size_pos doc). lia.
    + intros [|x l] rest Hne H; [now contradiction Hne | simpl in H; lia].
    + intros [|x l] rest Hne H; [now contradiction Hne | simpl in H; lia].
  - split; [|split].
    + intros doc rest Hsize Hok Hrest.
      destruct doc as [|[|]|n|x|s|l|l|d].
      * reflexivity.
      * reflexivity.
      * reflexivity.
      * cbn [json.dumps jsonify]. pose proof (py_str_of_int_head n) as Hh.
        pose proof (py_str_of_int_sign n) as Hsign.
        pose proof (scan_number_int n rest Hrest) as Hn.
        destruct (py_str_of_int n) as [|c t]; [discriminate|].
        cbn [append] in Hn |- *. rewrite scan_once_number; [exact Hn | exact Hh|].
        intros E. now apply head_is_append, Hsign.
      * now contradiction Hok.
      * cbn [json.dumps jsonify json_ok] in Hok |- *.
        unfold json.encode_basestring_ascii. fold (escape_body s).
        rewrite !append_assoc. cbn [json.dquote append json.scan_once].
        change (ord (chr 34) =? 34) with true. cbv iota.
        pose proof (Hok rest) as Hs. cbn [json.dquote append] in Hs.
        now rewrite Hs.
      * cbn [json.dumps jsonify json_ok doc_size] in Hsize, Hok |- *.
        rewrite doc_size_items in Hsize. apply json_ok_items in Hok.
        destruct l as [|x l]; [reflexivity|].
        cbn [append]. rewrite append_assoc.
        rewrite scan_once_array.
        -- rewrite IHitems; [reflexivity | discriminate | lia | exact Hok].
        -- apply head_is_append. cbn [map]. apply py_join_head, dumps_head.
      * cbn [json.dumps jsonify json_ok doc_size] in Hsize, Hok |- *.
        rewrite doc_size_items in Hsize. apply json_ok_items in Hok.
        destruct l as [|x l]; [reflexivity|].
        cbn [append]. rewrite append_assoc.
        rewrite scan_once_array.
        -- rewrite IHitems; [reflexivity | discriminate | lia | exact Hok].
        -- apply head_is_append. cbn [map]. apply py_join_head, dumps_head.
      * cbn [json.dumps jsonify json_ok doc_size] in Hsize, Hok |- *.
        rewrite doc_size_pairs in Hsize. destruct Hok as [Hnd Hok].
        apply json_ok_pairs in Hok. rewrite dumps_pairs, jsonify_pairs.
        destruct d as [|kv d]; [reflexivity|].
        cbn [append]. rewrite append_assoc.
        rewrite scan_once_object.
        -- rewrite IHpairs; [|discriminate | lia | exact Hok].
           rewrite dict_of_pairs_nodup; [reflexivity|].
           rewrite map_map. cbn [jsonify_pair fst]. exact Hnd.
        -- apply head_is_append. cbn [map]. apply py_join_head, dump_pair_head.
    + intros l rest Hne Hsize Hok.
      destruct l as [|x l]; [now contradiction Hne|].
      unfold items_size in Hsize. cbn [fold_right] in Hsize.
      fold (items_size l) in Hsize.
      unfold items_ok in Hok. inversion Hok as [|? ? Hx Hl]; subst.
      destruct l as [|y l].
      * cbn [map py_join]. apply scan_items_last.
        apply IHonce; [lia | exact Hx | apply ends_number_close].
      * cbn [map]. rewrite py_join_cons, !append_assoc.
        apply (scan_items_more f _ _ _
                 (py_join ", " (map json.dumps (y :: l)) ++ "]" ++ rest)).
        -- apply (IHonce x (", " ++ py_join ", " (map json.dumps (y :: l))
                                 ++ "]" ++ rest));
             [lia | exact Hx | reflexivity].
        -- apply head_is_append. cbn [map]. apply py_join_head, dumps_head.
        -- apply IHitems; [discriminate | lia | exact Hl].
    + intros d rest Hne Hsize Hok.
      destruct d as [|[k x] d]; [now contradiction Hne|].
      unfold pairs_size in Hsize. cbn [fold_right snd] in Hsize.
      fold (pairs_size d) in Hsize.
      unfold pairs_ok in Hok. inversion Hok as [|? ? [Hk Hx] Hd]; subst.
      cbn [fst snd] in Hk, Hx.
      destruct d as [|kv d].
      * cbn [map py_join]. rewrite dump_pair_text.
        rewrite (scan_pairs_entry f k (jsonify x) _ ("}" ++ rest) Hk).
        -- reflexivity.
        -- apply head_is_append, dumps_head.
        -- apply IHonce; [lia | exact Hx | apply ends_number_close].
      * cbn [map]. rewrite py_join_cons, append_assoc, dump_pair_text.
        change (dump_pair kv :: map dump_pair d) with (map dump_pair (kv :: d)).
        rewrite (scan_pairs_entry f k (jsonify x) _
                   (", " ++ py_join ", " (map dump_pair (kv :: d)) ++ "}" ++ rest) Hk).
        -- cbn [append]. rewrite skip_ws_comma.
           change (ord "," =? 125) with false. change (ord "," =? 44) with true.
           cbv iota. rewrite skip_ws_space, skip_ws_value.
           ++ change (String "}" rest) with ("}" ++ rest).
              rewrite IHpairs; [reflexivity | discriminate | lia | exact Hd].
           ++ apply head_is_append. cbn [map].
              apply (py_join_head (fun c => negb (json.is_ws c) && negb (ord c =? 93)
                                            && negb (ord c =? 125))).
              reflexivity.
        -- apply head_is_append, dumps_head.
        -- rewrite !append_assoc.
           apply (IHonce x (", " ++ py_join ", " (map dump_pair (kv :: d))
                                 ++ "}" ++ rest));
             [lia | exact Hx | reflexivity].
Qed.

(** ** The fuel of [json.loads] is enough *)

Lemma length_append (a b : string) :
  String.length (a ++ b) = (String.length a + String.length b)%nat.
Proof. induction a as [|c a IH]; simpl; [reflexivity | now rewrite IH]. Qed.

Lemma pyval_nested_ind (P : pyval -> Prop) :
  P VNone -> (forall b, P (VBool b)) -> (forall n, P (VInt n)) ->
  (forall x, P (VFloat x)) -> (forall s, P (VStr s)) ->
  (forall l, Forall P l -> P (VList l)) ->
  (forall l, Forall P l -> P (VTuple l)) ->
  (forall d, Forall (fun kv => P (snd kv)) d -> P (VDict d)) ->
  forall v, P v.
Proof.
  intros Hnone Hbool Hint Hfloat Hstr Hlist Htuple Hdict.
  fix IH 1. intros v. destruct v as [|b|n|x|s|l|l|d].
  - exact Hnone.
  - apply Hbool.
  - apply Hint.
  - apply Hfloat.
  - apply Hstr.
  - apply Hlist. induction l as [|x l IHl]; constructor; [apply IH | exact IHl].
  - apply Htuple. induction l as [|x l IHl]; constructor; [apply IH | exact IHl].
  - apply Hdict. induction d as [|[k x] d IHd]; constructor; [apply IH | exact IHd].
Qed.

Lemma head_is_length (p : ascii -> bool) (s : string) :
  head_is p s = true -> (1 <= String.length s)%nat.
Proof. destruct s; [discriminate | simpl; lia]. Qed.

Lemma items_size_le_length (l : list pyval) :
  Forall (fun x => (doc_size x <= String.length (json.dumps x))%nat) l ->
  (items_size l <= String.length (py_join ", " (map json.dumps l)) + 1)%nat.
Proof.
  induction 1 as [|x l Hx Hl IH]; [simpl; lia|].
  destruct l as [|y l].
  - simpl. lia.
  - cbn [map]. rewrite py_join_cons, !length_append.
    change (String.length ", ") with 2%nat.
    unfold items_size in *. cbn [fold_right map] in *. lia.
Qed.

Lemma pairs_size_le_length (d : list (string * pyval)) :
  Forall (fun kv => (doc_size (snd kv) <= String.length (json.dumps (snd kv)))%nat) d ->
  (pairs_size d <= String.length (py_join ", " (map dump_pair d)) + 1)%nat.
Proof.
  induction 1 as [|[k x] d Hx Hd IH]; [simpl; lia|].
  cbn [snd] in Hx.
  assert (He : (doc_size x + 1 <= String.length (dump_pair (k, x)))%nat).
  { unfold dump_pair. cbn [fst snd]. rewrite !length_append.
    change (String.length ": ") with 2%nat. lia. }
  destruct d as [|kv d].
  - unfold pairs_size. cbn [fold_right map py_join snd]. lia.
  - cbn [map]. rewrite py_join_cons, !length_append.
    change (String.length ", ") with 2%nat.
    unfold pairs_size in *. cbn [fold_right map snd] in *. lia.
Qed.

Lemma doc_size_le_length (doc : pyval) :
  (doc_size doc <= String.length (json.dumps doc))%nat.
Proof.
  induction doc as [|b|n|x|s|l IH|l IH|d IH] using pyval_nested_ind.
  - simpl. lia.
  - destruct b; simpl; lia.
  - apply (head_is_length value_start), dumps_head.
  - apply (head_is_length value_start), (dumps_head (VFloat x)).
  - apply (head_is_length value_start), (dumps_head (VStr s)).
  - cbn [json.dumps doc_size]. rewrite doc_size_items.
    pose proof (items_size_le_length l IH).
    rewrite !length_append. simpl String.length. lia.
  - cbn [json.dumps doc_size]. rewrite doc_size_items.
    pose proof (items_size_le_length l IH).
    rewrite !length_append. simpl String.length. lia.
  - cbn [json.dumps doc_size]. rewrite doc_size_pairs, dumps_pairs.
    pose proof (pairs_size_le_length d IH).
    rewrite !length_append. simpl String.length. lia.
Qed.

(** The JSON text of a document whose strs read back and whose mappings
    have distinct keys parses to the document, tuples having become
    lists. *)
Lemma json_loads_dumps (doc : pyval) :
  json_ok doc -> json.loads (json.dumps doc) = Returned (jsonify doc).
Proof.
  intros Hok. unfold json.loads.
  rewrite (skip_ws_value _ (dumps_head doc)).
  destruct (scan_doc (S (String.length (json.dumps doc)))) as (Honce & _ & _).
  pose proof (Honce doc "" ltac:(pose proof (doc_size_le_length doc); lia)
                Hok eq_refl) as H.
  rewrite append_nil_r in H. rewrite H. reflexivity.
Qed.

(** ** Strings: escapes read back *)

Lemma Z_range_forall (p : Z -> bool) (lo : Z) (k : nat) :
  forallb p (Z_range lo k) = true ->
  forall n, lo <= n < lo + Z.of_nat k -> p n = true.
Proof.
  intros H n Hn. rewrite forallb_forall in H. apply H.
  unfold Z_range. apply in_map_iff. exists (Z.to_nat (n - lo)).
  split; [lia|]. apply in_seq. lia.
Qed.

Lemma ord_range (c : ascii) : 0 <= ord c < 256.
Proof.
  unfold ord. pose proof (N_ascii_bounded c). lia.
Qed.

Lemma chr_ord (c : ascii) : chr (ord c) = c.
Proof. unfold chr, ord. rewrite N2Z.id. apply ascii_N_embedding. Qed.

Lemma hex_digit_value (n : Z) :
  0 <= n < 16 -> json.hex_value (json.hex_digit n) = Some n.
Proof.
  intros Hn.
  assert (H : (match json.hex_value (json.hex_digit n) with
               | Some m => m =? n
               | None => false
               end) = true).
  { apply (Z_range_forall
             (fun n => match json.hex_value (json.hex_digit n) with
                       | Some m => m =? n
                       | None => false
                       end) 0 16); [vm_compute; reflexivity | lia]. }
  destruct (json.hex_value (json.hex_digit n)) as [m|]; [|discriminate].
  apply Z.eqb_eq in H. now subst.
Qed.

Lemma nibbles (cp : Z) :
  0 <= cp < 65536 ->
  let a := Z.land (Z.shiftr cp 12) 15 in
  let b := Z.land (Z.shiftr cp 8) 15 in
  let c := Z.land (Z.shiftr cp 4) 15 in
  let d := Z.land cp 15 in
  0 <= a < 16 /\ 0 <= b < 16 /\ 0 <= c < 16 /\ 0 <= d < 16
  /\ 4096 * a + 256 * b + 16 * c + d = cp.
Proof.
  intros H. cbv zeta.
  change 15 with (Z.ones 4). rewrite !Z.land_ones, !Z.shiftr_div_pow2 by lia.
  change (2 ^ 4) with 16. change (2 ^ 8) with 256. change (2 ^ 12) with 4096.
  repeat split; try (apply Z.mod_pos_bound; lia).
  pose proof (Z.div_mod cp 16 ltac:(lia)).
  pose proof (Z.div_mod (cp / 16) 16 ltac:(lia)).
  pose proof (Z.div_mod (cp / 16 / 16) 16 ltac:(lia)).
  replace (cp / 4096) with (cp / 16 / 16 / 16)
    by (rewrite !Z.div_div by lia; reflexivity).
  replace (cp / 256) with (cp / 16 / 16)
    by (rewrite !Z.div_div by lia; reflexivity).
  assert (cp / 16 / 16 / 16 < 16).
  { rewrite !Z.div_div by lia. apply Z.div_lt_upper_bound; lia. }
  assert (0 <= cp / 16 / 16 / 16) by (repeat apply Z.div_pos; lia).
  rewrite (Z.mod_small (cp / 16 / 16 / 16) 16) by lia.
  pose proof (Z.mod_pos_bound cp 16 ltac:(lia)).
  pose proof (Z.mod_pos_bound (cp / 16) 16 ltac:(lia)).
  pose proof (Z.mod_pos_bound (cp / 16 / 16) 16 ltac:(lia)).
  lia.
Qed.

Lemma hex4_u_escape (cp : Z) :
  0 <= cp < 65536 ->
  json.hex4 (json.hex_digit (Z.land (Z.shiftr cp 12) 15))
            (json.hex_digit (Z.land (Z.shiftr cp 8) 15))
            (json.hex_digit (Z.land (Z.shiftr cp 4) 15))
            (json.hex_digit (Z.land cp 15)) = Some cp.
Proof.
  intros H. destruct (nibbles cp H) as (Ha & Hb & Hc & Hd & Hsum).
  unfold json.hex4. rewrite !hex_digit_value by assumption.
  now rewrite Hsum.
Qed.

(** A [\uXXXX] escape of a code point that is no high surrogate reads
    back as the UTF-8 form of the code point. *)
Lemma scanstring_u_escape (cp : Z) (t : string) :
  0 <= cp < 65536 -> json.is_high_surrogate cp = false ->
  json.scanstring (json.u_escape cp ++ t)
  = json.prepend (json.utf8_encode cp) (json.scanstring t).
Proof.
  intros Hcp Hhigh. unfold json.u_escape. cbn [append json.scanstring].
  change (ord "\" =? 34) with false. change (ord "\" =? 92) with true.
  change (ord "u" =? 117) with true. cbv iota.
  rewrite (hex4_u_escape cp Hcp). rewrite Hhigh. cbn [andb].
  destruct t as [|c1 [|c2 [|c3 [|c4 [|c5 [|c6 t]]]]]]; reflexivity.
Qed.

(** ** Strings: bit operations as arithmetic *)

Lemma lor_add (a b k : Z) :
  0 <= k -> 0 <= b < 2 ^ k -> Z.lor (a * 2 ^ k) b = a * 2 ^ k + b.
Proof.
  intros Hk Hb.
  assert (Hland : Z.land (a * 2 ^ k) b = 0).
  { rewrite <- Z.shiftl_mul_pow2 by lia.
    apply Z.bits_inj'. intros i Hi. rewrite Z.land_spec, Z.bits_0.
    destruct (Z.lt_ge_cases i k) as [Hlt|Hge].
    - now rewrite Z.shiftl_spec_low.
    - destruct (Z.eq_dec b 0) as [->|Hnz].
      + now rewrite Z.bits_0, Bool.andb_false_r.
      + rewrite (Z.bits_above_log2 b i), Bool.andb_false_r; [reflexivity|lia|].
        assert (Z.log2 b < k) by (apply Z.log2_lt_pow2; lia). lia. }
  rewrite <- Z.lxor_lor by assumption.
  now rewrite Z.add_nocarry_lxor.
Qed.

Lemma land_63 (x : Z) : Z.land x 63 = x mod 64.
Proof. change 63 with (Z.ones 6). now rewrite Z.land_ones. Qed.

Lemma land_31 (x : Z) : Z.land x 31 = x mod 32.
Proof. change 31 with (Z.ones 5). now rewrite Z.land_ones. Qed.

Lemma land_15 (x : Z) : Z.land x 15 = x mod 16.
Proof. change 15 with (Z.ones 4). now rewrite Z.land_ones. Qed.

Lemma land_7 (x : Z) : Z.land x 7 = x mod 8.
Proof. change 7 with (Z.ones 3). now rewrite Z.land_ones. Qed.

Lemma land_1023 (x : Z) : Z.land x 1023 = x mod 1024.
Proof. change 1023 with (Z.ones 10). now rewrite Z.land_ones. Qed.

Lemma shiftr_6 (x : Z) : Z.shiftr x 6 = x / 64.
Proof. now rewrite Z.shiftr_div_pow2. Qed.

Lemma shiftr_10 (x : Z) : Z.shiftr x 10 = x / 1024.
Proof. now rewrite Z.shiftr_div_pow2. Qed.

Lemma shiftr_12 (x : Z) : Z.shiftr x 12 = x / 4096.
Proof. now rewrite Z.shiftr_div_pow2. Qed.

Lemma shiftr_18 (x : Z) : Z.shiftr x 18 = x / 262144.
Proof. now rewrite Z.shiftr_div_pow2. Qed.

Lemma lor_128 (b : Z) : 0 <= b < 64 -> Z.lor 128 b = 128 + b.
Proof. intros H. apply (lor_add 2 b 6); [lia | now change (2 ^ 6) with 64]. Qed.

Lemma lor_192 (b : Z) : 0 <= b < 32 -> Z.lor 192 b = 192 + b.
Proof. intros H. apply (lor_add 6 b 5); [lia | now change (2 ^ 5) with 32]. Qed.

Lemma lor_224 (b : Z) : 0 <= b < 16 -> Z.lor 224 b = 224 + b.
Proof. intros H. apply (lor_add 14 b 4); [lia | now change (2 ^ 4) with 16]. Qed.

Lemma lor_240 (b : Z) : 0 <= b < 8 -> Z.lor 240 b = 240 + b.
Proof. intros H. apply (lor_add 30 b 3); [lia | now change (2 ^ 3) with 8]. Qed.

Lemma lor_55296 (b : Z) : 0 <= b < 1024 -> Z.lor 55296 b = 55296 + b.
Proof. intros H. apply (lor_add 54 b 10); [lia | now change (2 ^ 10) with 1024]. Qed.

Lemma lor_56320 (b : Z) : 0 <= b < 1024 -> Z.lor 56320 b = 56320 + b.
Proof. intros H. apply (lor_add 55 b 10); [lia | now change (2 ^ 10) with 1024]. Qed.

Lemma lor_shiftl_10 (a b : Z) :
  0 <= b < 1024 -> Z.lor (Z.shiftl a 10) b = 1024 * a + b.
Proof.
  intros H. rewrite Z.shiftl_mul_pow2 by lia.
  rewrite (lor_add a b 10) by (change (2 ^ 10) with 1024; lia).
  change (2 ^ 10) with 1024. lia.
Qed.

(** The code point of a two-byte sequence and its encoding. *)
Lemma utf8_two (n n1 : Z) :
  194 <= n < 224 -> 128 <= n1 < 192 ->
  let cp := 64 * Z.land n 31 + Z.land n1 63 in
  128 <= cp < 2048
  /\ Z.lor 192 (Z.shiftr cp 6) = n
  /\ Z.lor 128 (Z.land cp 63) = n1.
Proof.
  intros Hn Hn1. cbv zeta. rewrite land_31, (land_63 n1).
  assert (Ha : n mod 32 = n - 192) by (Z.div_mod_to_equations; lia).
  assert (Hb : n1 mod 64 = n1 - 128) by (Z.div_mod_to_equations; lia).
  rewrite Ha, Hb. set (cp := 64 * (n - 192) + (n1 - 128)).
  rewrite shiftr_6, land_63.
  assert (Hq : cp / 64 = n - 192) by (subst cp; Z.div_mod_to_equations; lia).
  assert (Hr : cp mod 64 = n1 - 128) by (subst cp; Z.div_mod_to_equations; lia).
  rewrite Hq, Hr, lor_192, lor_128 by lia. subst cp. lia.
Qed.

(** The code point of a three-byte sequence and its encoding. *)
Lemma utf8_three (n n1 n2 : Z) :
  224 <= n < 240 -> 128 <= n1 < 192 -> 128 <= n2 < 192 ->
  (n = 224 -> 160 <= n1) ->
  let cp := 64 * (64 * Z.land n 15 + Z.land n1 63) + Z.land n2 63 in
  2048 <= cp < 65536
  /\ (n <= 237 -> (n = 237 -> n1 <= 159) -> cp < 55296)
  /\ (238 <= n -> 57344 <= cp)
  /\ Z.lor 224 (Z.shiftr cp 12) = n
  /\ Z.lor 128 (Z.land (Z.shiftr cp 6) 63) = n1
  /\ Z.lor 128 (Z.land cp 63) = n2.
Proof.
  intros Hn Hn1 Hn2 Hlow. cbv zeta. rewrite land_15, (land_63 n1), (land_63 n2).
  assert (Ha : n mod 16 = n - 224) by (Z.div_mod_to_equations; lia).
  assert (Hb : n1 mod 64 = n1 - 128) by (Z.div_mod_to_equations; lia).
  assert (Hc : n2 mod 64 = n2 - 128) by (Z.div_mod_to_equations; lia).
  rewrite Ha, Hb, Hc.
  set (cp := 64 * (64 * (n - 224) + (n1 - 128)) + (n2 - 128)).
  rewrite shiftr_12, shiftr_6, !land_63.
  assert (Hq : cp / 4096 = n - 224) by (subst cp; Z.div_mod_to_equations; lia).
  assert (Hm : (cp / 64) mod 64 = n1 - 128)
    by (subst cp; Z.div_mod_to_equations; lia).
  assert (Hr : cp mod 64 = n2 - 128) by (subst cp; Z.div_mod_to_equations; lia).
  rewrite Hq, Hm, Hr, lor_224, !lor_128 by lia. subst cp. lia.
Qed.

(** The code point of a four-byte sequence, its surrogate pair and its
    encoding. *)
Lemma utf8_four (n n1 n2 n3 : Z) :
  240 <= n <= 244 -> 128 <= n1 < 192 -> 128 <= n2 < 192 -> 128 <= n3 < 192 ->
  (n = 240 -> 144 <= n1) -> (n = 244 -> n1 <= 143) ->
  let cp := 64 * (64 * (64 * Z.land n 7 + Z.land n1 63) + Z.land n2 63)
            + Z.land n3 63 in
  let hi := Z.lor 55296 (Z.land (Z.shiftr (cp - 65536) 10) 1023) in
  let lo := Z.lor 56320 (Z.land (cp - 65536) 1023) in
  65536 <= cp < 1114112
  /\ 55296 <= hi <= 56319
  /\ 56320 <= lo <= 57343
  /\ 65536 + Z.lor (Z.shiftl (hi - 55296) 10) (lo - 56320) = cp
  /\ Z.lor 240 (Z.shiftr cp 18) = n
  /\ Z.lor 128 (Z.land (Z.shiftr cp 12) 63) = n1
  /\ Z.lor 128 (Z.land (Z.shiftr cp 6) 63) = n2
  /\ Z.lor 128 (Z.land cp 63) = n3.
Proof.
  intros Hn Hn1 Hn2 Hn3 Hlow Hhigh. cbv zeta.
  rewrite land_7, (land_63 n1), (land_63 n2), (land_63 n3).
  assert (Ha : n mod 8 = n - 240) by (Z.div_mod_to_equations; lia).
  assert (Hb : n1 mod 64 = n1 - 128) by (Z.div_mod_to_equations; lia).
  assert (Hc : n2 mod 64 = n2 - 128) by (Z.div_mod_to_equations; lia).
  assert (Hd : n3 mod 64 = n3 - 128) by (Z.div_mod_to_equations; lia).
  rewrite Ha, Hb, Hc, Hd.
  set (cp := 64 * (64 * (64 * (n - 240) + (n1 - 128)) + (n2 - 128)) + (n3 - 128)).
  assert (Hcp : 65536 <= cp < 1114112) by (subst cp; lia).
  rewrite shiftr_18, shiftr_12, shiftr_10, shiftr_6, !land_63, !land_1023.
  assert (Hq : cp / 262144 = n - 240) by (subst cp; Z.div_mod_to_equations; lia).
  assert (Hm1 : (cp / 4096) mod 64 = n1 - 128)
    by (subst cp; Z.div_mod_to_equations; lia).
  assert (Hm2 : (cp / 64) mod 64 = n2 - 128)
    by (subst cp; Z.div_mod_to_equations; lia).
  assert (Hr : cp mod 64 = n3 - 128) by (subst cp; Z.div_mod_to_equations; lia).
  rewrite Hq, Hm1, Hm2, Hr, lor_240, !lor_128 by lia.
  set (v := cp - 65536) in *.
  assert (Hv : 0 <= v < 1048576) by (subst v; lia).
  assert (Hvq : 0 <= v / 1024 < 1024) by (Z.div_mod_to_equations; lia).
  rewrite (Z.mod_small (v / 1024) 1024) by lia.
  assert (Hvr : 0 <= v mod 1024 < 1024) by (apply Z.mod_pos_bound; lia).
  rewrite lor_55296, lor_56320 by lia.
  replace (55296 + v / 1024 - 55296) with (v / 1024) by lia.
  replace (56320 + v mod 1024 - 56320) with (v mod 1024) by lia.
  rewrite lor_shiftl_10 by lia.
  pose proof (Z.div_mod v 1024 ltac:(lia)).
  repeat split; lia.
Qed.

(** ** Strings: one character reads back *)

Lemma utf8_cont_range (c : ascii) : utf8_cont c = true -> 128 <= ord c < 192.
Proof. unfold utf8_cont. lia. Qed.

Lemma scanstring_plain (c : ascii) (t : string) :
  32 <= ord c -> ord c <> 34 -> ord c <> 92 ->
  json.scanstring (String c t) = json.prepend (String c "") (json.scanstring t).
Proof.
  intros H1 H2 H3. cbn [json.scanstring].
  rewrite (proj2 (Z.eqb_neq _ _) H2), (proj2 (Z.eqb_neq _ _) H3).
  now rewrite (proj2 (Z.ltb_ge _ _) H1).
Qed.

(** Outside the short escapes and the printable range a character is
    written by its code point. *)
Lemma escape_char_code_point (c : ascii) (t : string) :
  ord c <> 34 -> ord c <> 92 -> ord c <> 10 -> ord c <> 13 -> ord c <> 9 ->
  ord c <> 12 -> ord c <> 8 -> (ord c < 32 \/ 126 < ord c) ->
  json.escape_char c t =
  if json.code_point c t <? 65536 then json.u_escape (json.code_point c t)
  else json.u_escape
         (Z.lor 55296 (Z.land (Z.shiftr (json.code_point c t - 65536) 10) 1023))
       ++ json.u_escape (Z.lor 56320 (Z.land (json.code_point c t - 65536) 1023)).
Proof.
  intros H34 H92 H10 H13 H9 H12 H8 Hout. unfold json.escape_char.
  rewrite (proj2 (Z.eqb_neq _ _) H34), (proj2 (Z.eqb_neq _ _) H92),
    (proj2 (Z.eqb_neq _ _) H10), (proj2 (Z.eqb_neq _ _) H13),
    (proj2 (Z.eqb_neq _ _) H9), (proj2 (Z.eqb_neq _ _) H12),
    (proj2 (Z.eqb_neq _ _) H8).
  replace ((32 <=? ord c) && (ord c <=? 126)) with false by lia.
  reflexivity.
Qed.

Lemma scanstring_surrogates (hi lo : Z) (t : string) :
  json.is_high_surrogate hi = true -> json.is_low_surrogate lo = true ->
  json.scanstring (json.u_escape hi ++ json.u_escape lo ++ t)
  = json.prepend
      (json.utf8_encode (65536 + Z.lor (Z.shiftl (hi - 55296) 10) (lo - 56320)))
      (json.scanstring t).
Proof.
  intros Hhi Hlo.
  assert (Hh : 0 <= hi < 65536) by (unfold json.is_high_surrogate in Hhi; lia).
  assert (Hl : 0 <= lo < 65536) by (unfold json.is_low_surrogate in Hlo; lia).
  unfold json.u_escape. cbn [append json.scanstring].
  change (ord "\" =? 34) with false. change (ord "\" =? 92) with true.
  change (ord "u" =? 117) with true. cbv iota.
  rewrite (hex4_u_escape hi Hh). rewrite Hhi. cbn [andb].
  rewrite (hex4_u_escape lo Hl). now rewrite Hlo.
Qed.

Lemma chunk_one (c : ascii) :
  ord c < 128 -> chunk_reads_back (String c "").
Proof.
  intros Hc t. pose proof (ord_range c) as Hr.
  pose proof (chr_ord c) as Hchr.
  cbn [json.escape_chunk].
  destruct (Z.eq_dec (ord c) 34) as [E|H34];
    [rewrite E in Hchr; subst c; reflexivity|].
  destruct (Z.eq_dec (ord c) 92) as [E|H92];
    [rewrite E in Hchr; subst c; reflexivity|].
  destruct (Z.eq_dec (ord c) 10) as [E|H10];
    [rewrite E in Hchr; subst c; reflexivity|].
  destruct (Z.eq_dec (ord c) 13) as [E|H13];
    [rewrite E in Hchr; subst c; reflexivity|].
  destruct (Z.eq_dec (ord c) 9) as [E|H9];
    [rewrite E in Hchr; subst c; reflexivity|].
  destruct (Z.eq_dec (ord c) 12) as [E|H12];
    [rewrite E in Hchr; subst c; reflexivity|].
  destruct (Z.eq_dec (ord c) 8) as [E|H8];
    [rewrite E in Hchr; subst c; reflexivity|].
  destruct (Z_lt_le_dec (ord c) 32) as [Hlow|Hge];
    [|destruct (Z_le_gt_dec (ord c) 126) as [Hle|Hgt]].
  - rewrite escape_char_code_point by (try assumption; now left).
    assert (Hcp : json.code_point c "" = ord c).
    { unfold json.code_point, utf8_trail.
      replace (ord c <? 192) with true by lia. reflexivity. }
    rewrite Hcp. replace (ord c <? 65536) with true by lia.
    rewrite scanstring_u_escape; [|lia|unfold json.is_high_surrogate; lia].
    unfold json.utf8_encode. replace (ord c <? 128) with true by lia.
    now rewrite Hchr.
  - unfold json.escape_char.
    rewrite (proj2 (Z.eqb_neq _ _) H34), (proj2 (Z.eqb_neq _ _) H92),
      (proj2 (Z.eqb_neq _ _) H10), (proj2 (Z.eqb_neq _ _) H13),
      (proj2 (Z.eqb_neq _ _) H9), (proj2 (Z.eqb_neq _ _) H12),
      (proj2 (Z.eqb_neq _ _) H8).
    replace ((32 <=? ord c) && (ord c <=? 126)) with true by lia.
    cbn [append]. apply scanstring_plain; assumption.
  - rewrite escape_char_code_point by (try lia; now right).
    assert (Hcp : json.code_point c "" = ord c).
    { unfold json.code_point, utf8_trail.
      replace (ord c <? 192) with true by lia. reflexivity. }
    rewrite Hcp. replace (ord c <? 65536) with true by lia.
    rewrite scanstring_u_escape; [|lia|unfold json.is_high_surrogate; lia].
    unfold json.utf8_encode. replace (ord c <? 128) with true by lia.
    now rewrite Hchr.
Qed.

Lemma chunk_two (c c1 : ascii) :
  194 <= ord c < 224 -> utf8_cont c1 = true ->
  chunk_reads_back (String c (String c1 "")).
Proof.
  intros Hc Hc1 t. apply utf8_cont_range in Hc1.
  cbn [json.escape_chunk].
  rewrite escape_char_code_point by (try lia; right; lia).
  assert (Hcp : json.code_point c (String c1 "")
                = 64 * Z.land (ord c) 31 + Z.land (ord c1) 63).
  { unfold json.code_point, utf8_trail.
    replace (ord c <? 192) with false by lia.
    replace (ord c <? 224) with true by lia. reflexivity. }
  rewrite Hcp.
  destruct (utf8_two (ord c) (ord c1) Hc Hc1) as (Hr & H0 & H1).
  set (cp := 64 * Z.land (ord c) 31 + Z.land (ord c1) 63) in *.
  replace (cp <? 65536) with true by lia.
  rewrite scanstring_u_escape; [|lia|unfold json.is_high_surrogate; lia].
  unfold json.utf8_encode.
  replace (cp <? 128) with false by lia. replace (cp <? 2048) with true by lia.
  now rewrite H0, H1, !chr_ord.
Qed.

Lemma chunk_three (c c1 c2 : ascii) :
  224 <= ord c < 240 -> utf8_cont c1 = true -> utf8_cont c2 = true ->
  (ord c = 224 -> 160 <= ord c1) -> (ord c = 237 -> ord c1 <= 159) ->
  chunk_reads_back (String c (String c1 (String c2 ""))).
Proof.
  intros Hc Hc1 Hc2 Hlow Hsur t.
  apply utf8_cont_range in Hc1. apply utf8_cont_range in Hc2.
  cbn [json.escape_chunk].
  rewrite escape_char_code_point by (try lia; right; lia).
  assert (Hcp : json.code_point c (String c1 (String c2 ""))
                = 64 * (64 * Z.land (ord c) 15 + Z.land (ord c1) 63)
                  + Z.land (ord c2) 63).
  { unfold json.code_point, utf8_trail.
    replace (ord c <? 192) with false by lia.
    replace (ord c <? 224) with false by lia.
    replace (ord c <? 240) with true by lia. reflexivity. }
  rewrite Hcp.
  destruct (utf8_three (ord c) (ord c1) (ord c2) Hc Hc1 Hc2 Hlow)
    as (Hr & Hb & Ha & H0 & H1 & H2).
  set (cp := 64 * (64 * Z.land (ord c) 15 + Z.land (ord c1) 63)
             + Z.land (ord c2) 63) in *.
  replace (cp <? 65536) with true by lia.
  assert (Hout : cp < 55296 \/ 57344 <= cp)
    by (destruct (Z_le_gt_dec (ord c) 237); [left; apply Hb|right; apply Ha]; lia).
  rewrite scanstring_u_escape; [|lia|unfold json.is_high_surrogate; lia].
  unfold json.utf8_encode.
  replace (cp <? 128) with false by lia. replace (cp <? 2048) with false by lia.
  replace (cp <? 65536) with true by lia.
  now rewrite H0, H1, H2, !chr_ord.
Qed.

Lemma chunk_four (c c1 c2 c3 : ascii) :
  240 <= ord c <= 244 ->
  utf8_cont c1 = true -> utf8_cont c2 = true -> utf8_cont c3 = true ->
  (ord c = 240 -> 144 <= ord c1) -> (ord c = 244 -> ord c1 <= 143) ->
  chunk_reads_back (String c (String c1 (String c2 (String c3 "")))).
Proof.
  intros Hc Hc1 Hc2 Hc3 Hlow Hhigh t.
  apply utf8_cont_range in Hc1. apply utf8_cont_range in Hc2.
  apply utf8_cont_range in Hc3.
  cbn [json.escape_chunk].
  rewrite escape_char_code_point by (try lia; right; lia).
  assert (Hcp : json.code_point c (String c1 (String c2 (String c3 "")))
                = 64 * (64 * (64 * Z.land (ord c) 7 + Z.land (ord c1) 63)
                        + Z.land (ord c2) 63) + Z.land (ord c3) 63).
  { unfold json.code_point, utf8_trail.
    replace (ord c <? 192) with false by lia.
    replace (ord c <? 224) with false by lia.
    replace (ord c <? 240) with false by lia. reflexivity. }
  rewrite Hcp.
  destruct (utf8_four (ord c) (ord c1) (ord c2) (ord c3) Hc Hc1 Hc2 Hc3 Hlow Hhigh)
    as (Hr & Hhi & Hlo & Hback & H0 & H1 & H2 & H3).
  set (cp := 64 * (64 * (64 * Z.land (ord c) 7 + Z.land (ord c1) 63)
                   + Z.land (ord c2) 63) + Z.land (ord c3) 63) in *.
  replace (cp <? 65536) with false by lia.
  rewrite append_assoc.
  rewrite scanstring_surrogates;
    [|unfold json.is_high_surrogate; lia|unfold json.is_low_surrogate; lia].
  rewrite Hback. unfold json.utf8_encode.
  replace (cp <? 128) with false by lia. replace (cp <? 2048) with false by lia.
  replace (cp <? 65536) with false by lia.
  now rewrite H0, H1, H2, H3, !chr_ord.
Qed.

(** Every character of a str reads back from its escaped form. *)
Lemma utf8_char_reads_back (ch : string) :
  utf8_char ch = true -> chunk_reads_back ch.
Proof.
  destruct ch as [|c [|c1 [|c2 [|c3 [|c4 ch]]]]]; cbn [utf8_char];
    try discriminate; intros H.
  - apply chunk_one. lia.
  - apply chunk_two; [lia|]. now destruct (utf8_cont c1); [|rewrite Bool.andb_false_r in H].
  - destruct (utf8_cont c1) eqn:E1; [|rewrite !Bool.andb_false_r in H; discriminate].
    destruct (utf8_cont c2) eqn:E2;
      [|rewrite ?Bool.andb_false_r in H; cbn in H; discriminate].
    apply chunk_three; try assumption; try lia.
    + intros E. rewrite E in H. cbn in H. lia.
    + intros E. rewrite E in H. cbn in H. lia.
  - destruct (utf8_cont c1) eqn:E1; [|rewrite !Bool.andb_false_r in H; discriminate].
    destruct (utf8_cont c2) eqn:E2;
      [|rewrite ?Bool.andb_false_r in H; cbn in H; discriminate].
    destruct (utf8_cont c3) eqn:E3;
      [|rewrite ?Bool.andb_false_r in H; cbn in H; discriminate].
    apply chunk_four; try assumption; try lia.
    + intros E. rewrite E in H. cbn in H. lia.
    + intros E. rewrite E in H. cbn in H. lia.
Qed.

(** ** Strings: a str reads back *)

Lemma concat_cons (x : string) (l : list string) :
  String.concat "" (x :: l) = x ++ String.concat "" l.
Proof.
  destruct l as [|y l]; cbn [String.concat]; [now rewrite append_nil_r|reflexivity].
Qed.

Lemma chunks_read_back (chunks : list string) (rest : string) :
  Forall chunk_reads_back chunks ->
  json.scanstring (String.concat "" (map json.escape_chunk chunks)
                   ++ json.dquote ++ rest)
  = Some (String.concat "" chunks, rest).
Proof.
  intros H; induction H as [|ch chunks Hch Hrest IH].
  - reflexivity.
  - cbn [map]. rewrite !concat_cons, append_assoc, Hch, IH. reflexivity.
Qed.

Lemma split_at_spec (k : nat) (s : string) :
  fst (split_at k s) ++ snd (split_at k s) = s
  /\ (String.length (snd (split_at k s)) <= String.length s)%nat.
Proof.
  revert s. induction k as [|k IH]; intros [|c s];
    try (cbn [split_at fst snd append]; split; [reflexivity|lia]).
  cbn [split_at]. specialize (IH s). destruct (split_at k s) as [t r].
  cbn [fst snd append] in *.
  destruct IH as [-> Hlen]. split; [reflexivity|cbn [String.length]; lia].
Qed.

(** The characters of a str, put together again, are the str. *)
Lemma py_str_chars_concat (s : string) :
  String.concat "" (py_str_chars s) = s.
Proof.
  unfold py_str_chars.
  assert (H : forall fuel s, (String.length s <= fuel)%nat ->
                String.concat "" (py_str_chars_fuel fuel s) = s).
  { clear s. induction fuel as [|fuel IH]; intros [|c s] Hlen;
      try reflexivity; [cbn [String.length] in Hlen; lia|].
    cbn [py_str_chars_fuel].
    destruct (split_at_spec (utf8_trail c) s) as [Happ Hle].
    destruct (split_at (utf8_trail c) s) as [t r]. cbn [fst snd] in *.
    rewrite concat_cons, IH by (cbn [String.length] in Hlen; lia).
    cbn [append]. now rewrite Happ. }
  now apply H.
Qed.

Lemma byte_ord_of_ascii (c : ascii) : byte_ord (byte_of_ascii c) = ord c.
Proof.
  destruct c as [[] [] [] [] [] [] [] []]; reflexivity.
Qed.

Lemma is_cont_of_ascii (c : ascii) : is_cont (byte_of_ascii c) = utf8_cont c.
Proof. unfold is_cont, utf8_cont. now rewrite byte_ord_of_ascii. Qed.

Lemma list_byte_of_string_cons (c : ascii) (s : string) :
  list_byte_of_string (String c s) = byte_of_ascii c :: list_byte_of_string s.
Proof. reflexivity. Qed.

(** The characters of a str that [bytes.decode] accepts are well-formed
    UTF-8 sequences. *)
Lemma well_formed_chars (fuel : nat) :
  forall s, (String.length s <= fuel)%nat -> well_formed s ->
            Forall (fun ch => utf8_char ch = true) (py_str_chars_fuel fuel s).
Proof.
  unfold well_formed.
  induction fuel as [|fuel IH]; intros [|c s] Hlen Hs;
    try (cbn [py_str_chars_fuel]; constructor; fail);
    try (cbn [String.length] in Hlen; lia).
  cbn [py_str_chars_fuel]. unfold utf8_trail.
  rewrite list_byte_of_string_cons in Hs. cbn [utf8_valid] in Hs.
  rewrite byte_ord_of_ascii in Hs. cbn [String.length] in Hlen.
  destruct (ord c <? 128) eqn:E128.
  { replace (ord c <? 192) with true by lia. cbn [split_at].
    constructor; [exact E128 | apply IH; [lia|exact Hs]]. }
  destruct (ord c <? 194) eqn:E194; [discriminate|].
  replace (ord c <? 192) with false by lia.
  destruct s as [|c1 s]; [discriminate|].
  rewrite list_byte_of_string_cons in Hs. rewrite is_cont_of_ascii in Hs.
  cbn [String.length] in Hlen.
  destruct (ord c <? 224) eqn:E224.
  { cbn [split_at]. apply andb_prop in Hs as [Hc Hs].
    constructor; [cbn [utf8_char]; rewrite Hc; lia | apply IH; [lia|exact Hs]]. }
  destruct s as [|c2 s]; [discriminate|].
  rewrite list_byte_of_string_cons in Hs. rewrite is_cont_of_ascii in Hs.
  rewrite byte_ord_of_ascii in Hs. cbn [String.length] in Hlen.
  destruct (ord c <? 240) eqn:E240.
  { cbn [split_at]. apply andb_prop in Hs as [Hc Hs].
    constructor; [|apply IH; [lia|exact Hs]].
    apply andb_prop in Hc as [Hc Hy]. apply andb_prop in Hc as [Hc Hx].
    apply andb_prop in Hc as [Hc1 Hc2].
    cbn [utf8_char]. rewrite Hc1, Hc2, Hx, Hy, E240.
    replace (224 <=? ord c) with true by lia. reflexivity. }
  destruct s as [|c3 s]; [discriminate|].
  rewrite list_byte_of_string_cons in Hs. rewrite is_cont_of_ascii in Hs.
  cbn [String.length] in Hlen.
  cbn [split_at]. apply andb_prop in Hs as [Hc Hs].
  constructor; [|apply IH; [lia|exact Hs]].
  apply andb_prop in Hc as [Hc Hy]. apply andb_prop in Hc as [Hc Hx].
  apply andb_prop in Hc as [Hc Hc3]. apply andb_prop in Hc as [Hc Hc2].
  apply andb_prop in Hc as [Hle Hc1].
  cbn [utf8_char]. rewrite Hc1, Hc2, Hc3, Hx, Hy, Hle.
  replace (240 <=? ord c) with true by lia. reflexivity.
Qed.

(** Every str reads back from its escaped form. *)
Lemma well_formed_reads_back (s : string) :
  well_formed s -> str_reads_back s.
Proof.
  intros Hs rest. unfold escape_body.
  rewrite chunks_read_back.
  - now rewrite py_str_chars_concat.
  - apply Forall_impl with (P := fun ch => utf8_char ch = true).
    + apply utf8_char_reads_back.
    + now apply well_formed_chars.
Qed.

(** ** Round trips through JSON text *)

Lemma json_data_ok (v : pyval) : json_data v -> json_ok v.
Proof.
  induction v as [| | | |s|l IH|l IH|d IH] using pyval_nested_ind;
    cbn [json_data json_ok]; try tauto.
  - apply well_formed_reads_back.
  - induction IH as [|x l Hx Hl IHl]; [tauto|]. intros [H1 H2].
    split; [exact (Hx H1) | exact (IHl H2)].
  - induction IH as [|x l Hx Hl IHl]; [tauto|]. intros [H1 H2].
    split; [exact (Hx H1) | exact (IHl H2)].
  - intros [Hnd H]. split; [exact Hnd|]. clear Hnd.
    induction IH as [|[k x] d Hx Hd IHd]; [tauto|].
    destruct H as (Hk & H1 & H2). cbn [snd] in Hx.
    split; [now apply well_formed_reads_back|].
    split; [exact (Hx H1) | exact (IHd H2)].
Qed.

(** What a style dumps is JSON data, whatever the style. *)
Lemma json_data_style_dump (s : TextStyle) :
  json_data (VDict (TextStyle_dump s)).
Proof.
  destruct s as [st c]. unfold TextStyle_dump, TextStyleSchema.dump.
  cbn [marshmallow.data color style TextStyleField._serialize].
  rewrite style_list_bits.
  destruct c as [[[f|f] [b|]]|];
    cbn [ColorField._serialize pyval_of_pyint fg bg app map fst];
    destruct (Z.testbit st 1), (Z.testbit st 2), (Z.testbit st 3);
    cbn [json_data app map fst];
    (split; [repeat constructor; cbn [In]; intuition discriminate|]);
    repeat split; reflexivity.
Qed.

Lemma mtype_well_formed (s : string) :
  In s MessageSchema.mtype_choices -> well_formed s.
Proof.
  cbn [MessageSchema.mtype_choices In].
  intros H. repeat (destruct H as [<-|H]; [reflexivity|]). contradiction.
Qed.

Lemma json_data_optional (o : option string) :
  well_formed_opt o -> json_data (marshmallow.fields.String._serialize o).
Proof. destruct o; cbn; tauto. Qed.

Lemma json_data_runs (runs : RichText) :
  Forall (fun run => json_data (snd run)) runs ->
  json_data (VList (map run_dump runs)).
Proof.
  cbn [json_data]. induction 1 as [|run runs Hrun _ IH]; cbn [map]; [exact I|].
  split; [|exact IH]. unfold run_dump. cbn [json_data].
  split; [apply (json_data_style_dump (fst run))|]. split; [exact Hrun|exact I].
Qed.

(** What a well-formed message dumps. *)
Lemma MessageSchema_dump_valid (m : Message) :
  valid_Message m ->
  MessageSchema.dump m
  = Returned
      {| marshmallow.data :=
           [("channel", VStr (channel m)); ("sender", VStr (sender m));
            ("receiver", VStr (receiver m)); ("mtype", VStr (mtype m));
            ("media_url", marshmallow.fields.String._serialize (media_url m));
            ("content", VStr (content m));
            ("rich_text", match rich_text m with
                          | Some runs => VList (map run_dump runs)
                          | None => VNone
                          end);
            ("date", marshmallow.fields.String._serialize (date m));
            ("time", marshmallow.fields.String._serialize (time m));
            ("botmsg", VBool (botmsg m));
            ("room", marshmallow.fields.String._serialize (room m));
            ("opt", VDict (opt m))];
         marshmallow.errs := [] |}.
Proof.
  intros (_ & Hruns & _). unfold MessageSchema.dump.
  destruct (rich_text m) as [runs|].
  - now rewrite (RichTextField_serialize_valid runs (Hruns runs eq_refl)).
  - reflexivity.
Qed.

Lemma json_data_message (m : Message) :
  In (mtype m) MessageSchema.mtype_choices -> well_formed_Message m ->
  json_data
    (VDict
       [("channel", VStr (channel m)); ("sender", VStr (sender m));
        ("receiver", VStr (receiver m)); ("mtype", VStr (mtype m));
        ("media_url", marshmallow.fields.String._serialize (media_url m));
        ("content", VStr (content m));
        ("rich_text", match rich_text m with
                      | Some runs => VList (map run_dump runs)
                      | None => VNone
                      end);
        ("date", marshmallow.fields.String._serialize (date m));
        ("time", marshmallow.fields.String._serialize (time m));
        ("botmsg", VBool (botmsg m));
        ("room", marshmallow.fields.String._serialize (room m));
        ("opt", VDict (opt m))]).
Proof.
  intros Hmt (Hch & Hsd & Hrc & Hct & Hmu & Hdt & Htm & Hrm & Hruns & Hopt).
  assert (Hrt : json_data match rich_text m with
                          | Some runs => VList (map run_dump runs)
                          | None => VNone
                          end).
  { destruct (rich_text m) as [runs|]; [|exact I].
    apply json_data_runs. now apply Hruns. }
  apply json_data_optional in Hmu, Hdt, Htm, Hrm.
  apply mtype_well_formed in Hmt.
  generalize dependent (match rich_text m with
                        | Some runs => VList (map run_dump runs)
                        | None => VNone
                        end).
  generalize dependent (marshmallow.fields.String._serialize (media_url m)).
  generalize dependent (marshmallow.fields.String._serialize (date m)).
  generalize dependent (marshmallow.fields.String._serialize (time m)).
  generalize dependent (marshmallow.fields.String._serialize (room m)).
  generalize dependent (VDict (opt m)).
  intros o Ho rm' Hrm' tm' Htm' dt' Hdt' mu' Hmu' rt' Hrt'.
  change (NoDup schema_keys
          /\ (well_formed "channel" /\ well_formed (channel m)
              /\ well_formed "sender" /\ well_formed (sender m)
              /\ well_formed "receiver" /\ well_formed (receiver m)
              /\ well_formed "mtype" /\ well_formed (mtype m)
              /\ well_formed "media_url" /\ json_data mu'
              /\ well_formed "content" /\ well_formed (content m)
              /\ well_formed "rich_text" /\ json_data rt'
              /\ well_formed "date" /\ json_data dt'
              /\ well_formed "time" /\ json_data tm'
              /\ well_formed "botmsg" /\ True
              /\ well_formed "room" /\ json_data rm'
              /\ well_formed "opt" /\ json_data o /\ True)).
  split.
  - unfold schema_keys. repeat constructor; cbn [In]; intuition discriminate.
  - repeat split; assumption || reflexivity.
Qed.

(** X19: A style survives [dumps] followed by [loads]: for every style
    value of the data model whose color, if any, carries a background and
    has an int for its foreground, [TextStyle.loads(s.dumps())] returns
    the style [s] itself. *)
Theorem X19_style_json_roundtrip (s : TextStyle) :
  valid_TextStyle s -> has_bg (color s) -> int_fg (color s) ->
  TextStyle_loads (Str (TextStyle_dumps s)) = Returned s.
Proof.
  intros Hvalid Hbg Hfg. unfold TextStyle_loads, TextStyle_dumps. cbn [bind].
  change (marshmallow.data (TextStyleSchema.dump s)) with (TextStyle_dump s).
  rewrite (json_loads_dumps _ (json_data_ok _ (json_data_style_dump s))).
  cbn [bind]. exact (TextStyle_roundtrip_json s Hvalid Hbg Hfg).
Qed.

Lemma X19_witness :
  TextStyle_loads
    (Str (TextStyle_dumps
            (TextStyle.__init__ (Some (Color.__init__ 5 (Some 6))) 1 0 1 0)))
  = Returned (TextStyle.__init__ (Some (Color.__init__ 5 (Some 6))) 1 0 1 0).
Proof.
  apply (X19_style_json_roundtrip
           (TextStyle.__init__ (Some (Color.__init__ 5 (Some 6))) 1 0 1 0)).
  - unfold valid_TextStyle; simpl. split; [lia | split; congruence].
  - simpl. discriminate.
  - simpl. eexists; reflexivity.
Defined.

(** X20: A message survives [dumps] followed by [loads]: for every message
    of the data model (an enumerated [mtype], runs of well-formed styles
    whose colors carry a background and have an int for their foreground,
    [opt] without tuples) whose texts are strs and whose [opt] is JSON
    data without floats, [Message.loads(m.dumps())] returns the message
    [m] itself, whatever characters its texts contain. *)
Theorem X20_message_json_roundtrip (m : Message) :
  valid_Message m -> well_formed_Message m ->
  Message_roundtrip m = Returned m.
Proof.
  intros Hvalid Htext.
  apply (Message_roundtrip_valid m _ Hvalid (MessageSchema_dump_valid m Hvalid)).
  unfold json_roundtrips. cbn [marshmallow.data].
  apply json_loads_dumps, json_data_ok, json_data_message; [|exact Htext].
  now destruct Hvalid.
Qed.

Lemma X20_witness :
  Message_roundtrip unicode_message = Returned unicode_message.
Proof.
  apply (X20_message_json_roundtrip unicode_message).
  - unfold valid_Message. split; [simpl; tauto|]. split; [|reflexivity].
    intros runs H; injection H as <-. constructor; [|constructor].
    unfold valid_run, valid_TextStyle; simpl.
    repeat split; try lia; try discriminate; eexists; reflexivity.
  - unfold well_formed_Message, well_formed.
    repeat split; try (vm_compute; reflexivity).
    + intros runs H; injection H as <-.
      constructor; [vm_compute; reflexivity|constructor].
    + cbn. repeat constructor; cbn [In]; intuition discriminate.
Defined.

(** ** The wire text is ASCII *)

Lemma is_ascii_append (a b : string) :
  is_ascii (a ++ b) = is_ascii a && is_ascii b.
Proof.
  induction a as [|c a IH]; cbn [append is_ascii]; [reflexivity|].
  now rewrite IH, Bool.andb_assoc.
Qed.

Lemma is_ascii_well_formed (s : string) : is_ascii s = true -> well_formed s.
Proof.
  unfold well_formed. induction s as [|c s IH]; cbn [is_ascii]; [reflexivity|].
  intros H. apply andb_prop in H as [Hc Hs].
  rewrite list_byte_of_string_cons. cbn [utf8_valid].
  rewrite byte_ord_of_ascii, Hc. now apply IH.
Qed.

Lemma hex_digit_ascii (x : Z) :
  (ord (json.hex_digit (Z.land x 15)) <? 128) = true.
Proof.
  rewrite land_15.
  apply (Z_range_forall (fun n => ord (json.hex_digit n) <? 128) 0 16);
    [vm_compute; reflexivity|].
  pose proof (Z.mod_pos_bound x 16 ltac:(lia)). lia.
Qed.

Lemma u_escape_ascii (cp : Z) : is_ascii (json.u_escape cp) = true.
Proof.
  unfold json.u_escape. cbn [is_ascii]. now rewrite !hex_digit_ascii.
Qed.

Lemma escape_chunk_ascii (ch : string) : is_ascii (json.escape_chunk ch) = true.
Proof.
  destruct ch as [|c t]; [reflexivity|]. cbn [json.escape_chunk].
  unfold json.escape_char.
  repeat match goal with
         | |- is_ascii (if ?n =? ?k then _ else _) = true =>
             destruct (n =? k); [reflexivity|]
         end.
  destruct ((32 <=? ord c) && (ord c <=? 126)) eqn:E.
  - cbn [is_ascii]. replace (ord c <? 128) with true by lia. reflexivity.
  - destruct (json.code_point c t <? 65536).
    + apply u_escape_ascii.
    + now rewrite is_ascii_append, !u_escape_ascii.
Qed.

Lemma concat_ascii (chunks : list string) :
  Forall (fun ch => is_ascii ch = true) chunks ->
  is_ascii (String.concat "" chunks) = true.
Proof.
  intros H. induction H as [|ch chunks Hch Hrest IH]; [reflexivity|].
  now rewrite concat_cons, is_ascii_append, Hch, IH.
Qed.

Lemma encode_basestring_ascii_ascii (s : string) :
  is_ascii (json.encode_basestring_ascii s) = true.
Proof.
  unfold json.encode_basestring_ascii. rewrite !is_ascii_append.
  rewrite concat_ascii; [reflexivity|].
  apply Forall_forall. intros ch Hin. apply in_map_iff in Hin.
  destruct Hin as (x & <- & _). apply escape_chunk_ascii.
Qed.

Lemma uint_ascii (d : Decimal.uint) :
  is_ascii (NilEmpty.string_of_uint d) = true.
Proof. induction d; cbn [NilEmpty.string_of_uint is_ascii]; auto. Qed.

Lemma py_str_of_int_ascii (n : Z) : is_ascii (py_str_of_int n) = true.
Proof.
  unfold py_str_of_int, NilZero.string_of_int.
  destruct (Z.to_int n) as [d|d]; unfold NilZero.string_of_uint;
    destruct d; try reflexivity; cbn [is_ascii];
    try apply (uint_ascii (Decimal.D0 d)); apply uint_ascii.
Qed.

Lemma py_join_ascii (sep : string) (l : list string) :
  is_ascii sep = true -> Forall (fun x => is_ascii x = true) l ->
  is_ascii (py_join sep l) = true.
Proof.
  intros Hsep H. induction H as [|x l Hx Hl IH]; [reflexivity|].
  destruct l as [|y l]; [exact Hx|].
  now rewrite py_join_cons, !is_ascii_append, Hx, Hsep, IH.
Qed.

Lemma zeros_ascii (n : nat) : is_ascii (float.zeros n) = true.
Proof. induction n as [|n IH]; [reflexivity | exact IH]. Qed.

Lemma substring_ascii (s : string) :
  is_ascii s = true -> forall n m, is_ascii (substring n m s) = true.
Proof.
  induction s as [|c s IH]; intros H n m.
  - destruct n, m; reflexivity.
  - cbn [is_ascii] in H. apply andb_prop in H as [Hc Hs].
    destruct n as [|n]; [destruct m as [|m]|]; cbn [substring is_ascii].
    + reflexivity.
    + now rewrite Hc, IH.
    + now apply IH.
Qed.

Lemma format_ascii (digits : string) (decpt : Z) :
  is_ascii digits = true -> is_ascii (float.format digits decpt) = true.
Proof.
  intros H. unfold float.format.
  destruct ((decpt <=? -4) || (16 <? decpt)).
  - assert (Hm : is_ascii match digits with
                          | String c "" => String c ""
                          | String c rest => String c ("." ++ rest)
                          | "" => ""
                          end = true).
    { destruct digits as [|c [|c' rest]]; [reflexivity | exact H |].
      cbn [is_ascii] in H |- *. apply andb_prop in H as [-> H].
      cbn [append is_ascii]. exact H. }
    rewrite !is_ascii_append, Hm, py_str_of_int_ascii.
    now destruct (decpt - 1 <? 0), (Z.abs (decpt - 1) <? 10).
  - destruct (decpt <=? 0).
    + now rewrite !is_ascii_append, zeros_ascii, H.
    + destruct (Z.of_nat (String.length digits) <=? decpt).
      * now rewrite !is_ascii_append, zeros_ascii, H.
      * now rewrite !is_ascii_append, !substring_ascii.
Qed.

Lemma floatstr_ascii (x : float) : is_ascii (json.floatstr x) = true.
Proof.
  destruct x as [[|]|[|]| |sgn m e]; try reflexivity.
  cbn [json.floatstr float.__repr__].
  assert (H : is_ascii (fst (float.shortest m e)) = true).
  { unfold float.shortest.
    destruct (float.shortest_from _ _ _ _ _ _ _ _) as [d k].
    destruct (float.strip_zeros _ d k) as [d' k'].
    cbn [fst]. apply py_str_of_int_ascii. }
  destruct (float.shortest m e) as [digits decpt]. cbn [fst] in H.
  rewrite is_ascii_append, format_ascii by exact H. now destruct sgn.
Qed.

(** Whatever the document, [json.dumps] writes ASCII. *)
Lemma dumps_ascii (doc : pyval) : is_ascii (json.dumps doc) = true.
Proof.
  induction doc as [|[]|n|x|s|l IH|l IH|d IH] using pyval_nested_ind;
    try reflexivity.
  - apply py_str_of_int_ascii.
  - apply floatstr_ascii.
  - apply encode_basestring_ascii_ascii.
  - cbn [json.dumps]. rewrite !is_ascii_append, py_join_ascii; try reflexivity.
    apply Forall_forall. intros x Hin. apply in_map_iff in Hin.
    destruct Hin as (v & <- & Hv). rewrite Forall_forall in IH. now apply IH.
  - cbn [json.dumps]. rewrite !is_ascii_append, py_join_ascii; try reflexivity.
    apply Forall_forall. intros x Hin. apply in_map_iff in Hin.
    destruct Hin as (v & <- & Hv). rewrite Forall_forall in IH. now apply IH.
  - cbn [json.dumps]. rewrite dumps_pairs.
    rewrite !is_ascii_append, py_join_ascii; try reflexivity.
    apply Forall_forall. intros x Hin. apply in_map_iff in Hin.
    destruct Hin as ([k v] & <- & Hv). rewrite Forall_forall in IH.
    unfold dump_pair. cbn [fst snd].
    pose proof (IH (k, v) Hv) as Hkv. cbn [snd] in Hkv.
    now rewrite !is_ascii_append, encode_basestring_ascii_ascii, Hkv.
Qed.

Lemma decode_encode (s : string) :
  well_formed s -> bytes_decode (str_encode s) = Returned s.
Proof.
  unfold well_formed, bytes_decode, str_encode. intros ->.
  now rewrite string_of_list_byte_of_string.
Qed.

(** X21: The wire text of a message is ASCII, whatever the message
    holds; so its UTF-8 bytes always decode, and [Message.loads] gives on
    the bytes [m.dumps().encode('utf-8')] what it gives on the str
    [m.dumps()]. *)
Theorem X21_wire_text_is_ascii (m : Message) (jstr : string) :
  Message.dumps m = Returned jstr ->
  is_ascii jstr = true
  /\ bytes_decode (str_encode jstr) = Returned jstr
  /\ Message.loads (Bytes (str_encode jstr)) = Message.loads (Str jstr).
Proof.
  unfold Message.dumps, MessageSchema.dumps. intros H.
  destruct (MessageSchema.dump m) as [r|e]; [|discriminate].
  cbn [bind marshmallow.data] in H.
  pose proof (dumps_ascii (VDict (marshmallow.data r))) as Hascii.
  replace (json.dumps (VDict (marshmallow.data r))) with jstr in Hascii
    by congruence.
  clear H.
  pose proof (decode_encode _ (is_ascii_well_formed _ Hascii)) as Hdec.
  split; [exact Hascii|]. split; [exact Hdec|].
  unfold Message.loads. cbv beta iota. now rewrite Hdec.
Qed.

Lemma X21_witness :
  exists jstr,
    Message.dumps unicode_message = Returned jstr
    /\ is_ascii jstr = true
    /\ bytes_decode (str_encode jstr) = Returned jstr
    /\ Message.loads (Bytes (str_encode jstr)) = Message.loads (Str jstr).
Proof.
  eexists. split; [reflexivity|].
  apply (X21_wire_text_is_ascii unicode_message). reflexivity.
Defined.
